(** * tjenare: the request mediation engine

    A shallow embedding of [mediator/mediator.go] (host parsing, TLS
    configuration cache, backend hand-off, static file resolution) together
    with the parts of the Go standard library the mediator leans on
    ([strings], [path/filepath], [net/http]'s ResponseWriter contract,
    [errors.Is]), followed by the properties of the mediation engine. *)

From Stdlib Require Import ZArith String Ascii List Bool Lia DecimalString.
From stdpp Require Import base option gmap strings list.

Local Open Scope string_scope.
Local Open Scope Z_scope.

(** ** Go's [strings] package, on byte strings *)

Module GoStrings.

(** [s[n:]] *)
Fixpoint from (n : nat) (s : string) : string :=
  match n, s with
  | O, _ => s
  | S n', String _ s' => from n' s'
  | S _, EmptyString => EmptyString
  end.

(** [s[:n]] *)
Fixpoint upto (n : nat) (s : string) : string :=
  match n, s with
  | O, _ => EmptyString
  | S n', String c s' => String c (upto n' s')
  | S _, EmptyString => EmptyString
  end.

Definition len (s : string) : nat := String.length s.

(** [strings.HasPrefix] *)
Definition HasPrefix (s pre : string) : bool :=
  (len pre <=? len s)%nat && String.eqb (upto (len pre) s) pre.

(** [strings.HasSuffix] *)
Definition HasSuffix (s suf : string) : bool :=
  (len suf <=? len s)%nat && String.eqb (from (len s - len suf) s) suf.

(** [strings.TrimSuffix] *)
Definition TrimSuffix (s suf : string) : string :=
  if HasSuffix s suf then upto (len s - len suf) s else s.

(** [strings.Contains] *)
Fixpoint Contains (s sub : string) : bool :=
  HasPrefix s sub ||
  match s with
  | EmptyString => false
  | String _ s' => Contains s' sub
  end.

(** [strings.Split(s, sep)] for a one-byte separator [sep]. *)
Fixpoint SplitByte (sep : ascii) (s : string) : list string :=
  match s with
  | EmptyString => [EmptyString]
  | String c s' =>
      if Ascii.eqb c sep then EmptyString :: SplitByte sep s'
      else match SplitByte sep s' with
           | [] => [String c EmptyString]
           | x :: xs => String c x :: xs
           end
  end.

(** [strings.Join(elems, sep)] *)
Fixpoint Join (elems : list string) (sep : string) : string :=
  match elems with
  | [] => EmptyString
  | [x] => x
  | x :: xs => x ++ sep ++ Join xs sep
  end.

(** [strings.LastIndexByte(s, c)], [-1] when [c] does not occur. *)
Fixpoint LastIndexByte (s : string) (c : ascii) : Z :=
  match s with
  | EmptyString => -1
  | String d s' =>
      let r := LastIndexByte s' c in
      if 0 <=? r then 1 + r
      else if Ascii.eqb d c then 0 else -1
  end.

(** [strconv.FormatInt(n, 10)] *)
Definition FormatInt (n : Z) : string := NilZero.string_of_int (Z.to_int n).

End GoStrings.

(** ** time: formatting an instant as [http.TimeFormat] *)

Module GoTime.
Import GoStrings.

Fixpoint zeros (n : nat) : string :=
  match n with
  | O => ""
  | S n' => String "0" (zeros n')
  end.

(** [appendInt(b, x, width)]: decimal, zero-padded to [width]. *)
Definition appendInt (x : Z) (width : nat) : string :=
  let digits := FormatInt (Z.abs x) in
  (if (x <? 0)%Z then "-" else "") ++ zeros (width - len digits) ++ digits.

(** Year, month and day of the proleptic Gregorian calendar, from the
    number of days since 1 January 1970. *)
Definition civil (days : Z) : Z * Z * Z :=
  let z := days + 719468 in
  let era := z / 146097 in
  let doe := z - era * 146097 in
  let yoe := (doe - doe / 1460 + doe / 36524 - doe / 146096) / 365 in
  let doy := doe - (365 * yoe + yoe / 4 - yoe / 100) in
  let mp := (5 * doy + 2) / 153 in
  let d := doy - (153 * mp + 2) / 5 + 1 in
  let m := if (mp <? 10)%Z then mp + 3 else mp - 9 in
  let y := yoe + era * 400 + (if (m <=? 2)%Z then 1 else 0) in
  (y, m, d).

Definition shortDayNames : list string :=
  ["Sun"; "Mon"; "Tue"; "Wed"; "Thu"; "Fri"; "Sat"].

Definition shortMonthNames : list string :=
  ["Jan"; "Feb"; "Mar"; "Apr"; "May"; "Jun";
   "Jul"; "Aug"; "Sep"; "Oct"; "Nov"; "Dec"].

(** [t.Format(http.TimeFormat)], the layout being
    [Mon, 02 Jan 2006 15:04:05 GMT], for the instant [t] (seconds since
    the epoch) held in a zone [offset] seconds east of UTC.  The layout
    prints the wall clock of that zone; its [GMT] is literal text. *)
Definition Format_TimeFormat (offset t : Z) : string :=
  let wall := t + offset in
  let days := wall / 86400 in
  let secs := wall mod 86400 in
  let '(y, m, d) := civil days in
  nth (Z.to_nat ((days + 4) mod 7)) shortDayNames "" ++ ", " ++
  appendInt d 2 ++ " " ++
  nth (Z.to_nat (m - 1)) shortMonthNames "" ++ " " ++
  appendInt y 4 ++ " " ++
  appendInt (secs / 3600) 2 ++ ":" ++
  appendInt (secs mod 3600 / 60) 2 ++ ":" ++
  appendInt (secs mod 60) 2 ++ " GMT".

(** The HTTP-date of an instant: [t.UTC().Format(http.TimeFormat)]. *)
Definition HTTPDate (t : Z) : string := Format_TimeFormat 0 t.

End GoTime.

(** ** Go's [path/filepath] package (Unix flavour) *)

Module Filepath.
Import GoStrings.

Definition Separator : ascii := "/"%char.

Definition isSkipped (c : string) : bool :=
  String.eqb c "" || String.eqb c ".".

(** One step of [Clean]'s scan over the elements of the path.  [out] is
    the output written so far, last element first.  Backtracking over
    [..] is possible while [out] holds a real element on top; a [..] that
    cannot backtrack is kept in a relative path and dropped in a rooted
    one. *)
Definition cleanElem (rooted : bool) (out : list string) (c : string)
  : list string :=
  if isSkipped c then out
  else if String.eqb c ".." then
    match out with
    | top :: rest =>
        if String.eqb top ".." then (if rooted then out else c :: out)
        else rest
    | [] => if rooted then out else [c]
    end
  else c :: out.

(** A path element: no separator inside. *)
Definition noSlash (c : string) : Prop := LastIndexByte c Separator = -1.

(** An element [Clean] copies to the output as it is. *)
Definition isReal (c : string) : bool :=
  negb (isSkipped c) && negb (String.eqb c "..").

Definition allDotDot (out : list string) : bool :=
  forallb (fun c => String.eqb c "..") out.

(** The outputs [Clean] can have written (last element first): real
    elements, above a run of [..] elements that is empty in a rooted
    path. *)
Fixpoint cleaned (rooted : bool) (out : list string) : bool :=
  match out with
  | [] => true
  | c :: rest =>
      (isReal c && cleaned rooted rest) || (negb rooted && allDotDot out)
  end.

Definition isRooted (path : string) : bool :=
  match path with
  | String c _ => Ascii.eqb c Separator
  | EmptyString => false
  end.

Definition cleanElems (rooted : bool) (cs : list string) : list string :=
  rev (fold_left (cleanElem rooted) cs []).

(** [filepath.Clean]: collapse repeated separators, drop [.] elements,
    resolve inner [..] elements, drop [..] at the start of a rooted path;
    the empty result is [.]. *)
Definition Clean (path : string) : string :=
  if String.eqb path "" then "."
  else
    let rooted := isRooted path in
    let out := cleanElems rooted (SplitByte Separator path) in
    if rooted then "/" ++ Join out "/"
    else match out with
         | [] => "."
         | _ => Join out "/"
         end.

Fixpoint dropEmpty (elems : list string) : list string :=
  match elems with
  | [] => []
  | e :: rest => if String.eqb e "" then dropEmpty rest else elems
  end.

(** [filepath.Join]: the elements from the first non-empty one on,
    separated by [/], then cleaned; the empty string when every element
    is empty. *)
Definition Join (elems : list string) : string :=
  match dropEmpty elems with
  | [] => ""
  | rest => Clean (GoStrings.Join rest "/")
  end.

(** [filepath.Dir]: everything up to the last separator, cleaned. *)
Definition Dir (path : string) : string :=
  let i := LastIndexByte path Separator in
  Clean (upto (Z.to_nat (i + 1)) path).

(** [filepath.Base]'s notion of the last element, as used by [Ext]:
    [Ext] scans backwards and stops at the first separator. *)
Definition Ext (path : string) : string :=
  let slash := LastIndexByte path Separator in
  let dot := LastIndexByte path "."%char in
  if (0 <=? dot) && (slash <? dot) then from (Z.to_nat dot) path else "".

End Filepath.

(** ** Go [error] values *)

Module GoErrors.

(** The error values the mediator can meet: sentinels, [errors.New],
    [fmt.Errorf] with [%w], the [syscall.Errno] values and the
    [*fs.PathError] of [os] calls. *)
Inductive error : Type :=
| context_Canceled
| context_DeadlineExceeded
| syscall_Errno (code : Z)
| errors_New (msg : string)
| fmt_Errorf (msg : string) (wrapped : error)
| fs_PathError (op path : string) (wrapped : error).

Fixpoint error_eqb (a b : error) : bool :=
  match a, b with
  | context_Canceled, context_Canceled => true
  | context_DeadlineExceeded, context_DeadlineExceeded => true
  | syscall_Errno x, syscall_Errno y => x =? y
  | errors_New x, errors_New y => String.eqb x y
  | fmt_Errorf m x, fmt_Errorf n y => String.eqb m n && error_eqb x y
  | fs_PathError o p x, fs_PathError o' p' y =>
      String.eqb o o' && String.eqb p p' && error_eqb x y
  | _, _ => false
  end.

(** [syscall.ENOENT] *)
Definition syscall_ENOENT : error := syscall_Errno 2.

(** The errnos other than [ENOENT] with which a look-up of a path fails. *)
Inductive Errno : Type :=
| EIO | ENOMEM | EACCES | ENOTDIR | ENFILE | EMFILE | ENAMETOOLONG | ELOOP
| EOVERFLOW.

Definition errnoCode (e : Errno) : Z :=
  match e with
  | EIO => 5
  | ENOMEM => 12
  | EACCES => 13
  | ENOTDIR => 20
  | ENFILE => 23
  | EMFILE => 24
  | ENAMETOOLONG => 36
  | ELOOP => 40
  | EOVERFLOW => 75
  end.

(** [errors.Is]: walk the [Unwrap] chain looking for [target]. *)
Fixpoint errors_Is (err target : error) : bool :=
  error_eqb err target ||
  match err with
  | fmt_Errorf _ inner => errors_Is inner target
  | fs_PathError _ _ inner => errors_Is inner target
  | _ => false
  end.

(** [os.IsNotExist]: looks through a [PathError] only, not through
    [fmt.Errorf] wrappers. *)
Definition os_IsNotExist (err : error) : bool :=
  match err with
  | fs_PathError _ _ inner => error_eqb inner syscall_ENOENT
  | e => error_eqb e syscall_ENOENT
  end.

Inductive Result (A : Type) : Type :=
| Ok (a : A)
| Err (e : error).
Arguments Ok {A} a.
Arguments Err {A} e.

End GoErrors.

(** ** golang.org/x/net/publicsuffix *)

Module Publicsuffix.
Import GoStrings GoErrors.

(** The rule of the public suffix list that prevails when no listed rule
    matches: the last label. *)
Definition defaultRule (domain : string) : string :=
  from (Z.to_nat (1 + LastIndexByte domain "."%char)) domain.

(** [publicsuffix.EffectiveTLDPlusOne], over the list lookup
    [PublicSuffix] (the compiled table is not part of this repository). *)
Definition EffectiveTLDPlusOne (PublicSuffix : string -> string)
    (domain : string) : Result string :=
  if HasPrefix domain "." || HasSuffix domain "." || Contains domain ".."
  then Err (errors_New "publicsuffix: empty label in domain")
  else
    let suffix := PublicSuffix domain in
    if (len domain <=? len suffix)%nat
    then Err (errors_New "publicsuffix: cannot derive eTLD+1 for domain")
    else
      let i := (len domain - len suffix - 1)%nat in
      match String.get i domain with
      | Some "."%char =>
          Ok (from (Z.to_nat (1 + LastIndexByte (upto i domain) "."%char))
                   domain)
      | _ => Err (errors_New "publicsuffix: invalid public suffix for domain")
      end.

End Publicsuffix.

(** ** config: the configuration data model *)

Module Config.

(** [*url.URL], kept as the text it was parsed from *)
Record url_URL : Type := { urlText : string }.

(** [*httputil.ReverseProxy] as built by [createReverseProxy]: its
    [Rewrite] and [ErrorHandler] closures capture the backend's URL and
    target string. *)
Record httputil_ReverseProxy : Type := {
  rpURL : url_URL;
  rpTarget : string
}.

Record tls_Certificate : Type := { certChain : string; certKey : string }.

Record tls_Config : Type := {
  Certificates : list tls_Certificate;
  NextProtos : list string
}.

Record BackendConfig : Type := {
  Target : string;
  URL : option url_URL;
  ReverseProxy : option httputil_ReverseProxy
}.

Record DomainConfig : Type := {
  BasePath : string;
  Default : string;
  Subdir : string;
  CertFile : string;
  (** [time.Time] as an instant on the time line *)
  CertTime : Z;
  (** [*tls.Config]: the address of the cached object, [None] for nil *)
  CertConfig : option nat;
  KeyFile : string;
  (** Modelled from the spec: the "index fallback enabled" flag of a
      DomainConfig, read by [serveFile] as [domconfig.IndexFallback]; the
      struct declaration under src/ predates the field. *)
  IndexFallback : bool;
  Backends : gmap string BackendConfig
}.

Record ServerConfig : Type := {
  TLSPort : Z;
  InsecurePort : Z;
  LogFile : string;
  Domains : gmap string DomainConfig
}.

Definition setURL (u : option url_URL) (b : BackendConfig) : BackendConfig :=
  {| Target := Target b; URL := u; ReverseProxy := ReverseProxy b |}.

Definition setReverseProxy (p : option httputil_ReverseProxy)
    (b : BackendConfig) : BackendConfig :=
  {| Target := Target b; URL := URL b; ReverseProxy := p |}.

Definition setCert (t : Z) (c : option nat) (d : DomainConfig) : DomainConfig :=
  {| BasePath := BasePath d; Default := Default d; Subdir := Subdir d;
     CertFile := CertFile d; CertTime := t; CertConfig := c;
     KeyFile := KeyFile d; IndexFallback := IndexFallback d;
     Backends := Backends d |}.

Definition setBackends (bs : gmap string BackendConfig) (d : DomainConfig)
  : DomainConfig :=
  {| BasePath := BasePath d; Default := Default d; Subdir := Subdir d;
     CertFile := CertFile d; CertTime := CertTime d;
     CertConfig := CertConfig d; KeyFile := KeyFile d;
     IndexFallback := IndexFallback d; Backends := bs |}.

Definition setDomains (ds : gmap string DomainConfig) (c : ServerConfig)
  : ServerConfig :=
  {| TLSPort := TLSPort c; InsecurePort := InsecurePort c;
     LogFile := LogFile c; Domains := ds |}.

End Config.

(** ** The world outside the mediator *)

Module World.
Import GoStrings GoErrors Config.

(** What [os.Stat] and [os.Open] find at a path.  A path that is not a key
    of the file map does not exist ([ENOENT]); [Unreachable] is for the
    other ways a look-up fails (a file on the way, a permission), with
    their errno. *)
Inductive Node : Type :=
| RegularFile (modTime : Z) (data : string) (openable : bool)
| Directory (modTime : Z) (size : Z)
| Unreachable (errno : Errno).

Record FileInfo : Type := {
  IsDir : bool;
  Size : Z;
  ModTime : Z
}.

(** [*http.Request].  The mediator itself reads the host and the remote
    address (and the path, which is part of the state: the file resolver
    rewrites it); method, header and body it only passes on, with the
    rest, to the reverse proxy of a backend. *)
Record Request : Type := {
  Host : string;
  RemoteAddr : string;
  Method : string;
  ReqHeader : list (string * string);
  ReqBody : string
}.

(** What the transport of a reverse proxy comes back with. *)
Inductive Upstream : Type :=
| UpstreamResponse (code : Z) (header : list (string * string)) (body : string)
| UpstreamError (err : error).

(** Everything the mediator reads but does not own. *)
Record Env : Type := {
  (** the public suffix list lookup, [publicsuffix.PublicSuffix] *)
  PublicSuffix : string -> string;
  (** the file system *)
  files : gmap string Node;
  (** [mime.TypeByExtension] *)
  TypeByExtension : string -> string;
  (** [time.Local], the zone [os.Stat] reports times in: its offset east
      of UTC, in seconds, at an instant *)
  Local : Z -> Z;
  (** [url.Parse] on a string without control bytes *)
  parseURL : string -> Result url_URL;
  (** [tls.LoadX509KeyPair] *)
  LoadX509KeyPair : string -> string -> Result tls_Certificate;
  (** the upstream's answer to a proxied request: the target URL, the
      inbound request as the proxy forwards it ([SetXForwarded] passes its
      host and remote address on) and the request path *)
  roundTrip : url_URL -> Request -> string -> Upstream;
  (** [Some n]: the client connection breaks after [n] more body bytes *)
  clientBreak : option nat;
  (** [file.Close] on the file opened at a path: the error it returns, if
      any *)
  closeError : string -> option error
}.

(** [fileInfo.ModTime().Format(http.TimeFormat)]: the time is formatted
    in the zone it is held in, [time.Local]. *)
Definition FormatHTTPTime (env : Env) (t : Z) : string :=
  GoTime.Format_TimeFormat (Local env t) t.

(** [os.Stat] *)
Definition os_Stat (env : Env) (path : string) : Result FileInfo :=
  match files env !! path with
  | None => Err (fs_PathError "stat" path syscall_ENOENT)
  | Some (Unreachable errno) =>
      Err (fs_PathError "stat" path (syscall_Errno (errnoCode errno)))
  | Some (Directory mt sz) => Ok {| IsDir := true; Size := sz; ModTime := mt |}
  | Some (RegularFile mt data _) =>
      Ok {| IsDir := false; Size := Z.of_nat (len data); ModTime := mt |}
  end.

(** An open [*os.File]: what reading it to the end yields. *)
Inductive File : Type :=
| FileOf (data : string)
| DirectoryHandle.

(** [os.Open] *)
Definition os_Open (env : Env) (path : string) : Result File :=
  match files env !! path with
  | None => Err (fs_PathError "open" path syscall_ENOENT)
  | Some (Unreachable errno) =>
      Err (fs_PathError "open" path (syscall_Errno (errnoCode errno)))
  | Some (Directory _ _) => Ok DirectoryHandle
  | Some (RegularFile _ data true) => Ok (FileOf data)
  | Some (RegularFile _ _ false) => Err (fs_PathError "open" path (syscall_Errno 13))
  end.

Definition isCTL (c : ascii) : bool :=
  let n := Ascii.nat_of_ascii c in (n <? 32)%nat || (n =? 127)%nat.

Fixpoint stringContainsCTLByte (s : string) : bool :=
  match s with
  | EmptyString => false
  | String c s' => isCTL c || stringContainsCTLByte s'
  end.

(** [url.Parse]: a control byte anywhere is refused before any parsing. *)
Definition url_Parse (env : Env) (rawURL : string) : Result url_URL :=
  if stringContainsCTLByte rawURL
  then Err (errors_New "net/url: invalid control character in URL")
  else parseURL env rawURL.

End World.

(** ** net/http: the handler's side of a request *)

Module Http.
Import GoStrings GoErrors Config World.

Definition StatusOK : Z := 200.
Definition StatusNotFound : Z := 404.
Definition StatusInternalServerError : Z := 500.
Definition StatusBadGateway : Z := 502.

(** [http.ResponseWriter].  [wroteHeader] lists the status codes given to
    [WriteHeader], explicitly or by the first [Write], in call order: the
    first is the status of the response, any further one is superfluous. *)
Record ResponseWriter : Type := {
  Header : gmap string string;
  wroteHeader : list Z;
  Body : string
}.

Definition freshWriter : ResponseWriter :=
  {| Header := ∅; wroteHeader := []; Body := "" |}.

(** The lines handed to [log.Printf], one constructor per call site. *)
Inductive LogLine : Type :=
| LogHostError (host : string) (err : error)
| LogNoSuchDomain (host : string)
| LogUpstreamError (remote target : string) (err : error)
| LogServerNameError (name : string) (err : error)
| LogNoDomainConfig (domain : string)
| LogCertLoadError (certFile keyFile : string) (err : error)
| LogCertLoaded (certFile keyFile : string)
| LogProxyCreateError (target : string) (err : error)
| LogHandoff (remote subdomain domain path target : string)
| LogCircularFallback (remote path urlPath : string)
| LogIndexFallback (remote path urlPath : string)
| LogNotExist (remote path : string)
| LogStatError (remote path : string) (err : error)
| LogOpenError (remote path : string) (err : error)
| LogCopyError (remote path : string) (err : error)
| LogServed (remote : string) (n : Z) (path : string)
| LogCloseError (path : string) (err : error).

(** The calls out of the process that the trace records: look-ups, loads
    and round trips (not the reads from an open file, nor its closing). *)
Inductive SysCall : Type :=
| SysStat (path : string)
| SysOpen (path : string)
| SysLoadKeyPair (certFile keyFile : string)
| SysRoundTrip (target : url_URL) (path : string).

(** The mutable state a handler or handshake callback works on. *)
Record State : Type := {
  (** [med.ServerConfig] and all it points to *)
  cfg : ServerConfig;
  (** the [*tls.Config] objects allocated so far; a pointer is an index *)
  heap : list tls_Config;
  (** log output, oldest line first *)
  logs : list LogLine;
  (** calls out of the process, oldest first *)
  sys : list SysCall;
  (** [w] *)
  resp : ResponseWriter;
  (** [r.URL.Path] *)
  urlPath : string
}.

Definition M (A : Type) : Type := State -> A * State.

Definition ret {A} (a : A) : M A := fun s => (a, s).
Definition bind {A B} (m : M A) (k : A -> M B) : M B :=
  fun s => let '(a, s') := m s in k a s'.

Definition get : M State := fun s => (s, s).
Definition modify (f : State -> State) : M unit := fun s => (tt, f s).

Definition withCfg (f : ServerConfig -> ServerConfig) (s : State) : State :=
  {| cfg := f (cfg s); heap := heap s; logs := logs s; sys := sys s;
     resp := resp s; urlPath := urlPath s |}.
Definition withHeap (f : list tls_Config -> list tls_Config) (s : State) : State :=
  {| cfg := cfg s; heap := f (heap s); logs := logs s; sys := sys s;
     resp := resp s; urlPath := urlPath s |}.
Definition withLogs (f : list LogLine -> list LogLine) (s : State) : State :=
  {| cfg := cfg s; heap := heap s; logs := f (logs s); sys := sys s;
     resp := resp s; urlPath := urlPath s |}.
Definition withSys (f : list SysCall -> list SysCall) (s : State) : State :=
  {| cfg := cfg s; heap := heap s; logs := logs s; sys := f (sys s);
     resp := resp s; urlPath := urlPath s |}.
Definition withResp (f : ResponseWriter -> ResponseWriter) (s : State) : State :=
  {| cfg := cfg s; heap := heap s; logs := logs s; sys := sys s;
     resp := f (resp s); urlPath := urlPath s |}.
Definition withURLPath (p : string) (s : State) : State :=
  {| cfg := cfg s; heap := heap s; logs := logs s; sys := sys s;
     resp := resp s; urlPath := p |}.

Definition logged (l : LogLine) : State -> State :=
  withLogs (fun ls => (ls ++ [l])%list).
Definition called (c : SysCall) : State -> State :=
  withSys (fun cs => (cs ++ [c])%list).

Definition log_Printf (l : LogLine) : M unit := modify (logged l).
Definition syscall (c : SysCall) : M unit := modify (called c).

(** [w.WriteHeader(code)] *)
Definition writeHeader (code : Z) (w : ResponseWriter) : ResponseWriter :=
  {| Header := Header w; wroteHeader := (wroteHeader w ++ [code])%list; Body := Body w |}.

(** [w.Write(p)]: "if WriteHeader has not yet been called, Write calls
    WriteHeader(http.StatusOK) before writing the data". *)
Definition write (p : string) (w : ResponseWriter) : ResponseWriter :=
  let w' := match wroteHeader w with
            | [] => writeHeader StatusOK w
            | _ => w
            end in
  {| Header := Header w'; wroteHeader := wroteHeader w'; Body := Body w' ++ p |}.

(** [w.Header().Set(key, value)] *)
Definition headerSet (key value : string) (w : ResponseWriter) : ResponseWriter :=
  {| Header := <[key := value]> (Header w); wroteHeader := wroteHeader w;
     Body := Body w |}.

(** [w.WriteHeader(code)] followed by [w.Write(body)] *)
Definition respond (code : Z) (body : string) : State -> State :=
  withResp (fun w => write body (writeHeader code w)).

Definition WriteHeader (code : Z) : M unit := modify (withResp (writeHeader code)).
Definition Write (p : string) : M unit := modify (withResp (write p)).
Definition Header_Set (key value : string) : M unit :=
  modify (withResp (headerSet key value)).


(** [io.Copy(w, file)]: the bytes read are written to [w] until the file
    ends, a read fails, or the client connection breaks. *)
Definition io_Copy (env : Env) (file : File) : M (Z * option error) :=
  match file with
  | DirectoryHandle =>
      ret (0, Some (fs_PathError "read" "" (syscall_Errno 21)))
  | FileOf data =>
      if String.eqb data "" then ret (0, None)
      else
        let sent := match clientBreak env with
                    | Some n => if (n <? len data)%nat then upto n data else data
                    | None => data
                    end in
        let failed := match clientBreak env with
                      | Some n => (n <? len data)%nat
                      | None => false
                      end in
        bind (Write sent) (fun _ =>
        ret (Z.of_nat (len sent),
             if failed then Some (errors_New "write: broken pipe") else None))
  end.

End Http.

(** ** mediator *)

Module Mediator.
Import GoStrings GoErrors Config World Http.

Notation "'let*' x ':=' m 'in' k" := (bind m (fun x => k))
  (at level 10, x pattern, m at level 100, k at level 200).

Definition errorBody : string :=
  "An error was encountered while processing your request.".
Definition notFoundBody : string := "The requested file does not exist".
Definition notOpenedBody : string := "The requested file could not be opened".
Definition badGatewayBody : string := "SOMETHING ERROR HAPPEN".

(** [strings.Split(r.Host, ":")[0]] *)
Definition hostOnly (host : string) : string :=
  match SplitByte ":"%char host with
  | h :: _ => h
  | [] => ""
  end.

(** [Mediator.parseRequest] *)
Definition parseRequest (env : Env) (r : Request) : Result (string * string) :=
  let host := hostOnly (Host r) in
  match Publicsuffix.EffectiveTLDPlusOne (PublicSuffix env) host with
  | Err err => Err (fmt_Errorf "could not parse request into pieces" err)
  | Ok domain =>
      let subdomain := TrimSuffix host domain in
      let subdomain := TrimSuffix subdomain "." in
      Ok (domain, subdomain)
  end.

(** The [ErrorHandler] closure of [createReverseProxy]. *)
Definition ErrorHandler (target : string) (r : Request) (err : error) : M unit :=
  if errors_Is err context_Canceled then ret tt
  else
    let* _ := log_Printf (LogUpstreamError (RemoteAddr r) target err) in
    let* _ := WriteHeader StatusBadGateway in
    Write badGatewayBody.

(** [Mediator.createReverseProxy]: the error, or the proxy together with
    the backend as the call leaves it ([URL] filled in). *)
Definition createReverseProxy (env : Env) (backend : BackendConfig)
  : Result (httputil_ReverseProxy * BackendConfig) :=
  match URL backend with
  | Some u => Ok ({| rpURL := u; rpTarget := Target backend |}, backend)
  | None =>
      match url_Parse env (Target backend) with
      | Err err => Err (fmt_Errorf "parsing backend target" err)
      | Ok u =>
          Ok ({| rpURL := u; rpTarget := Target backend |},
              setURL (Some u) backend)
      end
  end.

Fixpoint setHeaders (kvs : list (string * string)) : M unit :=
  match kvs with
  | [] => ret tt
  | (k, v) :: rest => let* _ := Header_Set k v in setHeaders rest
  end.

(** [httputil.ReverseProxy.ServeHTTP]: send the rewritten request upstream;
    relay the upstream's status, header and body, or call the error
    handler. *)
Definition ReverseProxy_ServeHTTP (env : Env) (p : httputil_ReverseProxy)
    (r : Request) : M unit :=
  let* s := get in
  let* _ := syscall (SysRoundTrip (rpURL p) (urlPath s)) in
  match roundTrip env (rpURL p) r (urlPath s) with
  | UpstreamError err => ErrorHandler (rpTarget p) r err
  | UpstreamResponse code header body =>
      let* _ := setHeaders header in
      let* _ := WriteHeader code in
      if String.eqb body "" then ret tt else Write body
  end.

(** In-place update of the domain configuration [domain] points to. *)
Definition storeDomain (domain : string) (d : DomainConfig) : M unit :=
  modify (withCfg (fun c => setDomains (<[domain := d]> (Domains c)) c)).

(** In-place update of one backend of a domain. *)
Definition storeBackend (domain subdomain : string) (b : BackendConfig) : M unit :=
  modify (withCfg (fun c =>
    setDomains
      (alter (fun d => setBackends (<[subdomain := b]> (Backends d)) d)
             domain (Domains c)) c)).

(** [&tls.Config{...}]: a new object at a new address. *)
Definition alloc (c : tls_Config) : M nat :=
  fun s => (length (heap s), withHeap (fun h => (h ++ [c])%list) s).

Record ClientHelloInfo : Type := { ServerName : string }.

(** [time.Time.Before] *)
Definition Before (t u : Z) : bool := t <? u.

(** The [domain] variable of [getConfigForClient]: the registrable domain
    of the server name, the empty string when it has none. *)
Definition serverNameDomain (env : Env) (name : string) : string :=
  match Publicsuffix.EffectiveTLDPlusOne (PublicSuffix env) name with
  | Ok d => d
  | Err _ => ""
  end.

(** [Mediator.getConfigForClient] *)
Definition getConfigForClient (env : Env) (hello : ClientHelloInfo)
  : M (Result nat) :=
  if String.eqb (ServerName hello) ""
  then ret (Err (errors_New "TLS ClientHello has no ServerName"))
  else
    let parsed := Publicsuffix.EffectiveTLDPlusOne (PublicSuffix env)
                    (ServerName hello) in
    let domain := serverNameDomain env (ServerName hello) in
    let* _ := match parsed with
              | Err err => log_Printf (LogServerNameError (ServerName hello) err)
              | Ok _ => ret tt
              end in
    let* s := get in
    match Domains (cfg s) !! domain with
    | None =>
        let* _ := log_Printf (LogNoDomainConfig domain) in
        ret (Err (errors_New "configuration contains no such domain"))
    | Some domconf =>
        let* _ := syscall (SysStat (CertFile domconf)) in
        match os_Stat env (CertFile domconf) with
        | Err err => ret (Err (fmt_Errorf "stat certfile" err))
        | Ok info =>
            let* domconf :=
              if Before (CertTime domconf) (ModTime info)
              then
                let stale := setCert (ModTime info) None domconf in
                let* _ := storeDomain domain stale in
                ret stale
              else ret domconf in
            match CertConfig domconf with
            | Some config => ret (Ok config)
            | None =>
                let* _ := syscall (SysLoadKeyPair (CertFile domconf)
                                                  (KeyFile domconf)) in
                match LoadX509KeyPair env (CertFile domconf) (KeyFile domconf) with
                | Err err =>
                    let* _ := log_Printf (LogCertLoadError (CertFile domconf)
                                            (KeyFile domconf) err) in
                    ret (Err (fmt_Errorf "loading key pair" err))
                | Ok cert =>
                    let* _ := log_Printf (LogCertLoaded (CertFile domconf)
                                            (KeyFile domconf)) in
                    let* config := alloc {| Certificates := [cert];
                                            NextProtos := ["h2"; "http/1.1"] |} in
                    let* _ := storeDomain domain
                                (setCert (CertTime domconf) (Some config) domconf) in
                    ret (Ok config)
                end
            end
        end
    end.

(** The state after the log line [getConfigForClient] writes for a server
    name without a registrable domain. *)
Definition afterNameCheck (env : Env) (hello : ClientHelloInfo) (s : State)
  : State :=
  match Publicsuffix.EffectiveTLDPlusOne (PublicSuffix env) (ServerName hello) with
  | Err err => logged (LogServerNameError (ServerName hello) err) s
  | Ok _ => s
  end.

(** Consecutive handshakes, each with its own ClientHello and under the
    environment of its moment. *)
Fixpoint handshakes (hs : list (Env * ClientHelloInfo))
  : M (list (Result nat)) :=
  match hs with
  | [] => ret []
  | (env, hello) :: rest =>
      let* c := getConfigForClient env hello in
      let* cs := handshakes rest in
      ret (c :: cs)
  end.

Definition isLoadKeyPair (c : SysCall) : bool :=
  match c with
  | SysLoadKeyPair _ _ => true
  | _ => false
  end.

(** The number of [tls.LoadX509KeyPair] calls made so far. *)
Definition loads (s : State) : nat :=
  length (List.filter isLoadKeyPair (sys s)).

(** [Mediator.getCertificate] *)
Definition getCertificate (hello : ClientHelloInfo)
  : option tls_Certificate * option error := (None, None).

(** [Mediator.handoff] *)
Definition handoff (env : Env) (domconfig : DomainConfig)
    (domain subdomain : string) (r : Request) : M bool :=
  match Backends domconfig !! subdomain with
  | None => ret false
  | Some backend =>
      let run (proxy : httputil_ReverseProxy) : M bool :=
        let* s := get in
        let* _ := log_Printf (LogHandoff (RemoteAddr r) subdomain domain
                                (urlPath s) (Target backend)) in
        let* _ := ReverseProxy_ServeHTTP env proxy r in
        ret true in
      match ReverseProxy backend with
      | Some proxy => run proxy
      | None =>
          match createReverseProxy env backend with
          | Err err =>
              let* _ := WriteHeader StatusInternalServerError in
              let* _ := Write errorBody in
              let* _ := log_Printf (LogProxyCreateError (Target backend) err) in
              ret true
          | Ok (proxy, backend') =>
              let* _ := storeBackend domain subdomain
                          (setReverseProxy (Some proxy) backend') in
              run proxy
          end
      end
  end.

(** The path [serveFile] looks up first: lines 185-190. *)
Definition candidatePath (domconfig : DomainConfig) (subdomain urlPath : string)
  : string :=
  let path := urlPath in
  let path := if HasSuffix path "/" then path ++ "index.html" else path in
  let path := Filepath.Join [BasePath domconfig; subdomain;
                             Subdir domconfig; path] in
  Filepath.Clean path.

(** The deferred function of [serveFile], lines 238-243: it runs at every
    return that follows a successful [os.Open]. *)
Definition closeFile (env : Env) (path : string) : M unit :=
  match closeError env path with
  | Some err => log_Printf (LogCloseError path err)
  | None => ret tt
  end.

(** The line the deferred function logs, if any. *)
Definition closeLog (env : Env) (path : string) : list LogLine :=
  match closeError env path with
  | Some err => [LogCloseError path err]
  | None => []
  end.

(** The state the deferred function leaves. *)
Definition closed (env : Env) (path : string) : State -> State :=
  withLogs (fun ls => (ls ++ closeLog env path)%list).

(** The tail of [serveFile] from [os.Open] on: lines 231-259. *)
Definition sendFile (env : Env) (r : Request) (path : string)
    (fileInfo : FileInfo) : M bool :=
  let* _ := syscall (SysOpen path) in
  match os_Open env path with
  | Err err =>
      let* _ := WriteHeader StatusNotFound in
      let* _ := Write notOpenedBody in
      let* _ := log_Printf (LogOpenError (RemoteAddr r) path err) in
      ret false
  | Ok file =>
      let* _ := Header_Set "Content-Length" (FormatInt (Size fileInfo)) in
      let* _ := Header_Set "Last-Modified"
                  (FormatHTTPTime env (ModTime fileInfo)) in
      let contentType := TypeByExtension env (Filepath.Ext path) in
      let* _ := if String.eqb contentType "" then ret tt
                else Header_Set "Content-Type" contentType in
      let* (n, err) := io_Copy env file in
      match err with
      | Some err =>
          let* _ := log_Printf (LogCopyError (RemoteAddr r) path err) in
          let* _ := closeFile env path in
          ret false
      | None =>
          let* _ := log_Printf (LogServed (RemoteAddr r) n path) in
          let* _ := closeFile env path in
          ret false
      end
  end.

(** [Mediator.serveFile]; the result is the "retry" signal. *)
Definition serveFile (env : Env) (domconfig : DomainConfig)
    (subdomain : string) (r : Request) : M bool :=
  let* s := get in
  let path := candidatePath domconfig subdomain (urlPath s) in
  let* _ := syscall (SysStat path) in
  match os_Stat env path with
  | Err err =>
      if os_IsNotExist err then
        if IndexFallback domconfig then
          if HasSuffix (urlPath s) "/index.html" then
            let* _ := log_Printf (LogCircularFallback (RemoteAddr r) path
                                    (urlPath s)) in
            let* _ := WriteHeader StatusNotFound in
            let* _ := Write notFoundBody in
            ret false
          else
            let newPath := Filepath.Dir (urlPath s) ++ "/index.html" in
            let* _ := modify (withURLPath newPath) in
            let* _ := log_Printf (LogIndexFallback (RemoteAddr r) path newPath) in
            ret true
        else
          let* _ := log_Printf (LogNotExist (RemoteAddr r) path) in
          let* _ := WriteHeader StatusNotFound in
          let* _ := Write notFoundBody in
          ret false
      else
        let* _ := log_Printf (LogStatError (RemoteAddr r) path err) in
        let* _ := WriteHeader StatusNotFound in
        let* _ := Write notFoundBody in
        ret false
  | Ok fileInfo =>
      if IsDir fileInfo then
        let path := path ++ "/index.html" in
        let* _ := syscall (SysStat path) in
        match os_Stat env path with
        | Err err =>
            let* _ := WriteHeader StatusNotFound in
            let* _ := Write notFoundBody in
            let* _ := if os_IsNotExist err
                      then log_Printf (LogNotExist (RemoteAddr r) path)
                      else log_Printf (LogStatError (RemoteAddr r) path err) in
            ret false
        | Ok fileInfo => sendFile env r path fileInfo
        end
      else sendFile env r path fileInfo
  end.

(** [Mediator.ServeHTTP] *)
Definition ServeHTTP (env : Env) (r : Request) : M unit :=
  match parseRequest env r with
  | Err err =>
      let* _ := WriteHeader StatusInternalServerError in
      let* _ := Write errorBody in
      log_Printf (LogHostError (Host r) err)
  | Ok (domain, subdomain) =>
      let* s := get in
      match Domains (cfg s) !! domain with
      | None =>
          let* _ := WriteHeader StatusInternalServerError in
          let* _ := Write errorBody in
          log_Printf (LogNoSuchDomain (Host r))
      | Some domconfig =>
          let subdomain :=
            if String.eqb subdomain "" then Default domconfig else subdomain in
          let* handled := handoff env domconfig domain subdomain r in
          if handled then ret tt
          else
            let* retry := serveFile env domconfig subdomain r in
            if retry
            then let* _ := serveFile env domconfig subdomain r in ret tt
            else ret tt
      end
  end.

(** [n] consecutive invocations of a resolver, return values dropped. *)
Fixpoint invocations (n : nat) (resolve : M bool) : M unit :=
  match n with
  | O => ret tt
  | S n' => let* _ := resolve in invocations n' resolve
  end.


Definition isCloseLine (l : LogLine) : bool :=
  match l with
  | LogCloseError _ _ => true
  | _ => false
  end.



End Mediator.

(** ** The redirect package *)

Module Redirect.
Import GoStrings World Http.

Record Redirect : Type := { TargetPort : Z }.

(** The [target.Host] that [Redirect.ServeHTTP] computes: the request's
    host without its port, and the target port unless it is 443. *)
Definition targetHost (red : Redirect) (r : Request) : string :=
  let host := match SplitByte ":"%char (Host r) with
              | h :: _ => h
              | [] => ""
              end in
  if TargetPort red =? 443 then host
  else host ++ ":" ++ FormatInt (TargetPort red).

End Redirect.

(** ** A running example: the configuration of the README *)

Module Example.
Import GoStrings GoErrors Config World Http Mediator.

Definition apiBackend : BackendConfig :=
  {| Target := "http://127.0.0.1:9000"; URL := None; ReverseProxy := None |}.

Definition exampleDomain : DomainConfig :=
  {| BasePath := "/var/www/html/example";
     Default := "www";
     Subdir := "public_html";
     CertFile := "/etc/letsencrypt/live/example.com/fullchain.pem";
     CertTime := 0;
     CertConfig := None;
     KeyFile := "/etc/letsencrypt/live/example.com/privkey.pem";
     IndexFallback := true;
     Backends := {[ "api" := apiBackend ]} |}.

Definition exampleConfig : ServerConfig :=
  {| TLSPort := 443; InsecurePort := 80; LogFile := "/var/log/tjenare.log";
     Domains := {[ "example.com" := exampleDomain ]} |}.

Definition exampleFiles : gmap string Node :=
  {[ "/var/www/html/example/www/public_html/index.html" :=
       RegularFile 1700000000 "<h1>hello</h1>" true;
     "/var/www/html/example/www/public_html/empty.txt" :=
       RegularFile 1700000001 "" true;
     "/var/www/html/example/www/public_html" := Directory 1700000002 4096;
     "/etc/letsencrypt/live/example.com/fullchain.pem" :=
       RegularFile 1700000003 "-----BEGIN CERTIFICATE-----" true ]}.

Definition exampleEnv : Env :=
  {| PublicSuffix := Publicsuffix.defaultRule;
     files := exampleFiles;
     TypeByExtension := fun ext =>
       if String.eqb ext ".html" then "text/html; charset=utf-8" else "";
     Local := fun _ => 0;
     parseURL := fun raw => Ok {| urlText := raw |};
     LoadX509KeyPair := fun c k => Ok {| certChain := c; certKey := k |};
     roundTrip := fun _ _ _ => UpstreamResponse 200 [] "pong";
     clientBreak := None;
     closeError := fun _ => None |}.

(** A backend whose target string ends in a line feed, as a JSON escape
    in the configuration file gives it. *)
Definition brokenBackend : BackendConfig :=
  {| Target := "http://127.0.0.1:9000" ++ String (Ascii.ascii_of_nat 10) "";
     URL := None; ReverseProxy := None |}.

Definition brokenConfig : ServerConfig :=
  {| TLSPort := 443; InsecurePort := 80; LogFile := "";
     Domains := {[ "example.com" :=
                     setBackends {[ "api" := brokenBackend ]} exampleDomain ]} |}.

(** The example environment after the certificate file was renewed. *)
Definition renewedEnv : Env :=
  {| PublicSuffix := PublicSuffix exampleEnv;
     files := <[ "/etc/letsencrypt/live/example.com/fullchain.pem" :=
                   RegularFile 1707776000 "-----BEGIN CERTIFICATE-----" true ]>
                exampleFiles;
     TypeByExtension := TypeByExtension exampleEnv;
     Local := Local exampleEnv;
     parseURL := parseURL exampleEnv;
     LoadX509KeyPair := LoadX509KeyPair exampleEnv;
     roundTrip := roundTrip exampleEnv;
     clientBreak := None;
     closeError := fun _ => None |}.

(** The example environment with the backend down. *)
Definition downEnv : Env :=
  {| PublicSuffix := PublicSuffix exampleEnv;
     files := exampleFiles;
     TypeByExtension := TypeByExtension exampleEnv;
     Local := Local exampleEnv;
     parseURL := parseURL exampleEnv;
     LoadX509KeyPair := LoadX509KeyPair exampleEnv;
     roundTrip := fun _ _ _ =>
       UpstreamError (fs_PathError "dial" "127.0.0.1:9000" (syscall_Errno 111));
     clientBreak := None;
     closeError := fun _ => None |}.

Definition start (c : ServerConfig) (path : string) : State :=
  {| cfg := c; heap := []; logs := []; sys := []; resp := freshWriter;
     urlPath := path |}.

Definition request (host : string) : Request :=
  {| Host := host; RemoteAddr := "192.0.2.7:51234"; Method := "GET";
     ReqHeader := []; ReqBody := "" |}.

End Example.

(** ** More situations around the running example *)

Module Scenario.
Import GoStrings GoErrors Config World Http Mediator.

(** The example tree with a directory that has no [index.html] and a file
    the server may not open. *)
Definition moreFiles : gmap string Node :=
  <[ "/var/www/html/example/www/public_html/docs" := Directory 1700000004 4096 ]>
    (<[ "/var/www/html/example/www/public_html/secret.txt" :=
          RegularFile 1700000005 "hunter2" false ]>
       Example.exampleFiles).

Definition withFiles (fs : gmap string Node) (brk : option nat) (env : Env) : Env :=
  {| PublicSuffix := PublicSuffix env;
     files := fs;
     TypeByExtension := TypeByExtension env;
     Local := Local env;
     parseURL := parseURL env;
     LoadX509KeyPair := LoadX509KeyPair env;
     roundTrip := roundTrip env;
     clientBreak := brk;
     closeError := closeError env |}.

Definition moreEnv : Env := withFiles moreFiles None Example.exampleEnv.

(** The renewed certificate does not load: the key does not match. *)
Definition mismatchEnv : Env :=
  {| PublicSuffix := PublicSuffix Example.renewedEnv;
     files := files Example.renewedEnv;
     TypeByExtension := TypeByExtension Example.renewedEnv;
     Local := Local Example.renewedEnv;
     parseURL := parseURL Example.renewedEnv;
     LoadX509KeyPair := fun _ _ =>
       Err (errors_New "tls: private key does not match public key");
     roundTrip := roundTrip Example.renewedEnv;
     clientBreak := None;
     closeError := fun _ => None |}.

(** A second domain beside the example's. *)
Definition twoDomains : ServerConfig :=
  setDomains
    (<[ "example.org" :=
          setCert 1600000000 None (setBackends ∅ Example.exampleDomain) ]>
       (Domains Example.exampleConfig))
    Example.exampleConfig.

(** A state in which the example domain has a configuration cached. *)
Definition cachedState : State :=
  snd (getConfigForClient Example.exampleEnv
         {| ServerName := "www.example.com" |}
         (Example.start Example.exampleConfig "")).

(** The example environment with a client that leaves after four bytes. *)
Definition hastyEnv : Env :=
  withFiles Example.exampleFiles (Some 4%nat) Example.exampleEnv.

(** The example environment once no target string parses any more. *)
Definition noParseEnv : Env :=
  {| PublicSuffix := PublicSuffix Example.exampleEnv;
     files := files Example.exampleEnv;
     TypeByExtension := TypeByExtension Example.exampleEnv;
     Local := Local Example.exampleEnv;
     parseURL := fun _ => Err (errors_New "parse: no targets today");
     LoadX509KeyPair := LoadX509KeyPair Example.exampleEnv;
     roundTrip := roundTrip Example.exampleEnv;
     clientBreak := None;
     closeError := fun _ => None |}.

(** The example environment with a backend that answers with the host it
    was asked for. *)
Definition echoEnv : Env :=
  {| PublicSuffix := PublicSuffix Example.exampleEnv;
     files := files Example.exampleEnv;
     TypeByExtension := TypeByExtension Example.exampleEnv;
     Local := Local Example.exampleEnv;
     parseURL := parseURL Example.exampleEnv;
     LoadX509KeyPair := LoadX509KeyPair Example.exampleEnv;
     roundTrip := fun _ r _ => UpstreamResponse 200 [] (Host r);
     clientBreak := None;
     closeError := fun _ => None |}.

(** The example server in a zone one hour east of UTC. *)
Definition osloEnv : Env :=
  {| PublicSuffix := PublicSuffix Example.exampleEnv;
     files := files Example.exampleEnv;
     TypeByExtension := TypeByExtension Example.exampleEnv;
     Local := fun _ => 3600;
     parseURL := parseURL Example.exampleEnv;
     LoadX509KeyPair := LoadX509KeyPair Example.exampleEnv;
     roundTrip := roundTrip Example.exampleEnv;
     clientBreak := None;
     closeError := fun _ => None |}.

(** A file system on which closing a file fails with an input/output
    error, and a page below [docs/guide] reached by index fallback. *)
Definition leakyEnv : Env :=
  {| PublicSuffix := PublicSuffix Example.exampleEnv;
     files := <[ "/var/www/html/example/www/public_html/docs/guide/index.html" :=
                   RegularFile 1700000006 "<h1>guide</h1>" true ]>
                Example.exampleFiles;
     TypeByExtension := TypeByExtension Example.exampleEnv;
     Local := Local Example.exampleEnv;
     parseURL := parseURL Example.exampleEnv;
     LoadX509KeyPair := LoadX509KeyPair Example.exampleEnv;
     roundTrip := roundTrip Example.exampleEnv;
     clientBreak := None;
     closeError := fun path =>
       Some (fs_PathError "close" path (syscall_Errno 5)) |}.

End Scenario.

(** ** Outcomes and invariants, as predicates *)

Module Outcomes.
Import GoStrings GoErrors Config World Http Mediator.

(** What the file resolver can put on a response it finds empty. *)
Definition fileAnswer (env : Env) (w : ResponseWriter) : Prop :=
  (wroteHeader w = [] /\ Body w = "") \/
  (wroteHeader w = [StatusNotFound] /\
   (Body w = notFoundBody \/ Body w = notOpenedBody)) \/
  (wroteHeader w = [StatusOK] /\
   exists (path : string) (mt : Z) (data : string) (n : nat),
     files env !! path = Some (RegularFile mt data true) /\
     (n <= len data)%nat /\ Body w = upto n data).

(** Every cached configuration pointer points into the heap, and every
    object of the heap is as [getConfigForClient] builds them: one
    certificate, both protocol identifiers. *)
Definition cacheSound (s : State) : Prop :=
  (forall (dom : string) (d : DomainConfig) (p : nat),
      Domains (cfg s) !! dom = Some d -> CertConfig d = Some p ->
      (p < length (heap s))%nat) /\
  Forall (fun c => NextProtos c = ["h2"; "http/1.1"] /\
                   length (Certificates c) = 1%nat) (heap s).

(** What the parts of a request handler leave alone: the configuration,
    the heap of TLS configurations; and they never load a key pair. *)
Definition handlerFrame (s s' : State) : Prop :=
  cfg s' = cfg s /\ heap s' = heap s /\
  exists calls, sys s' = (sys s ++ calls)%list /\
                Forall (fun c => isLoadKeyPair c = false) calls.

(** What a request may do to a backend entry: fill in the parsed URL and
    the proxy, never replace either, never touch the target. *)
Definition backendKept (b b' : BackendConfig) : Prop :=
  Target b' = Target b /\
  (forall u, URL b = Some u -> URL b' = Some u) /\
  (forall p, ReverseProxy b = Some p -> ReverseProxy b' = Some p).

(** ... to a domain: nothing but that, on the backends it has. *)
Definition domainKept (d d' : DomainConfig) : Prop :=
  d' = setBackends (Backends d') d /\
  forall sub, option_Forall2 backendKept (Backends d !! sub) (Backends d' !! sub).

(** ... and to the server configuration: the same domains, each kept. *)
Definition configKept (c c' : ServerConfig) : Prop :=
  c' = setDomains (Domains c') c /\
  forall dom, option_Forall2 domainKept (Domains c !! dom) (Domains c' !! dom).

End Outcomes.

(** * Properties *)

(** ** Strings *)

#[local] Arguments String.append !s1 s2 / : simpl nomatch.
#[local] Arguments String.length !s / : simpl nomatch.

Section StringFacts.
Import GoStrings.

Lemma len_app (a b : string) : len (a ++ b) = (len a + len b)%nat.
Proof. unfold len. induction a; simpl; congruence. Qed.

Lemma app_empty_r (a : string) : a ++ "" = a.
Proof. induction a; simpl; congruence. Qed.

Lemma app_assoc_s (a b c : string) : (a ++ b) ++ c = a ++ b ++ c.
Proof. induction a; simpl; congruence. Qed.

Lemma from_len_app (a b : string) : from (len a) (a ++ b) = b.
Proof. induction a; simpl; auto. Qed.

Lemma upto_len_app (a b : string) : upto (len a) (a ++ b) = a.
Proof. induction a; simpl; [reflexivity | congruence]. Qed.

Lemma upto_from (n : nat) (s : string) : upto n s ++ from n s = s.
Proof.
  revert s. induction n; intros [|c s]; simpl; auto. now rewrite IHn.
Qed.

Lemma len_upto (n : nat) (s : string) : (n <= len s)%nat -> len (upto n s) = n.
Proof.
  revert s. induction n; intros [|c s]; simpl; intros H; auto; try lia.
  rewrite IHn; [reflexivity | unfold len in *; simpl in *; lia].
Qed.

Lemma HasSuffix_app (a b : string) : HasSuffix (a ++ b) b = true.
Proof.
  unfold HasSuffix. rewrite len_app.
  replace (len a + len b - len b)%nat with (len a) by lia.
  rewrite from_len_app, String.eqb_refl.
  rewrite andb_true_r. apply Nat.leb_le. lia.
Qed.

Lemma TrimSuffix_app (a b : string) : TrimSuffix (a ++ b) b = a.
Proof.
  unfold TrimSuffix. rewrite HasSuffix_app, len_app.
  replace (len a + len b - len b)%nat with (len a) by lia.
  apply upto_len_app.
Qed.

Lemma TrimSuffix_self (a : string) : TrimSuffix a a = "".
Proof. exact (TrimSuffix_app "" a). Qed.

(** The last byte of [a ++ b] is the last byte of a non-empty [b]. *)
Lemma HasSuffix_app_r (a b c : string) :
  (len c <= len b)%nat -> HasSuffix (a ++ b) c = HasSuffix b c.
Proof.
  intros H. unfold HasSuffix. rewrite len_app.
  assert (E : from (len a + len b - len c) (a ++ b) = from (len b - len c) b).
  { replace (len a + len b - len c)%nat with (len a + (len b - len c))%nat by lia.
    generalize (len b - len c)%nat as k. clear H. induction a; simpl; auto. }
  rewrite E.
  assert (L1 : (len c <=? len a + len b)%nat = true) by (apply Nat.leb_le; lia).
  assert (L2 : (len c <=? len b)%nat = true) by (apply Nat.leb_le; lia).
  now rewrite L1, L2.
Qed.

Lemma from_app_le (n : nat) (a b : string) :
  (n <= len a)%nat -> from n (a ++ b) = from n a ++ b.
Proof.
  revert a. induction n; intros [|c a] H; simpl in *; auto; try lia.
  apply IHn. lia.
Qed.

Lemma get_split (i : nat) (s : string) (c : ascii) :
  String.get i s = Some c ->
  s = upto i s ++ String c (from (S i) s) /\ (i < len s)%nat.
Proof.
  revert s. induction i; intros [|d s] H; simpl in *; try discriminate.
  - injection H as <-. split; [reflexivity | lia].
  - destruct (IHi s H) as [E L]. split; [now rewrite <- E | lia].
Qed.

Lemma LastIndexByte_ge (s : string) (c : ascii) : -1 <= LastIndexByte s c.
Proof.
  induction s as [|d s IH]; simpl; [lia|].
  destruct (Z.leb_spec 0 (LastIndexByte s c)); [lia|].
  destruct (Ascii.eqb d c); lia.
Qed.

Lemma LastIndexByte_none_cons (d : ascii) (s : string) (c : ascii) :
  LastIndexByte (String d s) c = -1 <->
  Ascii.eqb d c = false /\ LastIndexByte s c = -1.
Proof.
  simpl. pose proof (LastIndexByte_ge s c).
  destruct (Z.leb_spec 0 (LastIndexByte s c)).
  - split; [lia | intros [_ E]; lia].
  - destruct (Ascii.eqb d c); split.
    + lia.
    + intros [E _]; discriminate.
    + intros _. split; [reflexivity | lia].
    + reflexivity.
Qed.

(** Where [LastIndexByte] points, the byte stands, and it does not occur
    after. *)
Lemma LastIndexByte_split (s : string) (c : ascii) :
  0 <= LastIndexByte s c ->
  let j := Z.to_nat (LastIndexByte s c) in
  s = upto j s ++ String c (from (S j) s) /\
  LastIndexByte (from (S j) s) c = -1 /\
  (j < len s)%nat.
Proof.
  induction s as [|d s IH]; simpl; [lia|].
  pose proof (LastIndexByte_ge s c).
  destruct (Z.leb_spec 0 (LastIndexByte s c)) as [Hr|Hr].
  - intros _. destruct (IH Hr) as (E & N & L).
    replace (Z.to_nat (1 + LastIndexByte s c))
      with (S (Z.to_nat (LastIndexByte s c))) by lia.
    set (j := Z.to_nat (LastIndexByte s c)) in *.
    change (String d s = String d (upto j s ++ String c (from (S j) s)) /\
            LastIndexByte (from (S j) s) c = -1 /\
            (S j < S (len s))%nat).
    split; [now rewrite <- E|]. split; [exact N | lia].
  - destruct (Ascii.eqb_spec d c) as [->|]; [|lia].
    intros _. simpl. split; [reflexivity|]. split; [lia | lia].
Qed.

Lemma HasPrefix_cons (c : ascii) (s : string) :
  HasPrefix (String c s) (String c "") = true.
Proof.
  unfold HasPrefix. simpl. now rewrite Ascii.eqb_refl.
Qed.

Lemma Contains_app (a x sub : string) :
  HasPrefix x sub = true -> Contains (a ++ x) sub = true.
Proof.
  intros H. induction a as [|c a IH]; simpl.
  - destruct x; simpl; rewrite H; reflexivity.
  - rewrite IH. apply orb_true_r.
Qed.

(** The first element of a split is the text before the first separator. *)
Lemma SplitByte_first (sep : ascii) (h rest : string) :
  LastIndexByte h sep = -1 ->
  (exists tl, SplitByte sep (h ++ String sep rest) = h :: tl) /\
  SplitByte sep h = [h].
Proof.
  induction h as [|c h IH]; intros H.
  - simpl. rewrite Ascii.eqb_refl. split; [eexists; reflexivity | reflexivity].
  - apply LastIndexByte_none_cons in H as [Hc Hn].
    destruct (IH Hn) as [[tl E] F]. simpl. rewrite Hc, E, F.
    split; [eexists; reflexivity | reflexivity].
Qed.

End StringFacts.

(** ** The library functions on a few inputs *)

Example clean_ex1 : Filepath.Clean "/var//www/./a/../b/" = "/var/www/b".
Proof. reflexivity. Qed.
Example clean_ex2 : Filepath.Clean "../../a/.." = "../..".
Proof. reflexivity. Qed.
Example clean_ex3 : Filepath.Clean "/../a" = "/a".
Proof. reflexivity. Qed.
Example clean_ex4 : Filepath.Clean "a/.." = ".".
Proof. reflexivity. Qed.
Example clean_ex5 : Filepath.Clean "///" = "/".
Proof. reflexivity. Qed.
Example join_ex1 : Filepath.Join ["/var/www"; "foo"; "public_html"; "/bar.png"] = "/var/www/foo/public_html/bar.png".
Proof. reflexivity. Qed.
Example join_ex2 : Filepath.Join [""; "www"; ""; "/x"] = "www/x".
Proof. reflexivity. Qed.
Example dir_ex1 : Filepath.Dir "/a/b" = "/a" /\ Filepath.Dir "/x" = "/" /\ Filepath.Dir "/a/" = "/a" /\ Filepath.Dir "x" = ".".
Proof. repeat split; reflexivity. Qed.
Example ext_ex1 : Filepath.Ext "/a.b/c.tar.gz" = ".gz" /\ Filepath.Ext "/a.b/c" = "" /\ Filepath.Ext "/a/.bashrc" = ".bashrc".
Proof. repeat split; reflexivity. Qed.
Example fmt_ex : GoStrings.FormatInt 1204 = "1204" /\ GoStrings.FormatInt 0 = "0".
Proof. split; reflexivity. Qed.
Example split_ex : GoStrings.SplitByte ":"%char "foo.example.com:8443" = ["foo.example.com"; "8443"].
Proof. reflexivity. Qed.

(** ** The dispatcher on the running example *)

Example serve_index :
  let s' := snd (Mediator.ServeHTTP Example.exampleEnv
                   (Example.request "example.com")
                   (Example.start Example.exampleConfig "/")) in
  Http.wroteHeader (Http.resp s') = [200] /\
  Http.Body (Http.resp s') = "<h1>hello</h1>" /\
  Http.Header (Http.resp s') !! "Content-Length" = Some "14" /\
  Http.sys s' = [Http.SysStat "/var/www/html/example/www/public_html/index.html";
                 Http.SysOpen "/var/www/html/example/www/public_html/index.html"].
Proof. vm_compute. repeat split; reflexivity. Qed.

Example serve_fallback_404 :
  let s' := snd (Mediator.ServeHTTP Example.exampleEnv
                   (Example.request "example.com:443")
                   (Example.start Example.exampleConfig "/nothing/here.png")) in
  Http.wroteHeader (Http.resp s') = [404] /\
  Http.urlPath s' = "/nothing/index.html" /\
  Http.sys s' =
    [Http.SysStat "/var/www/html/example/www/public_html/nothing/here.png";
     Http.SysStat "/var/www/html/example/www/public_html/nothing/index.html"].
Proof. vm_compute. repeat split; reflexivity. Qed.

Example serve_backend :
  let s' := snd (Mediator.ServeHTTP Example.exampleEnv
                   (Example.request "api.example.com")
                   (Example.start Example.exampleConfig "/x")) in
  Http.wroteHeader (Http.resp s') = [200] /\
  Http.Body (Http.resp s') = "pong" /\
  Http.sys s' =
    [Http.SysRoundTrip {| Config.urlText := "http://127.0.0.1:9000" |} "/x"].
Proof. vm_compute. repeat split; reflexivity. Qed.

(** ** Path cleaning *)

Section PathFacts.
Import GoStrings Filepath.

Lemma SplitByte_app_sep (sep : ascii) (a b : string) :
  LastIndexByte a sep = -1 ->
  SplitByte sep (a ++ String sep b) = a :: SplitByte sep b.
Proof.
  induction a as [|c a IH]; intros H.
  - simpl. now rewrite Ascii.eqb_refl.
  - apply LastIndexByte_none_cons in H as [Hc Hn].
    simpl. now rewrite Hc, (IH Hn).
Qed.

Lemma SplitByte_elements (sep : ascii) (s : string) :
  Forall (fun c => LastIndexByte c sep = -1) (SplitByte sep s).
Proof.
  induction s as [|c s IH]; simpl.
  - constructor; [reflexivity | constructor].
  - destruct (Ascii.eqb c sep) eqn:Hc.
    + constructor; [reflexivity | exact IH].
    + destruct (SplitByte sep s) as [|x xs].
      * constructor; [|constructor].
        apply LastIndexByte_none_cons. auto.
      * inversion IH; subst. constructor; [|assumption].
        apply LastIndexByte_none_cons. auto.
Qed.

(** Splitting what was joined gives the elements back. *)
Lemma SplitByte_Join (l : list string) :
  l <> [] -> Forall noSlash l ->
  SplitByte Separator (GoStrings.Join l "/") = l.
Proof.
  induction l as [|x [|y l] IH]; intros Hne Hall.
  - contradiction.
  - simpl. inversion Hall; subst.
    exact (proj2 (SplitByte_first Separator x "" H1)).
  - inversion Hall; subst.
    change (GoStrings.Join (x :: y :: l) "/")
      with (x ++ String Separator (GoStrings.Join (y :: l) "/")).
    rewrite SplitByte_app_sep by assumption.
    f_equal. apply IH; [discriminate | assumption].
Qed.

Lemma cleanElem_cleaned (rooted : bool) (out : list string) (c : string) :
  cleaned rooted out = true -> cleaned rooted (cleanElem rooted out c) = true.
Proof.
  intros H. unfold cleanElem.
  destruct (isSkipped c) eqn:Hs; [exact H|].
  destruct (String.eqb c "..") eqn:Hd.
  - apply String.eqb_eq in Hd. subst c.
    destruct out as [|top rest].
    + destruct rooted; reflexivity.
    + destruct (String.eqb top "..") eqn:Ht.
      * destruct rooted; [exact H|].
        apply String.eqb_eq in Ht. subst top. simpl in *. exact H.
      * simpl in H. unfold allDotDot in H. simpl in H. rewrite Ht in H.
        rewrite andb_false_r, orb_false_r in H.
        apply andb_true_iff in H as [_ H]. exact H.
  - simpl. unfold isReal. rewrite Hs, Hd, H. reflexivity.
Qed.

Lemma fold_cleaned (rooted : bool) (cs out : list string) :
  cleaned rooted out = true ->
  cleaned rooted (fold_left (cleanElem rooted) cs out) = true.
Proof.
  revert out. induction cs as [|c cs IH]; intros out H; simpl; [exact H|].
  apply IH, cleanElem_cleaned, H.
Qed.

Lemma cleanElem_elements (P : string -> Prop) (rooted : bool)
    (out : list string) (c : string) :
  P c -> Forall P out -> Forall P (cleanElem rooted out c).
Proof.
  intros Hc H. unfold cleanElem.
  destruct (isSkipped c); [exact H|].
  destruct (String.eqb c "..").
  - destruct out as [|top rest].
    + destruct rooted; [constructor | constructor; [exact Hc | constructor]].
    + destruct (String.eqb top "..").
      * destruct rooted; [exact H | constructor; assumption].
      * inversion H; assumption.
  - constructor; assumption.
Qed.

Lemma fold_elements (P : string -> Prop) (rooted : bool) (cs out : list string) :
  Forall P cs -> Forall P out ->
  Forall P (fold_left (cleanElem rooted) cs out).
Proof.
  revert out. induction cs as [|c cs IH]; intros out Hcs H; simpl; [exact H|].
  inversion Hcs; subst. apply IH; [assumption|].
  apply cleanElem_elements; assumption.
Qed.

Lemma cleaned_tail (rooted : bool) (c : string) (rest : list string) :
  cleaned rooted (c :: rest) = true -> cleaned rooted rest = true.
Proof.
  simpl. intros H. apply orb_true_iff in H as [H|H].
  - apply andb_true_iff in H as [_ H]. exact H.
  - apply andb_true_iff in H as [Hr H]. unfold allDotDot in H. simpl in H.
    apply andb_true_iff in H as [_ H].
    destruct rest as [|x xs]; [reflexivity|].
    change (cleaned rooted (x :: xs))
      with ((isReal x && cleaned rooted xs) || (negb rooted && allDotDot (x :: xs))).
    unfold allDotDot. rewrite Hr, H. apply orb_true_r.
Qed.

(** Writing a cleaned output again reproduces it. *)
Lemma cleanElem_replay (rooted : bool) (c : string) (rest : list string) :
  cleaned rooted (c :: rest) = true -> cleanElem rooted rest c = c :: rest.
Proof.
  simpl. intros H. unfold cleanElem. apply orb_true_iff in H as [H|H].
  - apply andb_true_iff in H as [H _]. unfold isReal in H.
    apply andb_true_iff in H as [H1 H2].
    apply negb_true_iff in H1, H2. now rewrite H1, H2.
  - apply andb_true_iff in H as [Hr H]. apply negb_true_iff in Hr. subst rooted.
    unfold allDotDot in H. simpl in H. apply andb_true_iff in H as [Hc H].
    apply String.eqb_eq in Hc. subst c. simpl.
    destruct rest as [|top rest']; [reflexivity|].
    simpl in H. apply andb_true_iff in H as [Ht _]. now rewrite Ht.
Qed.

Lemma fold_replay (rooted : bool) (out : list string) :
  cleaned rooted out = true ->
  fold_left (cleanElem rooted) (rev out) [] = out.
Proof.
  induction out as [|c rest IH]; intros H; [reflexivity|].
  simpl. rewrite fold_left_app. simpl.
  rewrite (IH (cleaned_tail rooted c rest H)).
  apply cleanElem_replay, H.
Qed.

Lemma cleanElems_fixed (rooted : bool) (cs : list string) :
  cleanElems rooted (cleanElems rooted cs) = cleanElems rooted cs.
Proof.
  unfold cleanElems. rewrite fold_replay; [reflexivity|].
  apply fold_cleaned. reflexivity.
Qed.

(** An element of a cleaned output is not empty. *)
Lemma cleaned_head (rooted : bool) (c : string) (rest : list string) :
  cleaned rooted (c :: rest) = true -> c <> "".
Proof.
  simpl. intros H ->. apply orb_true_iff in H as [H|H].
  - apply andb_true_iff in H as [H _]. discriminate H.
  - apply andb_true_iff in H as [_ H]. discriminate H.
Qed.

Lemma cleaned_all_nonempty (rooted : bool) (out : list string) :
  cleaned rooted out = true -> Forall (fun c => c <> "") out.
Proof.
  induction out as [|c rest IH]; intros H; constructor.
  - exact (cleaned_head rooted c rest H).
  - exact (IH (cleaned_tail rooted c rest H)).
Qed.

(** A join of non-empty elements without separators starts with a byte
    that is not a separator. *)
Lemma Join_head (x : string) (l : list string) :
  x <> "" -> noSlash x ->
  exists c rest, GoStrings.Join (x :: l) "/" = String c rest /\
                 Ascii.eqb c Separator = false.
Proof.
  intros Hx Hn. destruct x as [|c x]; [contradiction|].
  apply LastIndexByte_none_cons in Hn as [Hc _].
  destruct l as [|y l]; simpl; eauto.
Qed.

Lemma Clean_rooted (j : string) :
  Clean (String Separator j) =
    "/" ++ GoStrings.Join (cleanElems true (SplitByte Separator j)) "/".
Proof. reflexivity. Qed.

Lemma Clean_relative (c : ascii) (j : string) :
  Ascii.eqb c Separator = false ->
  Clean (String c j) =
    match cleanElems false (SplitByte Separator (String c j)) with
    | [] => "."
    | out => GoStrings.Join out "/"
    end.
Proof.
  intros H. unfold Clean.
  replace (String.eqb (String c j) "") with false by reflexivity.
  cbv zeta. unfold isRooted. rewrite H.
  destruct (cleanElems false (SplitByte Separator (String c j))); reflexivity.
Qed.

(** [Clean] is idempotent. *)
Lemma Clean_idempotent (path : string) : Clean (Clean path) = Clean path.
Proof.
  remember (Clean path) as q eqn:Eq. unfold Clean in Eq.
  destruct (String.eqb path "") eqn:Hp; [subst q; reflexivity|].
  set (rooted := isRooted path) in *.
  set (out := cleanElems rooted (SplitByte Separator path)) in *.
  assert (Hc : cleaned rooted (rev out) = true).
  { unfold out, cleanElems. rewrite rev_involutive.
    apply fold_cleaned. reflexivity. }
  assert (Hfix : cleanElems rooted out = out) by apply cleanElems_fixed.
  assert (Hns : Forall noSlash out).
  { unfold out, cleanElems. apply Forall_rev, fold_elements;
      [apply SplitByte_elements | constructor]. }
  assert (Hne : Forall (fun c => c <> "") out).
  { rewrite <- (rev_involutive out). apply Forall_rev.
    exact (cleaned_all_nonempty rooted _ Hc). }
  clearbody out. clearbody rooted. destruct rooted.
  - subst q. change ("/" ++ GoStrings.Join out "/")
      with (String Separator (GoStrings.Join out "/")).
    rewrite Clean_rooted.
    destruct out as [|x l]; [reflexivity|].
    rewrite SplitByte_Join by (try discriminate; assumption).
    now rewrite Hfix.
  - destruct out as [|x l]; [subst q; reflexivity|].
    inversion Hns; subst. inversion Hne; subst.
    destruct (Join_head x l H3 H1) as (c & rest & EJ & Hsep).
    rewrite EJ, (Clean_relative c rest Hsep), <- EJ.
    rewrite SplitByte_Join by (try discriminate; assumption).
    rewrite Hfix. reflexivity.
Qed.

End PathFacts.

Section CandidatePath.
Import GoStrings GoErrors Config World Http Mediator.

(** C6: the path [serveFile] looks up.  The request path gets
    [index.html] appended when it ends in [/], and the result no longer
    ends in [/], so the append happens exactly once.  The candidate is the
    cleaned join of base path, subdomain, subdirectory fragment and that
    request path: with a base path it is [Clean] of the text
    [B/sub/S/P]; in general the join starts at the first non-empty part.
    The candidate is in normal form: cleaning it again changes nothing. *)
Theorem candidate_path_layout (d : DomainConfig) (sub P : string) :
  let file := if HasSuffix P "/" then P ++ "index.html" else P in
  HasSuffix file "/" = false /\
  candidatePath d sub P =
    Filepath.Clean
      (GoStrings.Join
         (Filepath.dropEmpty [BasePath d; sub; Subdir d; file]) "/") /\
  (BasePath d <> "" ->
   candidatePath d sub P =
     Filepath.Clean
       (BasePath d ++ "/" ++ sub ++ "/" ++ Subdir d ++ "/" ++ file)) /\
  Filepath.Clean (candidatePath d sub P) = candidatePath d sub P.
Proof.
  cbv zeta.
  assert (Hfile : HasSuffix (if HasSuffix P "/" then P ++ "index.html" else P)
                    "/" = false).
  { destruct (HasSuffix P "/") eqn:E; [|exact E].
    rewrite HasSuffix_app_r; [reflexivity | simpl; lia]. }
  assert (Hjoin : candidatePath d sub P =
    Filepath.Clean
      (GoStrings.Join
         (Filepath.dropEmpty
            [BasePath d; sub; Subdir d;
             if HasSuffix P "/" then P ++ "index.html" else P]) "/")).
  { unfold candidatePath, Filepath.Join.
    destruct (Filepath.dropEmpty _) as [|x l]; [reflexivity|].
    apply Clean_idempotent. }
  repeat split.
  - exact Hfile.
  - exact Hjoin.
  - intros HB. rewrite Hjoin. simpl.
    destruct (String.eqb_spec (BasePath d) ""); [contradiction|].
    reflexivity.
  - unfold candidatePath. apply Clean_idempotent.
Qed.

Lemma candidate_path_layout_witness :
  candidatePath Example.exampleDomain "horse" "/plop/" =
    Filepath.Clean ("/var/www/html/example" ++ "/" ++ "horse" ++ "/" ++
                    "public_html" ++ "/" ++ "/plop/index.html") /\
  candidatePath Example.exampleDomain "horse" "/plop/" =
    "/var/www/html/example/horse/public_html/plop/index.html".
Proof.
  destruct (candidate_path_layout Example.exampleDomain "horse" "/plop/")
    as (_ & _ & A & _).
  split.
  - apply A. discriminate.
  - reflexivity.
Defined.

End CandidatePath.

(** ** The host resolver *)

Section HostResolver.
Import GoStrings GoErrors Config World Http Mediator.

(** The shape of what [EffectiveTLDPlusOne] returns: the end of the
    domain, made of one label, a dot, and as many bytes as the public
    suffix has. *)
Lemma EffectiveTLDPlusOne_shape (ps : string -> string) (host domain : string) :
  Publicsuffix.EffectiveTLDPlusOne ps host = Ok domain ->
  exists pre label tail,
    host = pre ++ domain /\
    (pre = "" \/ exists sub, pre = sub ++ ".") /\
    domain = label ++ "." ++ tail /\
    label <> "" /\
    LastIndexByte label "."%char = -1 /\
    tail = from (len host - len (ps host)) host /\
    (len (ps host) < len host)%nat.
Proof.
  unfold Publicsuffix.EffectiveTLDPlusOne.
  destruct (HasPrefix host ".") eqn:Hpre; [discriminate|].
  destruct (HasSuffix host ".") eqn:Hsuf; [discriminate|].
  destruct (Contains host "..") eqn:Hdd; [discriminate|]. simpl.
  destruct (Nat.leb_spec (len host) (len (ps host))) as [|Hlen]; [discriminate|].
  remember (len host - len (ps host) - 1)%nat as i eqn:Ei.
  destruct (String.get i host) as [c|] eqn:Hget; [|discriminate].
  destruct (Ascii.eqb_spec c "."%char) as [->|Hc].
  2:{ destruct c as [[] [] [] [] [] [] [] []]; try discriminate; congruence. }
  intros H. injection H as <-.
  destruct (get_split i host "."%char Hget) as [Ehost Hi].
  assert (HP : len (upto i host) = i) by (apply len_upto; lia).
  assert (Etail : from (S i) host = from (len host - len (ps host)) host).
  { f_equal. lia. }
  remember (upto i host) as P eqn:EP0.
  remember (from (S i) host) as tail eqn:Et0.
  pose proof (LastIndexByte_ge P "."%char) as Hge.
  destruct (Z.eq_dec (LastIndexByte P "."%char) (-1)) as [Hj|Hj].
  - rewrite Hj. simpl.
    exists "", P, tail. repeat split; auto.
    intros HPe. rewrite HPe in Ehost. simpl in Ehost.
    rewrite Ehost, HasPrefix_cons in Hpre. discriminate.
  - assert (Hj0 : 0 <= LastIndexByte P "."%char) by lia.
    destruct (LastIndexByte_split P "."%char Hj0) as (EP & N & L).
    set (j := Z.to_nat (LastIndexByte P "."%char)) in *.
    replace (Z.to_nat (1 + LastIndexByte P "."%char)) with (S j) by lia.
    exists (upto j P ++ "."), (from (S j) P), tail.
    assert (Edom : from (S j) host = from (S j) P ++ "." ++ tail).
    { rewrite Ehost at 1. apply from_app_le. lia. }
    repeat split; auto.
    + rewrite Edom. rewrite Ehost at 1. rewrite EP at 1.
      rewrite !app_assoc_s. reflexivity.
    + right. eexists; reflexivity.
    + intros Hl. rewrite Hl in EP.
      rewrite Ehost, EP in Hdd.
      rewrite app_assoc_s in Hdd.
      rewrite (Contains_app (upto j P) _ "..") in Hdd; [discriminate|].
      reflexivity.
Qed.

(** C4: the host resolver.  The port is stripped: of [host:port] and of
    [host] the resolver keeps [host].  When the public suffix list yields
    no registrable domain the resolver fails, with that error wrapped.
    Otherwise the domain is one label, a dot and the public suffix of the
    host, the host is the domain itself (and the subdomain is empty) or
    the subdomain, a dot and the domain.  With [com] as the public suffix
    of [foo.example.com], the host [foo.example.com:8443] gives domain
    [example.com] and subdomain [foo]. *)
Theorem host_resolver (env : Env) (r : Request) :
  (forall h port : string,
      LastIndexByte h ":"%char = -1 ->
      hostOnly (h ++ ":" ++ port) = h /\ hostOnly h = h) /\
  (let host := hostOnly (Host r) in
   match Publicsuffix.EffectiveTLDPlusOne (PublicSuffix env) host with
   | Err err =>
       parseRequest env r =
         Err (fmt_Errorf "could not parse request into pieces" err)
   | Ok domain =>
       exists sub label,
         parseRequest env r = Ok (domain, sub) /\
         (host = domain /\ sub = "" \/ host = sub ++ "." ++ domain) /\
         label <> "" /\
         LastIndexByte label "."%char = -1 /\
         (HasSuffix host (PublicSuffix env host) = true ->
          domain = label ++ "." ++ PublicSuffix env host)
   end) /\
  (PublicSuffix env "foo.example.com" = "com" ->
   parseRequest env {| Host := "foo.example.com:8443";
                       RemoteAddr := RemoteAddr r; Method := Method r;
                       ReqHeader := ReqHeader r; ReqBody := ReqBody r |} =
     Ok ("example.com", "foo")).
Proof.
  split; [|split].
  - intros h port Hn. unfold hostOnly.
    destruct (SplitByte_first ":"%char h port Hn) as [[tl E] F].
    change (h ++ ":" ++ port) with (h ++ String ":"%char port).
    now rewrite E, F.
  - cbv zeta. unfold parseRequest.
    destruct (Publicsuffix.EffectiveTLDPlusOne (PublicSuffix env)
                (hostOnly (Host r))) as [domain|err] eqn:E; [|reflexivity].
    destruct (EffectiveTLDPlusOne_shape _ _ _ E)
      as (pre & label & tail & Eh & Hpre & Ed & Hl & Hn & Et & Hlen).
    destruct Hpre as [->|[sub ->]].
    + exists "", label. simpl in Eh. rewrite Eh at 1 2.
      rewrite TrimSuffix_self.
      repeat split; auto.
      intros Hs. rewrite Ed. do 2 f_equal. rewrite Et.
      unfold HasSuffix in Hs. apply andb_true_iff in Hs as [_ Hs].
      now apply String.eqb_eq in Hs.
    + exists sub, label. rewrite Eh at 1 2.
      rewrite TrimSuffix_app, TrimSuffix_app.
      repeat split; auto.
      * right. rewrite Eh at 1. now rewrite app_assoc_s.
      * intros Hs. rewrite Ed. do 2 f_equal. rewrite Et.
        unfold HasSuffix in Hs. apply andb_true_iff in Hs as [_ Hs].
        now apply String.eqb_eq in Hs.
  - intros H. unfold parseRequest.
    cbn [Host].
    change (hostOnly "foo.example.com:8443") with "foo.example.com".
    unfold Publicsuffix.EffectiveTLDPlusOne. rewrite H. reflexivity.
Qed.

Lemma host_resolver_witness :
  hostOnly ("foo.example.com" ++ ":" ++ "8443") = "foo.example.com" /\
  parseRequest Example.exampleEnv (Example.request "foo.example.com:8443") =
    Ok ("example.com", "foo").
Proof.
  destruct (host_resolver Example.exampleEnv
              (Example.request "foo.example.com:8443")) as (A & _ & C).
  split.
  - exact (proj1 (A "foo.example.com" "8443" eq_refl)).
  - exact (C eq_refl).
Defined.

End HostResolver.

(** ** The handshake callback and the proxy error handler *)

Section Handshake.
Import GoStrings GoErrors Config World Http Mediator.

(** C8: a handshake whose ClientHello carries an empty server name gets an
    error and no TLS configuration from [getConfigForClient]; nothing is
    looked up, stat'ed or loaded before that, the state is left as it
    was. *)
Theorem no_server_name_aborts (env : Env) (hello : ClientHelloInfo) (s : State) :
  ServerName hello = "" ->
  getConfigForClient env hello s =
    (Err (errors_New "TLS ClientHello has no ServerName"), s).
Proof.
  intros H. unfold getConfigForClient. now rewrite H.
Qed.

Lemma no_server_name_aborts_witness :
  getConfigForClient Example.exampleEnv {| ServerName := "" |}
    (Example.start Example.exampleConfig "") =
    (Err (errors_New "TLS ClientHello has no ServerName"),
     Example.start Example.exampleConfig "").
Proof.
  apply (no_server_name_aborts Example.exampleEnv {| ServerName := "" |}).
  reflexivity.
Defined.

(** A wrapped cancellation is still a cancellation for [errors.Is]. *)
Lemma errors_Is_wrapped (msg : string) (err : error) :
  errors_Is err context_Canceled = true ->
  errors_Is (fmt_Errorf msg err) context_Canceled = true.
Proof. intros H. simpl. exact H. Qed.

Lemma ErrorHandler_eq (target : string) (r : Request) (err : error) (s : State) :
  ErrorHandler target r err s =
    (tt,
     if errors_Is err context_Canceled then s
     else logged (LogUpstreamError (RemoteAddr r) target err)
            (respond StatusBadGateway badGatewayBody s)).
Proof.
  unfold ErrorHandler. destruct (errors_Is err context_Canceled); reflexivity.
Qed.

(** An upstream failure reaches the error handler with the backend's
    target. *)
Lemma ReverseProxy_error (env : Env) (p : httputil_ReverseProxy) (r : Request)
    (err : error) (s : State) :
  roundTrip env (rpURL p) r (urlPath s) = UpstreamError err ->
  ReverseProxy_ServeHTTP env p r s =
    ErrorHandler (rpTarget p) r err
      (called (SysRoundTrip (rpURL p) (urlPath s)) s).
Proof.
  intros H. unfold ReverseProxy_ServeHTTP, bind, get, syscall, modify. simpl.
  now rewrite H.
Qed.

(** C9: the error handler of the reverse proxy.  For an error that is not
    a cancellation it adds one log line naming the failure, writes status
    502 and the generic body, and returns normally (the error goes no
    further); on a response not yet started, 502 is the status of the
    response.  For an error that [errors.Is] a [context.Canceled], also a
    wrapped one, it leaves response and log as they were.  The proxy that
    [createReverseProxy] builds sends every upstream failure there. *)
Theorem ErrorHandler_spec (target : string) (r : Request) (err : error) (s : State) :
  ErrorHandler target r err s =
    (tt,
     if errors_Is err context_Canceled then s
     else
       {| cfg := cfg s; heap := heap s;
          logs := (logs s ++ [LogUpstreamError (RemoteAddr r) target err])%list;
          sys := sys s;
          resp := write "SOMETHING ERROR HAPPEN"
                    (writeHeader 502 (resp s));
          urlPath := urlPath s |}) /\
  (if errors_Is err context_Canceled
   then forall msg, ErrorHandler target r (fmt_Errorf msg err) s = (tt, s)
   else wroteHeader (resp s) = [] ->
        wroteHeader (resp (snd (ErrorHandler target r err s))) = [502] /\
        Body (resp (snd (ErrorHandler target r err s))) =
          Body (resp s) ++ "SOMETHING ERROR HAPPEN") /\
  (forall (env : Env) (p : httputil_ReverseProxy),
      roundTrip env (rpURL p) r (urlPath s) = UpstreamError err ->
      ReverseProxy_ServeHTTP env p r s =
        ErrorHandler (rpTarget p) r err
          (called (SysRoundTrip (rpURL p) (urlPath s)) s)).
Proof.
  split; [|split].
  - rewrite ErrorHandler_eq.
    destruct (errors_Is err context_Canceled); reflexivity.
  - destruct (errors_Is err context_Canceled) eqn:Hc.
    + intros msg. rewrite ErrorHandler_eq.
      now rewrite (errors_Is_wrapped msg err Hc).
    + intros Hw. rewrite ErrorHandler_eq, Hc. simpl.
      unfold write, writeHeader. simpl. rewrite Hw. simpl. auto.
  - intros env p. apply ReverseProxy_error.
Qed.

Lemma ErrorHandler_spec_witness :
  let s := Example.start Example.exampleConfig "/x" in
  let r := Example.request "api.example.com" in
  let err := fs_PathError "dial" "127.0.0.1:9000" (syscall_Errno 111) in
  let p := {| rpURL := {| urlText := "http://127.0.0.1:9000" |};
              rpTarget := "http://127.0.0.1:9000" |} in
  wroteHeader (resp (snd (ErrorHandler "http://127.0.0.1:9000" r err s))) = [502] /\
  ErrorHandler "http://127.0.0.1:9000" r
    (fmt_Errorf "round trip" context_Canceled) s = (tt, s) /\
  ReverseProxy_ServeHTTP Example.downEnv p r s =
    ErrorHandler "http://127.0.0.1:9000" r err
      (called (SysRoundTrip (rpURL p) "/x") s).
Proof.
  intros s r err p. split; [|split].
  - destruct (ErrorHandler_spec "http://127.0.0.1:9000" r err s) as (_ & B & _).
    exact (proj1 (B eq_refl)).
  - destruct (ErrorHandler_spec "http://127.0.0.1:9000" r context_Canceled s)
      as (_ & B & _).
    exact (B "round trip").
  - destruct (ErrorHandler_spec "http://127.0.0.1:9000" r err s) as (_ & _ & C).
    exact (C Example.downEnv p eq_refl).
Defined.

End Handshake.

(** ** The certificate cache *)

Section CertificateCache.
Import GoStrings GoErrors Config World Http Mediator.

Ltac run :=
  unfold bind, ret, get, modify, syscall, log_Printf in *; simpl in *.

Lemma afterNameCheck_frame (env : Env) (hello : ClientHelloInfo) (s : State) :
  cfg (afterNameCheck env hello s) = cfg s /\
  heap (afterNameCheck env hello s) = heap s /\
  sys (afterNameCheck env hello s) = sys s.
Proof.
  unfold afterNameCheck. destruct (Publicsuffix.EffectiveTLDPlusOne _ _); auto.
Qed.

(** A handshake that finds a cached configuration no older than the
    certificate file: the cached pointer, one [os.Stat], nothing else. *)
Lemma handshake_reuse (env : Env) (hello : ClientHelloInfo) (s : State)
    (d : DomainConfig) (info : FileInfo) (p : nat) :
  String.eqb (ServerName hello) "" = false ->
  Domains (cfg s) !! serverNameDomain env (ServerName hello) = Some d ->
  os_Stat env (CertFile d) = Ok info ->
  ModTime info <= CertTime d ->
  CertConfig d = Some p ->
  getConfigForClient env hello s =
    (Ok p, called (SysStat (CertFile d)) (afterNameCheck env hello s)).
Proof.
  intros Hn Hd Hst Ht Hc. unfold getConfigForClient, afterNameCheck.
  rewrite Hn. run.
  destruct (Publicsuffix.EffectiveTLDPlusOne _ _); simpl; rewrite Hd; simpl;
    rewrite Hst; unfold Before;
    (destruct (Z.ltb_spec (CertTime d) (ModTime info)); [lia|]);
    simpl; rewrite Hc; reflexivity.
Qed.

(** A handshake that finds the cached configuration older than the
    certificate file: the timestamp moves to the file's, the old pointer is
    dropped, and the key pair is loaded once. *)
Lemma handshake_stale (env : Env) (hello : ClientHelloInfo) (s : State)
    (d : DomainConfig) (info : FileInfo) :
  String.eqb (ServerName hello) "" = false ->
  Domains (cfg s) !! serverNameDomain env (ServerName hello) = Some d ->
  os_Stat env (CertFile d) = Ok info ->
  CertTime d < ModTime info ->
  let domain := serverNameDomain env (ServerName hello) in
  let s1 := called (SysLoadKeyPair (CertFile d) (KeyFile d))
              (snd (storeDomain domain (setCert (ModTime info) None d)
                      (called (SysStat (CertFile d))
                         (afterNameCheck env hello s)))) in
  getConfigForClient env hello s =
    match LoadX509KeyPair env (CertFile d) (KeyFile d) with
    | Err err =>
        (Err (fmt_Errorf "loading key pair" err),
         logged (LogCertLoadError (CertFile d) (KeyFile d) err) s1)
    | Ok cert =>
        (Ok (length (heap s)),
         snd (storeDomain domain
                (setCert (ModTime info) (Some (length (heap s))) d)
                (withHeap (fun h => (h ++ [{| Certificates := [cert];
                                              NextProtos := ["h2"; "http/1.1"] |}])%list)
                   (logged (LogCertLoaded (CertFile d) (KeyFile d)) s1))))
    end.
Proof.
  intros Hn Hd Hst Ht. unfold getConfigForClient, afterNameCheck.
  rewrite Hn. run. unfold storeDomain, alloc. run.
  destruct (Publicsuffix.EffectiveTLDPlusOne _ _); simpl; rewrite Hd; simpl;
    rewrite Hst; unfold Before;
    (destruct (Z.ltb_spec (CertTime d) (ModTime info)); [|lia]);
    simpl; destruct (LoadX509KeyPair env (CertFile d) (KeyFile d));
    reflexivity.
Qed.

Lemma loads_called (c : SysCall) (s : State) :
  loads (called c s) = (loads s + (if isLoadKeyPair c then 1 else 0))%nat.
Proof.
  unfold loads, called. simpl. rewrite List.filter_app, length_app. simpl.
  destruct (isLoadKeyPair c); reflexivity.
Qed.

(** A handshake that finds no cached configuration although the timestamp
    is current (an earlier load failed): the key pair is loaded, the
    timestamp stays. *)
Lemma handshake_empty (env : Env) (hello : ClientHelloInfo) (s : State)
    (d : DomainConfig) (info : FileInfo) :
  String.eqb (ServerName hello) "" = false ->
  Domains (cfg s) !! serverNameDomain env (ServerName hello) = Some d ->
  os_Stat env (CertFile d) = Ok info ->
  ModTime info <= CertTime d ->
  CertConfig d = None ->
  let domain := serverNameDomain env (ServerName hello) in
  let s1 := called (SysLoadKeyPair (CertFile d) (KeyFile d))
              (called (SysStat (CertFile d)) (afterNameCheck env hello s)) in
  getConfigForClient env hello s =
    match LoadX509KeyPair env (CertFile d) (KeyFile d) with
    | Err err =>
        (Err (fmt_Errorf "loading key pair" err),
         logged (LogCertLoadError (CertFile d) (KeyFile d) err) s1)
    | Ok cert =>
        (Ok (length (heap s)),
         snd (storeDomain domain
                (setCert (CertTime d) (Some (length (heap s))) d)
                (withHeap (fun h => (h ++ [{| Certificates := [cert];
                                              NextProtos := ["h2"; "http/1.1"] |}])%list)
                   (logged (LogCertLoaded (CertFile d) (KeyFile d)) s1))))
    end.
Proof.
  intros Hn Hd Hst Ht Hc. unfold getConfigForClient, afterNameCheck.
  rewrite Hn. run. unfold storeDomain, alloc. run.
  destruct (Publicsuffix.EffectiveTLDPlusOne _ _); simpl; rewrite Hd; simpl;
    rewrite Hst; unfold Before;
    (destruct (Z.ltb_spec (CertTime d) (ModTime info)); [lia|]);
    simpl; rewrite Hc;
    destruct (LoadX509KeyPair env (CertFile d) (KeyFile d));
    reflexivity.
Qed.

(** After a handshake that returned a configuration, that configuration is
    the cached one and its timestamp is not older than the file. *)
Lemma handshake_post (env : Env) (hello : ClientHelloInfo) (s s1 : State)
    (d : DomainConfig) (info : FileInfo) (p : nat) :
  String.eqb (ServerName hello) "" = false ->
  Domains (cfg s) !! serverNameDomain env (ServerName hello) = Some d ->
  os_Stat env (CertFile d) = Ok info ->
  getConfigForClient env hello s = (Ok p, s1) ->
  exists d1,
    Domains (cfg s1) !! serverNameDomain env (ServerName hello) = Some d1 /\
    CertConfig d1 = Some p /\
    CertFile d1 = CertFile d /\
    ModTime info <= CertTime d1 /\
    (CertTime d1 = CertTime d \/ CertTime d1 = ModTime info).
Proof.
  intros Hn Hd Hst.
  destruct (Z.ltb_spec (CertTime d) (ModTime info)) as [Hlt|Hge].
  - rewrite (handshake_stale env hello s d info Hn Hd Hst Hlt). cbv zeta.
    destruct (LoadX509KeyPair env (CertFile d) (KeyFile d)); [|discriminate].
    intros H. injection H as <- <-. unfold storeDomain. run.
    eexists. rewrite lookup_insert_eq. split; [reflexivity|]. simpl.
    repeat split; auto; lia.
  - destruct (CertConfig d) as [p'|] eqn:Hc.
    + rewrite (handshake_reuse env hello s d info p' Hn Hd Hst Hge Hc).
      intros H. injection H as <- <-. simpl.
      rewrite (proj1 (afterNameCheck_frame env hello s)).
      exists d. repeat split; auto.
    + rewrite (handshake_empty env hello s d info Hn Hd Hst Hge Hc). cbv zeta.
      destruct (LoadX509KeyPair env (CertFile d) (KeyFile d)); [|discriminate].
      intros H. injection H as <- <-. unfold storeDomain. run.
      eexists. rewrite lookup_insert_eq. split; [reflexivity|]. simpl.
      repeat split; auto.
Qed.

(** While the file's modification time does not pass the stored timestamp,
    every handshake for the domain returns the cached object and loads
    nothing. *)
Lemma handshakes_reuse (hs : list (Env * ClientHelloInfo)) (s : State)
    (domain : string) (d : DomainConfig) (p : nat) :
  Domains (cfg s) !! domain = Some d ->
  CertConfig d = Some p ->
  (forall env hello, In (env, hello) hs ->
     String.eqb (ServerName hello) "" = false /\
     serverNameDomain env (ServerName hello) = domain /\
     exists info, os_Stat env (CertFile d) = Ok info /\
                  ModTime info <= CertTime d) ->
  exists s',
    handshakes hs s = (repeat (Ok p) (length hs), s') /\
    cfg s' = cfg s /\ heap s' = heap s /\ loads s' = loads s.
Proof.
  revert s. induction hs as [|[env hello] hs IH]; intros s Hd Hc Hall.
  - exists s. auto.
  - destruct (Hall env hello (or_introl eq_refl)) as (Hn & Hdom & info & Hst & Ht).
    rewrite <- Hdom in Hd.
    pose proof (handshake_reuse env hello s d info p Hn Hd Hst Ht Hc) as E.
    destruct (afterNameCheck_frame env hello s) as (F1 & F2 & F3).
    set (s1 := called (SysStat (CertFile d)) (afterNameCheck env hello s)) in *.
    assert (Hd1 : Domains (cfg s1) !! domain = Some d).
    { subst s1. simpl. rewrite F1, <- Hdom. exact Hd. }
    destruct (IH s1 Hd1 Hc (fun e h He => Hall e h (or_intror He)))
      as (s' & E' & G1 & G2 & G3).
    exists s'. simpl. unfold bind, ret. rewrite E, E'. split; [reflexivity|].
    subst s1. simpl in *. rewrite G1, G2, G3, F1, F2.
    repeat split; auto.
    rewrite loads_called. simpl. unfold loads. rewrite F3. lia.
Qed.

(** While nothing is cached and the key pair does not load, every
    handshake for the domain tries the load once more and fails. *)
Lemma handshakes_retry (hs : list (Env * ClientHelloInfo)) (s : State)
    (domain : string) (d : DomainConfig) :
  Domains (cfg s) !! domain = Some d ->
  CertConfig d = None ->
  (forall env hello, In (env, hello) hs ->
     String.eqb (ServerName hello) "" = false /\
     serverNameDomain env (ServerName hello) = domain /\
     (exists info, os_Stat env (CertFile d) = Ok info /\
                   ModTime info <= CertTime d) /\
     exists err, LoadX509KeyPair env (CertFile d) (KeyFile d) = Err err) ->
  exists cs s',
    handshakes hs s = (cs, s') /\
    Forall2 (fun eh c =>
               exists err,
                 LoadX509KeyPair (fst eh) (CertFile d) (KeyFile d) = Err err /\
                 c = Err (fmt_Errorf "loading key pair" err)) hs cs /\
    cfg s' = cfg s /\ heap s' = heap s /\
    loads s' = (loads s + length hs)%nat.
Proof.
  revert s. induction hs as [|[env hello] hs IH]; intros s Hd Hc Hall.
  - exists [], s. simpl. repeat split; auto; try constructor; lia.
  - destruct (Hall env hello (or_introl eq_refl))
      as (Hn & Hdom & (info & Hst & Ht) & err & Hl).
    rewrite <- Hdom in Hd.
    pose proof (handshake_empty env hello s d info Hn Hd Hst Ht Hc) as E.
    cbv zeta in E. rewrite Hl in E.
    destruct (afterNameCheck_frame env hello s) as (F1 & F2 & F3).
    set (s1 := logged (LogCertLoadError (CertFile d) (KeyFile d) err)
                 (called (SysLoadKeyPair (CertFile d) (KeyFile d))
                    (called (SysStat (CertFile d))
                       (afterNameCheck env hello s)))) in *.
    assert (Hd1 : Domains (cfg s1) !! domain = Some d).
    { subst s1. simpl. rewrite F1, <- Hdom. exact Hd. }
    destruct (IH s1 Hd1 Hc (fun e h He => Hall e h (or_intror He)))
      as (cs & s' & E' & R & G1 & G2 & G3).
    exists (Err (fmt_Errorf "loading key pair" err) :: cs), s'.
    simpl. unfold bind, ret. rewrite E, E'. split; [reflexivity|].
    split; [constructor; [exists err; auto | exact R]|].
    subst s1. simpl in *. rewrite G1, G2, G3, F1, F2.
    repeat split; auto.
    unfold loads. simpl. rewrite !List.filter_app, !length_app. simpl.
    rewrite F3. lia.
Qed.

Lemma handshakes_app (hs hs' : list (Env * ClientHelloInfo)) (s : State) :
  handshakes (hs ++ hs') s =
    (fst (handshakes hs s) ++ fst (handshakes hs' (snd (handshakes hs s))),
     snd (handshakes hs' (snd (handshakes hs s))))%list.
Proof.
  revert s. induction hs as [|[env hello] hs IH]; intros s.
  - simpl. now destruct (handshakes hs' s).
  - simpl. unfold bind, ret.
    destruct (getConfigForClient env hello s) as [c s1].
    rewrite IH. destruct (handshakes hs s1) as [cs s2]. simpl.
    destruct (handshakes hs' s2) as [cs' s3]. reflexivity.
Qed.

(** The first load that succeeds ends the retries: its object is cached
    at a fresh address and reused from then on. *)
Lemma handshakes_recover (failing rest : list (Env * ClientHelloInfo))
    (env1 : Env) (hello1 : ClientHelloInfo) (cert1 : tls_Certificate)
    (s : State) (domain : string) (d : DomainConfig) :
  Domains (cfg s) !! domain = Some d ->
  CertConfig d = None ->
  (forall env hello, In (env, hello) (failing ++ (env1, hello1) :: rest) ->
     String.eqb (ServerName hello) "" = false /\
     serverNameDomain env (ServerName hello) = domain /\
     exists info, os_Stat env (CertFile d) = Ok info /\
                  ModTime info <= CertTime d) ->
  Forall (fun eh => exists err,
            LoadX509KeyPair (fst eh) (CertFile d) (KeyFile d) = Err err)
    failing ->
  LoadX509KeyPair env1 (CertFile d) (KeyFile d) = Ok cert1 ->
  exists cs s',
    handshakes (failing ++ (env1, hello1) :: rest) s =
      (cs ++ repeat (Ok (length (heap s))) (S (length rest)), s')%list /\
    Forall2 (fun eh c =>
               exists err,
                 LoadX509KeyPair (fst eh) (CertFile d) (KeyFile d) = Err err /\
                 c = Err (fmt_Errorf "loading key pair" err)) failing cs /\
    heap s' = (heap s ++ [{| Certificates := [cert1];
                             NextProtos := ["h2"; "http/1.1"] |}])%list /\
    loads s' = (loads s + length failing + 1)%nat.
Proof.
  intros Hd Hc Hall Hfail Hok.
  destruct (handshakes_retry failing s domain d Hd Hc)
    as (cs & s1 & E1 & R & G1 & G2 & G3).
  { intros env hello Hin.
    assert (Hin' : In (env, hello) (failing ++ (env1, hello1) :: rest))
      by (apply in_or_app; now left).
    destruct (Hall env hello Hin') as (A & B & C).
    repeat split; auto.
    rewrite List.Forall_forall in Hfail. exact (Hfail _ Hin). }
  destruct (Hall env1 hello1 (in_elt _ _ _))
    as (Hn & Hdom & info & Hst & Ht).
  assert (Hd1 : Domains (cfg s1) !! serverNameDomain env1 (ServerName hello1) =
                Some d) by (rewrite G1, Hdom; exact Hd).
  pose proof (handshake_empty env1 hello1 s1 d info Hn Hd1 Hst Ht Hc) as E2.
  cbv zeta in E2. rewrite Hok in E2.
  destruct (afterNameCheck_frame env1 hello1 s1) as (F1 & F2 & F3).
  set (s2 := snd (getConfigForClient env1 hello1 s1)) in *.
  assert (E2' : getConfigForClient env1 hello1 s1 = (Ok (length (heap s1)), s2))
    by (unfold s2; rewrite E2; reflexivity).
  assert (Hd2 : Domains (cfg s2) !! domain =
                Some (setCert (CertTime d) (Some (length (heap s1))) d)).
  { unfold s2. rewrite E2. unfold storeDomain, modify. simpl.
    rewrite Hdom. apply lookup_insert_eq. }
  assert (Hh2 : heap s2 = (heap s1 ++ [{| Certificates := [cert1];
                                          NextProtos := ["h2"; "http/1.1"] |}])%list).
  { unfold s2. rewrite E2. unfold storeDomain, modify. simpl. now rewrite F2. }
  assert (Hl2 : loads s2 = (loads s1 + 1)%nat).
  { unfold s2. rewrite E2. unfold storeDomain, modify, loads. simpl.
    rewrite !List.filter_app, !length_app. simpl. rewrite F3. lia. }
  destruct (handshakes_reuse rest s2 domain
              (setCert (CertTime d) (Some (length (heap s1))) d)
              (length (heap s1)) Hd2 eq_refl)
    as (s3 & E3 & _ & H3 & L3).
  { intros env hello Hin. apply Hall, in_or_app. right. now right. }
  exists cs, s3. rewrite handshakes_app, E1. simpl.
  unfold bind, ret. rewrite E2', E3. simpl. rewrite <- G2.
  split; [reflexivity|]. split; [exact R|].
  split; [rewrite H3, Hh2; reflexivity|].
  rewrite L3, Hl2, G3. lia.
Qed.

(** C2, as the code has it: the certificate cache over a sequence of
    handshakes for one domain, each with its own ClientHello.  Whenever a
    handshake returns a configuration, every following handshake that
    finds the certificate file's modification time unchanged returns the
    identical object (the same address, the heap untouched) and loads
    nothing.  A handshake that finds the stored timestamp older than the
    file's modification time sets the timestamp to the file's, drops the
    cached object and makes exactly one [tls.LoadX509KeyPair] call.  When
    the load succeeds it caches and returns an object at a fresh address,
    which by the first part is then the one reused.  When the load fails
    the handshake fails with nothing cached, and every following
    handshake makes one more load call and fails, up to the first whose
    load succeeds: that one caches and returns the fresh object, and the
    handshakes after it reuse it.  A handshake that finds a cached object
    and a timestamp not older than the file reloads nothing. *)
Theorem certificate_cache (env0 : Env) (hello0 : ClientHelloInfo)
    (later : list (Env * ClientHelloInfo))
    (s : State) (d : DomainConfig) (info : FileInfo) :
  String.eqb (ServerName hello0) "" = false ->
  let domain := serverNameDomain env0 (ServerName hello0) in
  Domains (cfg s) !! domain = Some d ->
  os_Stat env0 (CertFile d) = Ok info ->
  (forall env hello, In (env, hello) later ->
     String.eqb (ServerName hello) "" = false /\
     serverNameDomain env (ServerName hello) = domain /\
     exists info', os_Stat env (CertFile d) = Ok info' /\
                   ModTime info' = ModTime info) ->
  let c0 := fst (getConfigForClient env0 hello0 s) in
  let s0 := snd (getConfigForClient env0 hello0 s) in
  (forall p, c0 = Ok p ->
     exists s',
       handshakes later s0 = (repeat (Ok p) (length later), s') /\
       heap s' = heap s0 /\ loads s' = loads s0) /\
  (CertTime d < ModTime info ->
     loads s0 = (loads s + 1)%nat /\
     exists d0,
       Domains (cfg s0) !! domain = Some d0 /\
       CertTime d0 = ModTime info /\
       match LoadX509KeyPair env0 (CertFile d) (KeyFile d) with
       | Ok cert =>
           c0 = Ok (length (heap s)) /\
           heap s0 = (heap s ++ [{| Certificates := [cert];
                                    NextProtos := ["h2"; "http/1.1"] |}])%list /\
           CertConfig d0 = Some (length (heap s))
       | Err err =>
           c0 = Err (fmt_Errorf "loading key pair" err) /\
           heap s0 = heap s /\
           CertConfig d0 = None /\
           forall failing env1 hello1 rest cert1,
             later = (failing ++ (env1, hello1) :: rest)%list ->
             Forall (fun eh => exists err',
                       LoadX509KeyPair (fst eh) (CertFile d) (KeyFile d) =
                         Err err') failing ->
             LoadX509KeyPair env1 (CertFile d) (KeyFile d) = Ok cert1 ->
             exists cs s',
               handshakes later s0 =
                 (cs ++ repeat (Ok (length (heap s))) (S (length rest)), s')%list /\
               Forall2 (fun eh c =>
                          exists err',
                            LoadX509KeyPair (fst eh) (CertFile d) (KeyFile d) =
                              Err err' /\
                            c = Err (fmt_Errorf "loading key pair" err'))
                 failing cs /\
               heap s' = (heap s ++ [{| Certificates := [cert1];
                                        NextProtos := ["h2"; "http/1.1"] |}])%list /\
               loads s' = (loads s + 1 + length failing + 1)%nat
       end) /\
  (ModTime info <= CertTime d ->
     forall p, CertConfig d = Some p ->
       c0 = Ok p /\ loads s0 = loads s /\ heap s0 = heap s /\ cfg s0 = cfg s).
Proof.
  intros Hn domain Hd Hst Hall c0 s0.
  destruct (afterNameCheck_frame env0 hello0 s) as (F1 & F2 & F3).
  split; [|split].
  - intros p Hc0.
    assert (E : getConfigForClient env0 hello0 s = (Ok p, s0)).
    { subst c0 s0. destruct (getConfigForClient env0 hello0 s) as [c s1].
      simpl in *. now subst c. }
    destruct (handshake_post env0 hello0 s s0 d info p Hn Hd Hst E)
      as (d1 & Hd1 & Hc1 & Hf1 & Ht1 & _).
    destruct (handshakes_reuse later s0 domain d1 p Hd1 Hc1)
      as (s' & E' & _ & G2 & G3).
    { intros env hello Hin. destruct (Hall env hello Hin) as (N & A & info' & B & C).
      split; [exact N|]. split; [exact A|].
      exists info'. rewrite Hf1. split; [exact B|lia]. }
    exists s'. auto.
  - intros Hlt.
    assert (E : getConfigForClient env0 hello0 s = (c0, s0))
      by (subst c0 s0; now destruct (getConfigForClient env0 hello0 s)).
    rewrite (handshake_stale env0 hello0 s d info Hn Hd Hst Hlt) in E.
    cbv zeta in E. fold domain in E.
    destruct (LoadX509KeyPair env0 (CertFile d) (KeyFile d)) as [cert|err];
      injection E as Ec Es.
    + split.
      * rewrite <- Es. unfold storeDomain, modify, loads. simpl.
        rewrite F3, !List.filter_app, !length_app. simpl. lia.
      * eexists. rewrite <- Es. unfold storeDomain, modify. simpl.
        rewrite lookup_insert_eq. split; [reflexivity|].
        simpl. rewrite F2. auto.
    + assert (L0 : loads s0 = (loads s + 1)%nat).
      { rewrite <- Es. unfold storeDomain, modify, loads. simpl.
        rewrite F3, !List.filter_app, !length_app. simpl. lia. }
      assert (D0 : Domains (cfg s0) !! domain =
                   Some (setCert (ModTime info) None d)).
      { rewrite <- Es. unfold storeDomain, modify. simpl.
        apply lookup_insert_eq. }
      assert (H0 : heap s0 = heap s).
      { rewrite <- Es. unfold storeDomain, modify. simpl. exact F2. }
      split; [exact L0|].
      exists (setCert (ModTime info) None d).
      split; [exact D0|]. split; [reflexivity|].
      split; [auto|]. split; [exact H0|]. split; [reflexivity|].
      intros failing env1 hello1 rest cert1 Hlater Hfail Hok.
      destruct (handshakes_recover failing rest env1 hello1 cert1 s0 domain
                  (setCert (ModTime info) None d) D0 eq_refl)
        as (cs & s' & A & B & C & D); auto.
      { rewrite <- Hlater. intros env hello Hin.
        destruct (Hall env hello Hin) as (N & A & info' & B & C).
        split; [exact N|]. split; [exact A|].
        exists info'. simpl. split; [exact B | lia]. }
      exists cs, s'. rewrite Hlater, A, H0. split; [reflexivity|].
      split; [exact B|]. split; [rewrite C, H0; reflexivity|].
      rewrite D, L0. reflexivity.
  - intros Hge p Hc. subst c0 s0.
    rewrite (handshake_reuse env0 hello0 s d info p Hn Hd Hst Hge Hc). simpl.
    rewrite F1, F2. repeat split; auto.
    rewrite loads_called. simpl. unfold loads. rewrite F3. lia.
Qed.

Lemma certificate_cache_witness :
  let www := {| ServerName := "www.example.com" |} in
  let api := {| ServerName := "api.example.com" |} in
  let s := Scenario.cachedState in
  let s0 := snd (getConfigForClient Scenario.mismatchEnv www s) in
  fst (getConfigForClient Scenario.mismatchEnv www s) =
    Err (fmt_Errorf "loading key pair"
           (errors_New "tls: private key does not match public key")) /\
  loads s0 = (loads s + 1)%nat /\
  exists s',
    handshakes [(Example.renewedEnv, api); (Example.renewedEnv, www)] s0 =
      ([Ok 1%nat; Ok 1%nat], s') /\
    loads s' = (loads s + 2)%nat.
Proof.
  intros www api s s0. unfold s0.
  destruct (certificate_cache Scenario.mismatchEnv www
              [(Example.renewedEnv, api); (Example.renewedEnv, www)] s
              (setCert 1700000003 (Some 0%nat) Example.exampleDomain)
              {| IsDir := false; Size := 27; ModTime := 1707776000 |}
              eq_refl ltac:(vm_compute; reflexivity)
              ltac:(vm_compute; reflexivity)) as (_ & B & _).
  { intros env hello [[= <- <-]|[[= <- <-]|[]]];
      (split; [reflexivity|]); (split; [reflexivity|]); eexists;
      (split; [vm_compute; reflexivity|reflexivity]). }
  destruct (B ltac:(simpl; lia)) as (L & d0 & _ & _ & M).
  cbn [Scenario.mismatchEnv LoadX509KeyPair] in M.
  destruct M as (C0 & _ & _ & Retry).
  destruct (Retry [] Example.renewedEnv api [(Example.renewedEnv, www)]
              {| certChain := "/etc/letsencrypt/live/example.com/fullchain.pem";
                 certKey := "/etc/letsencrypt/live/example.com/privkey.pem" |}
              eq_refl (List.Forall_nil _) eq_refl)
    as (cs & s' & E & R & _ & Ll).
  split; [exact C0|]. split; [exact L|].
  exists s'. split.
  - rewrite E. destruct cs as [|c cs]; [reflexivity|].
    exfalso. inversion R.
  - rewrite Ll. simpl. lia.
Defined.

(** A renewal after which one reload is not enough: the
    renewed certificate does not match the key at first, so the handshake
    that finds the file newer loads and fails; the next one loads again,
    now with success; only the third reuses the new object.  Two loads
    between the change and the reuse, not one. *)
Lemma two_reloads_before_reuse :
  let www := {| ServerName := "www.example.com" |} in
  let api := {| ServerName := "api.example.com" |} in
  let s := Scenario.cachedState in
  let run := handshakes [(Scenario.mismatchEnv, www);
                         (Example.renewedEnv, www);
                         (Example.renewedEnv, api)] s in
  Domains (cfg s) !! "example.com" =
    Some (setCert 1700000003 (Some 0%nat) Example.exampleDomain) /\
  os_Stat Scenario.mismatchEnv (CertFile Example.exampleDomain) =
    Ok {| IsDir := false; Size := 27; ModTime := 1707776000 |} /\
  os_Stat Example.renewedEnv (CertFile Example.exampleDomain) =
    Ok {| IsDir := false; Size := 27; ModTime := 1707776000 |} /\
  fst run =
    [Err (fmt_Errorf "loading key pair"
            (errors_New "tls: private key does not match public key"));
     Ok 1%nat; Ok 1%nat] /\
  loads (snd run) = (loads s + 2)%nat /\
  loads (snd run) <> (loads s + 1)%nat.
Proof.
  cbv zeta.
  assert (L : loads (snd (handshakes [(Scenario.mismatchEnv,
                                        {| ServerName := "www.example.com" |});
                                      (Example.renewedEnv,
                                        {| ServerName := "www.example.com" |});
                                      (Example.renewedEnv,
                                        {| ServerName := "api.example.com" |})]
                             Scenario.cachedState)) = 3%nat)
    by (vm_compute; reflexivity).
  assert (L0 : loads Scenario.cachedState = 1%nat) by (vm_compute; reflexivity).
  repeat (split; [vm_compute; reflexivity|]).
  rewrite L, L0. intros E. discriminate E.
Qed.

End CertificateCache.

(** ** Unknown domains *)

Section UnknownDomain.
Import GoStrings GoErrors Config World Http Mediator.

(** C3: when the registrable domain a request or a handshake resolves to
    is not a key of [Domains], nothing is served.  [ServeHTTP] writes
    status 500 and the generic body, logs one line and returns without any
    call to the file system or to an upstream and without touching the
    configuration; [getConfigForClient] returns an error and no
    configuration, again without any such call.  No other domain's
    configuration is consulted. *)
Theorem unknown_domain_fails_closed (env : Env) (s : State) :
  (forall (r : Request) (domain subdomain : string),
      parseRequest env r = Ok (domain, subdomain) ->
      Domains (cfg s) !! domain = None ->
      ServeHTTP env r s =
        (tt,
         {| cfg := cfg s; heap := heap s;
            logs := (logs s ++ [LogNoSuchDomain (Host r)])%list;
            sys := sys s;
            resp := write errorBody
                      (writeHeader StatusInternalServerError (resp s));
            urlPath := urlPath s |})) /\
  (forall (hello : ClientHelloInfo),
      Domains (cfg s) !! serverNameDomain env (ServerName hello) = None ->
      exists (err : error) (s' : State),
        getConfigForClient env hello s = (Err err, s') /\
        cfg s' = cfg s /\ heap s' = heap s /\ sys s' = sys s /\
        resp s' = resp s).
Proof.
  split.
  - intros r domain subdomain Hp Hd.
    unfold ServeHTTP. rewrite Hp.
    unfold bind, get. rewrite Hd. reflexivity.
  - intros hello Hd. unfold getConfigForClient.
    destruct (String.eqb (ServerName hello) "").
    + eexists _, _. split; [reflexivity | auto].
    + unfold bind, get, ret.
      destruct (Publicsuffix.EffectiveTLDPlusOne _ _); simpl;
        rewrite Hd; simpl; eexists _, _; split; try reflexivity; auto.
Qed.

Lemma unknown_domain_fails_closed_witness :
  wroteHeader (resp (snd (ServeHTTP Example.exampleEnv
                            (Example.request "www.other.org")
                            (Example.start Example.exampleConfig "/x")))) = [500] /\
  exists (err : error) (s' : State),
    getConfigForClient Example.exampleEnv {| ServerName := "www.other.org" |}
      (Example.start Example.exampleConfig "") = (Err err, s') /\
    sys s' = [].
Proof.
  destruct (unknown_domain_fails_closed Example.exampleEnv
              (Example.start Example.exampleConfig "/x")) as [H1 _].
  destruct (unknown_domain_fails_closed Example.exampleEnv
              (Example.start Example.exampleConfig "")) as [_ H2].
  split.
  - rewrite (H1 (Example.request "www.other.org") "other.org" "www");
      [reflexivity | reflexivity | reflexivity].
  - destruct (H2 {| ServerName := "www.other.org" |}) as (err & s' & E & _ & _ & Hs & _);
      [reflexivity |].
    exists err, s'. split; [exact E | exact Hs].
Defined.

End UnknownDomain.

(** ** The file resolver and its retry *)

Section FileResolver.
Import GoStrings GoErrors Config World Http Mediator.

Ltac run :=
  unfold bind, ret, get, modify, syscall, log_Printf, WriteHeader, Write,
    Header_Set in *; simpl in *.

(** What [io.Copy] puts on the wire, and whether it fails. *)
Lemma io_Copy_eq (env : Env) (file : File) (s : State) :
  io_Copy env file s =
    match file with
    | DirectoryHandle =>
        (0, Some (fs_PathError "read" "" (syscall_Errno 21)), s)
    | FileOf data =>
        if String.eqb data "" then (0, None, s)
        else match clientBreak env with
             | None => (Z.of_nat (len data), None, withResp (write data) s)
             | Some n =>
                 if (n <? len data)%nat
                 then (Z.of_nat (len (upto n data)),
                       Some (errors_New "write: broken pipe"),
                       withResp (write (upto n data)) s)
                 else (Z.of_nat (len data), None, withResp (write data) s)
             end
    end.
Proof.
  unfold io_Copy. destruct file as [data|]; [|reflexivity].
  destruct (String.eqb data ""); [reflexivity|].
  destruct (clientBreak env) as [n|]; [destruct (n <? len data)%nat|]; reflexivity.
Qed.

(** The deferred function adds its line to the log, if it has one. *)
Lemma closeFile_eq (env : Env) (path : string) (s : State) :
  closeFile env path s = (tt, closed env path s).
Proof.
  unfold closeFile, closed, closeLog, log_Printf, modify, logged, withLogs, ret.
  destruct (closeError env path); [reflexivity|].
  destruct s; simpl. now rewrite app_nil_r.
Qed.

(** The state in which [sendFile] starts copying: the file is open and the
    headers are set. *)
Lemma sendFile_eq (env : Env) (r : Request) (path : string) (fi : FileInfo)
    (s : State) :
  sendFile env r path fi s =
    match os_Open env path with
    | Err err =>
        (false, logged (LogOpenError (RemoteAddr r) path err)
                  (respond StatusNotFound notOpenedBody (called (SysOpen path) s)))
    | Ok file =>
        let ct := TypeByExtension env (Filepath.Ext path) in
        let s1 := withResp (headerSet "Last-Modified"
                              (FormatHTTPTime env (ModTime fi)))
                    (withResp (headerSet "Content-Length" (FormatInt (Size fi)))
                       (called (SysOpen path) s)) in
        let s2 := if String.eqb ct "" then s1
                  else withResp (headerSet "Content-Type" ct) s1 in
        let '(n, err, s3) := io_Copy env file s2 in
        match err with
        | Some err =>
            (false, closed env path
                      (logged (LogCopyError (RemoteAddr r) path err) s3))
        | None =>
            (false, closed env path
                      (logged (LogServed (RemoteAddr r) n path) s3))
        end
    end.
Proof.
  unfold sendFile. run.
  destruct (os_Open env path) as [file|err]; [|reflexivity].
  run. destruct (String.eqb (TypeByExtension env (Filepath.Ext path)) "");
    destruct (io_Copy env file _) as [[n [e|]] s3];
    rewrite closeFile_eq; reflexivity.
Qed.

(** [serveFile], with the monad unfolded. *)
Lemma serveFile_eq (env : Env) (d : DomainConfig) (sub : string) (r : Request)
    (s : State) :
  serveFile env d sub r s =
    let path := candidatePath d sub (urlPath s) in
    let s0 := called (SysStat path) s in
    match os_Stat env path with
    | Err err =>
        if os_IsNotExist err then
          if IndexFallback d then
            if HasSuffix (urlPath s) "/index.html"
            then (false, respond StatusNotFound notFoundBody
                           (logged (LogCircularFallback (RemoteAddr r) path
                                      (urlPath s)) s0))
            else (true, logged (LogIndexFallback (RemoteAddr r) path
                                  (Filepath.Dir (urlPath s) ++ "/index.html"))
                          (withURLPath
                             (Filepath.Dir (urlPath s) ++ "/index.html") s0))
          else (false, respond StatusNotFound notFoundBody
                         (logged (LogNotExist (RemoteAddr r) path) s0))
        else (false, respond StatusNotFound notFoundBody
                       (logged (LogStatError (RemoteAddr r) path err) s0))
    | Ok fi =>
        if IsDir fi then
          let path' := path ++ "/index.html" in
          let s1 := called (SysStat path') s0 in
          match os_Stat env path' with
          | Err err =>
              (false, logged (if os_IsNotExist err
                              then LogNotExist (RemoteAddr r) path'
                              else LogStatError (RemoteAddr r) path' err)
                        (respond StatusNotFound notFoundBody s1))
          | Ok fi' => sendFile env r path' fi' s1
          end
        else sendFile env r path fi s0
    end.
Proof.
  unfold serveFile. run.
  destruct (os_Stat env (candidatePath d sub (urlPath s))) as [fi|err].
  - destruct (IsDir fi); [|reflexivity]. run.
    destruct (os_Stat env (candidatePath d sub (urlPath s) ++ "/index.html"))
      as [fi'|err']; [reflexivity|].
    run. destruct (os_IsNotExist err'); reflexivity.
  - destruct (os_IsNotExist err); [|reflexivity].
    destruct (IndexFallback d); [|reflexivity].
    destruct (HasSuffix (urlPath s) "/index.html"); reflexivity.
Qed.

(** [sendFile] never asks for a retry and never rewrites the request path. *)
Lemma sendFile_no_retry (env : Env) (r : Request) (path : string)
    (fi : FileInfo) (s : State) :
  fst (sendFile env r path fi s) = false /\
  urlPath (snd (sendFile env r path fi s)) = urlPath s.
Proof.
  rewrite sendFile_eq. destruct (os_Open env path) as [file|err]; [|auto].
  cbv zeta. rewrite io_Copy_eq.
  destruct (String.eqb (TypeByExtension env (Filepath.Ext path)) "");
    destruct file as [data|]; try (split; reflexivity);
    (destruct (String.eqb data ""); [split; reflexivity|]);
    (destruct (clientBreak env) as [n|];
      [destruct (n <? len data)%nat|]; split; reflexivity).
Qed.

Ltac sendFile_facts H :=
  match type of H with
  | sendFile ?e ?r ?p ?f ?st = _ =>
      let F := fresh "F" in let G := fresh "G" in
      destruct (sendFile_no_retry e r p f st) as [F G];
      rewrite H in F, G; simpl in F, G
  end.

(** When [serveFile] signals a retry, the candidate path does not exist,
    index fallback is on and the request path did not end in
    [/index.html]; the only changes are the rewritten request path, one
    [os.Stat] call and one log line: the response is untouched. *)
Lemma serveFile_retry (env : Env) (d : DomainConfig) (sub : string)
    (r : Request) (s s' : State) :
  serveFile env d sub r s = (true, s') ->
  HasSuffix (urlPath s) "/index.html" = false /\
  IndexFallback d = true /\
  (exists err, os_Stat env (candidatePath d sub (urlPath s)) = Err err /\
               os_IsNotExist err = true) /\
  s' = logged (LogIndexFallback (RemoteAddr r)
                 (candidatePath d sub (urlPath s))
                 (Filepath.Dir (urlPath s) ++ "/index.html"))
         (withURLPath (Filepath.Dir (urlPath s) ++ "/index.html")
            (called (SysStat (candidatePath d sub (urlPath s))) s)).
Proof.
  rewrite serveFile_eq. cbv zeta.
  destruct (os_Stat env (candidatePath d sub (urlPath s))) as [fi|err] eqn:Hst.
  - destruct (IsDir fi).
    + destruct (os_Stat env (candidatePath d sub (urlPath s) ++ "/index.html"))
        as [fi'|err'].
      * intros H. sendFile_facts H. discriminate.
      * intros H; discriminate.
    + intros H. sendFile_facts H. discriminate.
  - destruct (os_IsNotExist err) eqn:Hne; [|intros H; discriminate].
    destruct (IndexFallback d); [|intros H; discriminate].
    destruct (HasSuffix (urlPath s) "/index.html"); [intros H; discriminate|].
    intros H. injection H as <-. repeat split; eauto.
Qed.

(** A request path that already ends in [/index.html] and whose candidate
    does not exist: 404, no retry, no rewrite. *)
Lemma serveFile_circular (env : Env) (d : DomainConfig) (sub : string)
    (r : Request) (s : State) (err : error) :
  HasSuffix (urlPath s) "/index.html" = true ->
  os_Stat env (candidatePath d sub (urlPath s)) = Err err ->
  os_IsNotExist err = true ->
  exists s',
    serveFile env d sub r s = (false, s') /\
    urlPath s' = urlPath s /\
    resp s' = write notFoundBody (writeHeader StatusNotFound (resp s)) /\
    sys s' = (sys s ++ [SysStat (candidatePath d sub (urlPath s))])%list.
Proof.
  intros Hsuf Hst Hne. rewrite serveFile_eq. cbv zeta. rewrite Hst, Hne, Hsuf.
  destruct (IndexFallback d); eexists; (split; [reflexivity|auto]).
Qed.

(** An invocation that does not signal a retry leaves the request path
    alone. *)
Lemma serveFile_keeps_path (env : Env) (d : DomainConfig) (sub : string)
    (r : Request) (s s' : State) :
  serveFile env d sub r s = (false, s') -> urlPath s' = urlPath s.
Proof.
  rewrite serveFile_eq. cbv zeta.
  destruct (os_Stat env (candidatePath d sub (urlPath s))) as [fi|err].
  - destruct (IsDir fi).
    + destruct (os_Stat env (candidatePath d sub (urlPath s) ++ "/index.html"))
        as [fi'|err'].
      * intros H. sendFile_facts H. assumption.
      * intros H; injection H as <-; reflexivity.
    + intros H. sendFile_facts H. assumption.
  - destruct (os_IsNotExist err); [|intros H; injection H as <-; reflexivity].
    destruct (IndexFallback d); [|intros H; injection H as <-; reflexivity].
    destruct (HasSuffix (urlPath s) "/index.html");
      intros H; [injection H as <-; reflexivity | discriminate].
Qed.

(** The invocation that follows a retry signal never signals again: its
    request path ends in [/index.html]. *)
Lemma serveFile_second (env : Env) (d : DomainConfig) (sub : string)
    (r : Request) (s s1 : State) :
  serveFile env d sub r s = (true, s1) ->
  HasSuffix (urlPath s1) "/index.html" = true /\
  fst (serveFile env d sub r s1) = false.
Proof.
  intros H. apply serveFile_retry in H as (_ & _ & _ & ->). simpl.
  assert (E : HasSuffix (Filepath.Dir (urlPath s) ++ "/index.html")
                "/index.html" = true) by apply HasSuffix_app.
  split; [exact E|].
  destruct (serveFile env d sub r _) as [[|] s2] eqn:E2; [|reflexivity].
  apply serveFile_retry in E2 as (F & _). simpl in F. congruence.
Qed.

(** The dispatch of a request that no backend takes: what [ServeHTTP]
    does once the domain is found and [handoff] has declined. *)
Lemma ServeHTTP_file_dispatch (env : Env) (r : Request) (s : State)
    (domain subdomain : string) (d : DomainConfig) :
  parseRequest env r = Ok (domain, subdomain) ->
  Domains (cfg s) !! domain = Some d ->
  Backends d !! (if String.eqb subdomain "" then Default d else subdomain) = None ->
  ServeHTTP env r s =
    let sub := if String.eqb subdomain "" then Default d else subdomain in
    let '(retry, s1) := serveFile env d sub r s in
    if retry then (tt, snd (serveFile env d sub r s1)) else (tt, s1).
Proof.
  intros Hp Hd Hb. unfold ServeHTTP. rewrite Hp. run. rewrite Hd.
  unfold handoff. rewrite Hb. run.
  destruct (serveFile env d _ r s) as [[|] s1]; [|reflexivity].
  destruct (serveFile env d _ r s1) as [b s2]; reflexivity.
Qed.

(** C1: a request dispatched to static file serving goes through the file
    resolver once or twice, never more: the dispatch is the effect of one
    invocation when the first does not signal a retry and of exactly two
    otherwise, whatever the second returns.  The request path is rewritten
    at most once (it ends as it was or as its parent's [index.html]), the
    second invocation starts from a path ending in [/index.html] and never
    signals again; and an invocation whose request path already ends in
    [/index.html] and whose candidate file does not exist answers 404 and
    leaves the path as it is. *)
Theorem index_fallback_at_most_once (env : Env) (r : Request) (s : State)
    (domain subdomain : string) (d : DomainConfig) :
  parseRequest env r = Ok (domain, subdomain) ->
  Domains (cfg s) !! domain = Some d ->
  Backends d !! (if String.eqb subdomain "" then Default d else subdomain) = None ->
  let sub := if String.eqb subdomain "" then Default d else subdomain in
  let resolve := serveFile env d sub r in
  (exists n : nat,
      (1 <= n <= 2)%nat /\
      n = (if fst (resolve s) then 2 else 1)%nat /\
      ServeHTTP env r s = invocations n resolve s) /\
  (urlPath (snd (ServeHTTP env r s)) = urlPath s \/
   urlPath (snd (ServeHTTP env r s)) =
     Filepath.Dir (urlPath s) ++ "/index.html") /\
  (forall s1, resolve s = (true, s1) ->
      HasSuffix (urlPath s1) "/index.html" = true /\
      fst (resolve s1) = false /\
      urlPath (snd (resolve s1)) = urlPath s1) /\
  (forall (s0 : State) (err : error),
      HasSuffix (urlPath s0) "/index.html" = true ->
      os_Stat env (candidatePath d sub (urlPath s0)) = Err err ->
      os_IsNotExist err = true ->
      exists s',
        resolve s0 = (false, s') /\
        urlPath s' = urlPath s0 /\
        resp s' = write notFoundBody (writeHeader StatusNotFound (resp s0))).
Proof.
  intros Hp Hd Hb sub resolve.
  pose proof (ServeHTTP_file_dispatch env r s domain subdomain d Hp Hd Hb) as E.
  cbv zeta in E. fold sub in E. fold resolve in E.
  assert (Second : forall s1, resolve s = (true, s1) ->
      HasSuffix (urlPath s1) "/index.html" = true /\
      fst (resolve s1) = false /\
      urlPath (snd (resolve s1)) = urlPath s1).
  { intros s1 H1. destruct (serveFile_second env d sub r s s1 H1) as [A B].
    change (fst (resolve s1) = false) in B.
    repeat split; auto.
    destruct (resolve s1) as [b s2] eqn:E2. simpl in B. subst b. simpl.
    exact (serveFile_keeps_path env d sub r s1 s2 E2). }
  repeat split.
  - destruct (resolve s) as [[|] s1] eqn:E1; simpl.
    + exists 2%nat. repeat split; try lia. rewrite E. simpl. unfold bind, ret.
      rewrite E1. destruct (resolve s1); reflexivity.
    + exists 1%nat. repeat split; try lia. rewrite E. simpl. unfold bind, ret.
      now rewrite E1.
  - rewrite E. destruct (resolve s) as [[|] s1] eqn:E1; simpl.
    + right. destruct (Second s1 eq_refl) as (_ & _ & ->).
      apply serveFile_retry in E1 as (_ & _ & _ & ->). reflexivity.
    + left. exact (serveFile_keeps_path env d sub r s s1 E1).
  - apply (Second s1 H).
  - apply (Second s1 H).
  - apply (Second s1 H).
  - intros s0 err H1 H2 H3.
    destruct (serveFile_circular env d sub r s0 err H1 H2 H3) as (s' & A & B & C & _).
    exists s'. auto.
Qed.

Lemma index_fallback_at_most_once_witness :
  let s := Example.start Example.exampleConfig "/nothing/here.png" in
  let resolve := serveFile Example.exampleEnv Example.exampleDomain "www"
                   (Example.request "example.com") in
  (exists n : nat,
      (1 <= n <= 2)%nat /\
      n = (if fst (resolve s) then 2 else 1)%nat /\
      ServeHTTP Example.exampleEnv (Example.request "example.com") s =
        invocations n resolve s) /\
  (urlPath (snd (ServeHTTP Example.exampleEnv (Example.request "example.com") s)) =
     urlPath s \/
   urlPath (snd (ServeHTTP Example.exampleEnv (Example.request "example.com") s)) =
     Filepath.Dir (urlPath s) ++ "/index.html") /\
  (forall s1, resolve s = (true, s1) ->
      HasSuffix (urlPath s1) "/index.html" = true /\
      fst (resolve s1) = false /\
      urlPath (snd (resolve s1)) = urlPath s1) /\
  (forall (s0 : State) (err : error),
      HasSuffix (urlPath s0) "/index.html" = true ->
      os_Stat Example.exampleEnv
        (candidatePath Example.exampleDomain "www" (urlPath s0)) = Err err ->
      os_IsNotExist err = true ->
      exists s',
        resolve s0 = (false, s') /\
        urlPath s' = urlPath s0 /\
        resp s' = write notFoundBody (writeHeader StatusNotFound (resp s0))).
Proof.
  apply (index_fallback_at_most_once Example.exampleEnv
           (Example.request "example.com")
           (Example.start Example.exampleConfig "/nothing/here.png")
           "example.com" "" Example.exampleDomain); reflexivity.
Defined.

(** ** Status codes *)














(** ** A served file *)

(** The headers [sendFile] sets for a file of [size] bytes modified at
    [mt], on top of the headers [h] already there. *)
Lemma fileHeaders_lookup (h : gmap string string) (cl lm ct : string) :
  let h' := (if String.eqb ct "" then fun m => m
             else <["Content-Type" := ct]>)
              (<["Last-Modified" := lm]> (<["Content-Length" := cl]> h)) in
  h' !! "Content-Length" = Some cl /\
  h' !! "Last-Modified" = Some lm /\
  h' !! "Content-Type" = (if String.eqb ct "" then h !! "Content-Type"
                          else Some ct).
Proof.
  cbv zeta. destruct (String.eqb ct "").
  - repeat split.
    + rewrite lookup_insert_ne by discriminate. apply lookup_insert_eq.
    + apply lookup_insert_eq.
    + now rewrite !lookup_insert_ne by discriminate.
  - repeat split.
    + rewrite !lookup_insert_ne by discriminate. apply lookup_insert_eq.
    + rewrite lookup_insert_ne by discriminate. apply lookup_insert_eq.
    + apply lookup_insert_eq.
Qed.

Lemma sendFile_served (env : Env) (r : Request) (path : string)
    (fi : FileInfo) (s s' : State) (b : bool) (n : Z) (p : string)
    (post : list LogLine) :
  os_Stat env path = Ok fi ->
  sendFile env r path fi s = (b, s') ->
  logs s' = (logs s ++ LogServed (RemoteAddr r) n p :: post)%list ->
  p = path /\
  exists (mt : Z) (data : string),
    files env !! path = Some (RegularFile mt data true) /\
    n = Z.of_nat (len data) /\
    Header (resp s') =
      (if String.eqb (TypeByExtension env (Filepath.Ext path)) ""
       then fun m => m
       else <["Content-Type" := TypeByExtension env (Filepath.Ext path)]>)
        (<["Last-Modified" := FormatHTTPTime env mt]>
           (<["Content-Length" := FormatInt (Z.of_nat (len data))]>
              (Header (resp s)))) /\
    Body (resp s') = Body (resp s) ++ data.
Proof.
  intros Hst. unfold os_Stat in Hst. rewrite sendFile_eq. unfold os_Open.
  destruct (files env !! path) as [[mt data op|mt sz|errno]|] eqn:Hf;
    try discriminate Hst.
  - injection Hst as <-. destruct op.
    + cbv zeta. rewrite io_Copy_eq. simpl.
      assert (Fin : forall (w : ResponseWriter),
                 Body (write data w) = Body w ++ data /\
                 Header (write data w) = Header w).
      { intros w. unfold write. destruct (wroteHeader w); simpl; auto. }
      destruct (String.eqb (TypeByExtension env (Filepath.Ext path)) "") eqn:Ect;
        (destruct (String.eqb data "") eqn:Ed;
         [ apply String.eqb_eq in Ed; subst data;
           intros H; injection H as <- <-; simpl; intros Hl;
           rewrite <- app_assoc in Hl;
           apply app_inv_head in Hl; injection Hl as <- <- _;
           split; [reflexivity|]; exists mt, ""; simpl;
           rewrite app_empty_r; auto
         | destruct (clientBreak env) as [k|];
           [destruct (k <? len data)%nat|];
           intros H; injection H as <- <-; intros Hl; simpl in Hl;
           rewrite <- app_assoc in Hl;
           apply app_inv_head in Hl; try discriminate Hl;
           injection Hl as <- <- _;
           (split; [reflexivity|]; exists mt, data;
            cbn [resp logged withLogs withResp called withSys closed];
            rewrite (proj1 (Fin _)), (proj2 (Fin _)); simpl; auto) ]).
    + intros H; injection H as <- <-; simpl; intros Hl.
      apply app_inv_head in Hl. discriminate Hl.
  - injection Hst as <-. cbv zeta. rewrite io_Copy_eq.
    destruct (String.eqb (TypeByExtension env (Filepath.Ext path)) "");
      intros H; injection H as <- <-; simpl; intros Hl;
      rewrite <- app_assoc in Hl;
      apply app_inv_head in Hl; discriminate Hl.
Qed.

(** What the response of a served file carries.  Whenever [serveFile]
    reports a file as served (its log line for [n] bytes of [path]),
    [path] is a regular file of the file system, the candidate path or the
    [index.html] below it; the response carries [Content-Length] equal to
    the decimal byte size of that file, [Content-Type] equal to the type
    guessed from the extension, or no [Content-Type] set by the resolver
    when the guess is empty; the body written is the file's bytes, all
    [n] of them; and [Last-Modified] is the file's modification time
    formatted in the server's local zone, which is its HTTP-date where
    that zone is at offset zero. *)
Lemma served_file_response (env : Env) (d : DomainConfig) (sub : string)
    (r : Request) (s s' : State) (b : bool) (n : Z) (path : string)
    (post : list LogLine) :
  serveFile env d sub r s = (b, s') ->
  logs s' = (logs s ++ LogServed (RemoteAddr r) n path :: post)%list ->
  exists (mt : Z) (data : string),
    files env !! path = Some (RegularFile mt data true) /\
    (path = candidatePath d sub (urlPath s) \/
     path = candidatePath d sub (urlPath s) ++ "/index.html") /\
    n = Z.of_nat (len data) /\
    Header (resp s') !! "Content-Length" = Some (FormatInt (Z.of_nat (len data))) /\
    Header (resp s') !! "Last-Modified" =
      Some (GoTime.Format_TimeFormat (Local env mt) mt) /\
    (Local env mt = 0 ->
     Header (resp s') !! "Last-Modified" = Some (GoTime.HTTPDate mt)) /\
    Header (resp s') !! "Content-Type" =
      (if String.eqb (TypeByExtension env (Filepath.Ext path)) ""
       then Header (resp s) !! "Content-Type"
       else Some (TypeByExtension env (Filepath.Ext path))) /\
    Body (resp s') = Body (resp s) ++ data.
Proof.
  rewrite serveFile_eq. cbv zeta.
  set (cand := candidatePath d sub (urlPath s)).
  assert (Done : forall p fi s0,
    os_Stat env p = Ok fi -> Header (resp s0) = Header (resp s) ->
    Body (resp s0) = Body (resp s) -> logs s0 = logs s ->
    (p = cand \/ p = cand ++ "/index.html") ->
    sendFile env r p fi s0 = (b, s') ->
    logs s' = (logs s ++ LogServed (RemoteAddr r) n path :: post)%list ->
    exists (mt : Z) (data : string),
      files env !! path = Some (RegularFile mt data true) /\
      (path = cand \/ path = cand ++ "/index.html") /\
      n = Z.of_nat (len data) /\
      Header (resp s') !! "Content-Length" = Some (FormatInt (Z.of_nat (len data))) /\
      Header (resp s') !! "Last-Modified" =
        Some (GoTime.Format_TimeFormat (Local env mt) mt) /\
      (Local env mt = 0 ->
       Header (resp s') !! "Last-Modified" = Some (GoTime.HTTPDate mt)) /\
      Header (resp s') !! "Content-Type" =
        (if String.eqb (TypeByExtension env (Filepath.Ext path)) ""
         then Header (resp s) !! "Content-Type"
         else Some (TypeByExtension env (Filepath.Ext path))) /\
      Body (resp s') = Body (resp s) ++ data).
  { intros p fi s0 Hst Hh Hb Hl Hp E L. rewrite <- Hl in L.
    destruct (sendFile_served env r p fi s0 s' b n path post Hst E L)
      as (-> & mt & data & Hf & Hn & HH & HB).
    exists mt, data. rewrite HH, HB, Hh, Hb.
    destruct (fileHeaders_lookup (Header (resp s))
                (FormatInt (Z.of_nat (len data))) (FormatHTTPTime env mt)
                (TypeByExtension env (Filepath.Ext p))) as (A & B & C).
    repeat split; auto.
    intros Z0. rewrite B. unfold FormatHTTPTime, GoTime.HTTPDate.
    now rewrite Z0. }
  destruct (os_Stat env cand) as [fi|err] eqn:Hst.
  - destruct (IsDir fi).
    + destruct (os_Stat env (cand ++ "/index.html")) as [fi'|err'] eqn:Hst'.
      * apply (Done _ _ _ Hst'); auto.
      * intros H; injection H as <- <-. simpl. intros L.
        apply app_inv_head in L. destruct (os_IsNotExist err'); discriminate L.
    + apply (Done _ _ _ Hst); auto.
  - destruct (os_IsNotExist err); [destruct (IndexFallback d);
      [destruct (HasSuffix (urlPath s) "/index.html")|]|];
      intros H; injection H as <- <-; simpl; intros L;
      apply app_inv_head in L; discriminate L.
Qed.

(** In a server whose local zone is UTC the headers are as they should
    be. *)
Example served_file_response_utc :
  let s' := snd (serveFile Example.exampleEnv Example.exampleDomain "www"
                   (Example.request "example.com")
                   (Example.start Example.exampleConfig "/")) in
  Header (resp s') !! "Content-Length" = Some "14" /\
  Header (resp s') !! "Content-Type" = Some "text/html; charset=utf-8" /\
  Header (resp s') !! "Last-Modified" = Some "Tue, 14 Nov 2023 22:13:20 GMT" /\
  Header (resp s') !! "Last-Modified" = Some (GoTime.HTTPDate 1700000000) /\
  Body (resp s') = "<h1>hello</h1>".
Proof.
  cbv zeta. repeat (split; [vm_compute; reflexivity|]).
  vm_compute; reflexivity.
Qed.

(** C7: the response of a served file carries the byte size, the guessed
    content type and the file's bytes, but its [Last-Modified] is not the
    HTTP-date of the modification time: [serveFile] formats the time as
    [os.Stat] gives it, in the local zone, under the layout's literal
    [GMT], without converting it to UTC.  In a server one hour east of
    UTC the [index.html] of the example, modified at 22:13:20 GMT, is
    served with a [Last-Modified] of 23:13:20 GMT. *)
Theorem last_modified_in_local_time :
  let env := Scenario.osloEnv in
  let s := Example.start Example.exampleConfig "/" in
  let s' := snd (ServeHTTP env (Example.request "example.com") s) in
  files env !! "/var/www/html/example/www/public_html/index.html" =
    Some (RegularFile 1700000000 "<h1>hello</h1>" true) /\
  Local env 1700000000 = 3600 /\
  logs s' = [LogServed "192.0.2.7:51234" 14
               "/var/www/html/example/www/public_html/index.html"] /\
  wroteHeader (resp s') = [StatusOK] /\
  Body (resp s') = "<h1>hello</h1>" /\
  Header (resp s') !! "Content-Length" = Some "14" /\
  Header (resp s') !! "Content-Type" = Some "text/html; charset=utf-8" /\
  GoTime.HTTPDate 1700000000 = "Tue, 14 Nov 2023 22:13:20 GMT" /\
  Header (resp s') !! "Last-Modified" = Some "Tue, 14 Nov 2023 23:13:20 GMT" /\
  Header (resp s') !! "Last-Modified" <> Some (GoTime.HTTPDate 1700000000).
Proof.
  cbv zeta.
  assert (L : Header (resp (snd (ServeHTTP Scenario.osloEnv
                (Example.request "example.com")
                (Example.start Example.exampleConfig "/")))) !! "Last-Modified" =
              Some "Tue, 14 Nov 2023 23:13:20 GMT")
    by (vm_compute; reflexivity).
  assert (D : GoTime.HTTPDate 1700000000 = "Tue, 14 Nov 2023 22:13:20 GMT")
    by (vm_compute; reflexivity).
  repeat (split; [vm_compute; reflexivity|]).
  rewrite L, D. intros E. discriminate E.
Qed.

End FileResolver.

(** ** Backends *)

Section Backends.
Import GoStrings GoErrors Config World Http Mediator.

Ltac run :=
  unfold bind, ret, get, modify, syscall, log_Printf, WriteHeader, Write,
    Header_Set in *; simpl in *.

Lemma setHeaders_frame (kvs : list (string * string)) (s : State) :
  sys (snd (setHeaders kvs s)) = sys s /\
  urlPath (snd (setHeaders kvs s)) = urlPath s.
Proof.
  revert s. induction kvs as [|[k v] kvs IH]; intros s; simpl; [auto|].
  run. destruct (IH (withResp (headerSet k v) s)) as [A B].
  destruct (setHeaders kvs _) as [u s']. simpl in *. auto.
Qed.

(** The reverse proxy makes one round trip to its backend and no other
    call out of the process. *)
Lemma ReverseProxy_sys (env : Env) (p : httputil_ReverseProxy) (r : Request)
    (s : State) :
  sys (snd (ReverseProxy_ServeHTTP env p r s)) =
    (sys s ++ [SysRoundTrip (rpURL p) (urlPath s)])%list.
Proof.
  unfold ReverseProxy_ServeHTTP. run.
  destruct (roundTrip env (rpURL p) r (urlPath s)) as [code header body|err].
  - run. pose proof (setHeaders_frame header
      (called (SysRoundTrip (rpURL p) (urlPath s)) s)) as [A _].
    destruct (setHeaders header _) as [u s1]. simpl in A. run.
    destruct (String.eqb body ""); simpl; exact A.
  - unfold ErrorHandler. destruct (errors_Is err context_Canceled); reflexivity.
Qed.

(** What [ServeHTTP] does with a request whose subdomain has a backend. *)
Lemma ServeHTTP_backend (env : Env) (r : Request) (s : State)
    (domain subdomain : string) (d : DomainConfig) (backend : BackendConfig) :
  parseRequest env r = Ok (domain, subdomain) ->
  Domains (cfg s) !! domain = Some d ->
  Backends d !! (if String.eqb subdomain "" then Default d else subdomain) =
    Some backend ->
  let sub := if String.eqb subdomain "" then Default d else subdomain in
  let line := LogHandoff (RemoteAddr r) sub domain (urlPath s) (Target backend) in
  ServeHTTP env r s =
    match ReverseProxy backend with
    | Some proxy => (tt, snd (ReverseProxy_ServeHTTP env proxy r (logged line s)))
    | None =>
        match createReverseProxy env backend with
        | Ok (proxy, backend') =>
            (tt, snd (ReverseProxy_ServeHTTP env proxy r
                        (logged line
                           (snd (storeBackend domain sub
                                   (setReverseProxy (Some proxy) backend') s)))))
        | Err err =>
            (tt, logged (LogProxyCreateError (Target backend) err)
                   (respond StatusInternalServerError errorBody s))
        end
    end.
Proof.
  intros Hp Hd Hb. unfold ServeHTTP. rewrite Hp. run. rewrite Hd.
  unfold handoff. rewrite Hb.
  destruct (ReverseProxy backend) as [proxy|].
  - run. destruct (ReverseProxy_ServeHTTP env proxy r _) as [u s']. reflexivity.
  - destruct (createReverseProxy env backend) as [[proxy backend']|err].
    + unfold storeBackend. run.
      destruct (ReverseProxy_ServeHTTP env proxy r _) as [u s']. reflexivity.
    + reflexivity.
Qed.

(** C5, as the code has it: a request whose (default-substituted)
    subdomain is a key of the backend map is taken by the hand-off and is
    never resolved against the file system.  With a cached proxy, or a
    proxy that can be built from the target, the request makes exactly one
    round trip through that proxy and no [os.Stat] or [os.Open] call; when
    the target does not parse as a URL the request is answered 500 with
    the generic body and no call out of the process at all.  Conversely a
    request for which the file system is consulted has no backend entry. *)
Theorem backend_request_never_file_resolved (env : Env) (r : Request) (s : State)
    (domain subdomain : string) (d : DomainConfig) :
  parseRequest env r = Ok (domain, subdomain) ->
  Domains (cfg s) !! domain = Some d ->
  let sub := if String.eqb subdomain "" then Default d else subdomain in
  let s' := snd (ServeHTTP env r s) in
  (forall backend : BackendConfig,
      Backends d !! sub = Some backend ->
      match ReverseProxy backend, createReverseProxy env backend with
      | Some proxy, _ | None, Ok (proxy, _) =>
          sys s' = (sys s ++ [SysRoundTrip (rpURL proxy) (urlPath s)])%list
      | None, Err err =>
          sys s' = sys s /\
          resp s' = write errorBody
                      (writeHeader StatusInternalServerError (resp s))
      end) /\
  (forall (calls : list SysCall) (p : string),
      sys s' = (sys s ++ calls)%list ->
      In (SysStat p) calls \/ In (SysOpen p) calls ->
      Backends d !! sub = None).
Proof.
  intros Hp Hd sub s'.
  assert (A : forall backend : BackendConfig,
      Backends d !! sub = Some backend ->
      match ReverseProxy backend, createReverseProxy env backend with
      | Some proxy, _ | None, Ok (proxy, _) =>
          sys s' = (sys s ++ [SysRoundTrip (rpURL proxy) (urlPath s)])%list
      | None, Err err =>
          sys s' = sys s /\
          resp s' = write errorBody
                      (writeHeader StatusInternalServerError (resp s))
      end).
  { intros backend Hb. subst s'.
    rewrite (ServeHTTP_backend env r s domain subdomain d backend Hp Hd Hb).
    cbv zeta. fold sub.
    destruct (ReverseProxy backend) as [proxy|] eqn:Hrp.
    - simpl. rewrite ReverseProxy_sys. reflexivity.
    - destruct (createReverseProxy env backend) as [[proxy backend']|err] eqn:Hc.
      + simpl. rewrite ReverseProxy_sys. reflexivity.
      + simpl. auto. }
  split; [exact A|].
  intros calls p Hs Hin.
  destruct (Backends d !! sub) as [backend|] eqn:Hb; [|reflexivity].
  exfalso. specialize (A backend eq_refl).
  destruct (ReverseProxy backend) as [proxy|].
  - rewrite Hs in A. apply app_inv_head in A. subst calls.
    destruct Hin as [[H|[]]|[H|[]]]; discriminate H.
  - destruct (createReverseProxy env backend) as [[proxy backend']|err].
    + rewrite Hs in A. apply app_inv_head in A. subst calls.
      destruct Hin as [[H|[]]|[H|[]]]; discriminate H.
    + destruct A as [A _]. rewrite Hs in A.
      rewrite <- (app_nil_r (sys s)) in A at 2. apply app_inv_head in A.
      subst calls. destruct Hin as [[]|[]].
Qed.

Lemma backend_request_never_file_resolved_witness :
  let s := Example.start Example.exampleConfig "/x" in
  let s' := snd (ServeHTTP Example.exampleEnv (Example.request "api.example.com") s) in
  sys s' = [SysRoundTrip {| urlText := "http://127.0.0.1:9000" |} "/x"] /\
  (forall (calls : list SysCall) (p : string),
      sys s' = (sys s ++ calls)%list ->
      In (SysStat p) calls \/ In (SysOpen p) calls ->
      Backends Example.exampleDomain !! "api" = None).
Proof.
  intros s s'.
  destruct (backend_request_never_file_resolved Example.exampleEnv
              (Example.request "api.example.com") s "example.com" "api"
              Example.exampleDomain eq_refl eq_refl) as [A B].
  split.
  - exact (A Example.apiBackend eq_refl).
  - exact B.
Defined.

(** A request for a subdomain that is a key of the backend map and that
    reaches no reverse proxy: the backend's target string does not parse,
    the request is answered 500 and no round trip is made. *)
Lemma backend_without_proxy :
  let d := setBackends {[ "api" := Example.brokenBackend ]} Example.exampleDomain in
  let s := Example.start Example.brokenConfig "/x" in
  let s' := snd (ServeHTTP Example.exampleEnv (Example.request "api.example.com") s) in
  parseRequest Example.exampleEnv (Example.request "api.example.com") =
    Ok ("example.com", "api") /\
  Domains (cfg s) !! "example.com" = Some d /\
  Backends d !! "api" = Some Example.brokenBackend /\
  sys s' = [] /\
  wroteHeader (resp s') = [StatusInternalServerError] /\
  Body (resp s') = errorBody /\
  ~ (exists (target : url_URL) (path : string),
        In (SysRoundTrip target path) (sys s')).
Proof.
  cbv zeta. repeat split; try reflexivity.
  intros (target & path & H). exact H.
Qed.

End Backends.

(** * Further properties of the mediator *)

(** ** The file resolver, case by case *)

Section FileResolverCases.
Import GoStrings GoErrors Config World Http Mediator Outcomes.

Ltac run :=
  unfold bind, ret, get, modify, syscall, log_Printf, WriteHeader, Write,
    Header_Set in *; simpl in *.

(** [os.Stat] reports "does not exist" exactly for the paths the file
    system does not hold. *)
Lemma os_Stat_not_exist (env : Env) (path : string) :
  (exists err, os_Stat env path = Err err /\ os_IsNotExist err = true) <->
  files env !! path = None.
Proof.
  unfold os_Stat. destruct (files env !! path) as [[mt data op|mt sz|errno]|].
  - split; [intros (err & H & _); discriminate | discriminate].
  - split; [intros (err & H & _); discriminate | discriminate].
  - split; [|discriminate]. intros (err & H & N). injection H as <-.
    destruct errno; discriminate N.
  - split; [reflexivity|]. intros _. eexists. split; reflexivity.
Qed.

(** X1: The retry signal is given exactly when the candidate path does not
    exist, index fallback is enabled for the domain and the request path
    does not end in [/index.html] yet. *)
Theorem serveFile_retry_iff (env : Env) (d : DomainConfig) (sub : string)
    (r : Request) (s : State) :
  fst (serveFile env d sub r s) = true <->
  files env !! candidatePath d sub (urlPath s) = None /\
  IndexFallback d = true /\
  HasSuffix (urlPath s) "/index.html" = false.
Proof.
  split.
  - destruct (serveFile env d sub r s) as [b s'] eqn:E. simpl. intros ->.
    apply serveFile_retry in E as (A & B & C & _).
    split; [apply os_Stat_not_exist; exact C | auto].
  - intros (A & B & C). apply os_Stat_not_exist in A as (err & A & N).
    rewrite serveFile_eq. cbv zeta. rewrite A, N, B, C. reflexivity.
Qed.

(** X2: A readable regular file, reached directly or as the [index.html] of a
    directory, is served whole while the client stays connected: the body
    is the file's bytes, the length header is the file's size (not the
    directory's), the request path is untouched and the file system sees
    the stat calls and one open, nothing else.  The log gets the line of
    the file served and, after it, that of the deferred [Close] when it
    fails. *)
Theorem readable_file_is_served (env : Env) (d : DomainConfig) (sub : string)
    (r : Request) (s : State) (path : string) (mt : Z) (data : string) :
  let cand := candidatePath d sub (urlPath s) in
  (files env !! cand = Some (RegularFile mt data true) /\ path = cand \/
   (exists dmt dsz, files env !! cand = Some (Directory dmt dsz)) /\
   path = cand ++ "/index.html" /\
   files env !! path = Some (RegularFile mt data true)) ->
  clientBreak env = None ->
  exists s',
    serveFile env d sub r s = (false, s') /\
    Body (resp s') = Body (resp s) ++ data /\
    Header (resp s') !! "Content-Length" = Some (FormatInt (Z.of_nat (len data))) /\
    Header (resp s') !! "Last-Modified" = Some (FormatHTTPTime env mt) /\
    urlPath s' = urlPath s /\
    logs s' = (logs s ++ [LogServed (RemoteAddr r) (Z.of_nat (len data)) path]
                      ++ closeLog env path)%list /\
    sys s' = (sys s ++ (if String.eqb path cand then [SysStat cand]
                        else [SysStat cand; SysStat path]) ++ [SysOpen path])%list.
Proof.
  intros cand Hfile Hcb.
  assert (Send : forall s0,
    exists s',
      sendFile env r path
        {| IsDir := false; Size := Z.of_nat (len data); ModTime := mt |} s0 =
        (false, s') /\
      Body (resp s') = Body (resp s0) ++ data /\
      Header (resp s') !! "Content-Length" = Some (FormatInt (Z.of_nat (len data))) /\
      Header (resp s') !! "Last-Modified" = Some (FormatHTTPTime env mt) /\
      urlPath s' = urlPath s0 /\
      logs s' = (logs s0 ++ [LogServed (RemoteAddr r) (Z.of_nat (len data)) path]
                         ++ closeLog env path)%list /\
      sys s' = (sys s0 ++ [SysOpen path])%list).
  { intros s0. rewrite sendFile_eq. unfold os_Open.
    assert (Hf : files env !! path = Some (RegularFile mt data true)).
    { destruct Hfile as [[A ->]|(_ & _ & A)]; exact A. }
    rewrite Hf. cbv zeta. rewrite io_Copy_eq, Hcb.
    destruct (fileHeaders_lookup (Header (resp s0))
                (FormatInt (Z.of_nat (len data))) (FormatHTTPTime env mt)
                (TypeByExtension env (Filepath.Ext path))) as (A & B & _).
    assert (W : forall w, Body (write data w) = Body w ++ data /\
                          Header (write data w) = Header w).
    { intros w. unfold write. destruct (wroteHeader w); simpl; auto. }
    destruct (String.eqb (TypeByExtension env (Filepath.Ext path)) "");
      (destruct (String.eqb data "") eqn:Ed;
       [ apply String.eqb_eq in Ed; subst data; eexists; split; [reflexivity|];
         unfold closed; simpl; rewrite app_empty_r; simpl in A, B;
         repeat split; auto; now rewrite <- app_assoc
       | eexists; split; [reflexivity|];
         cbn [resp logged withLogs withResp called withSys urlPath logs sys
              closed];
         rewrite (proj1 (W _)), (proj2 (W _)); simpl; repeat split; auto;
         now rewrite <- app_assoc ]). }
  rewrite serveFile_eq. cbv zeta. fold cand. unfold os_Stat.
  destruct Hfile as [[Hf ->]|((dmt & dsz & Hd) & -> & Hf)].
  - rewrite Hf. simpl. rewrite String.eqb_refl.
    destruct (Send (called (SysStat cand) s)) as (s' & E & A & B & C & D & F & G).
    exists s'. rewrite E. simpl in *. rewrite G.
    repeat split; auto. now rewrite <- app_assoc.
  - rewrite Hd. simpl. rewrite Hf.
    assert (Hne : String.eqb (cand ++ "/index.html") cand = false).
    { apply String.eqb_neq. intros Heq. apply (f_equal len) in Heq.
      rewrite len_app in Heq. simpl in Heq. lia. }
    rewrite Hne.
    destruct (Send (called (SysStat (cand ++ "/index.html"))
                      (called (SysStat cand) s)))
      as (s' & E & A & B & C & D & F & G).
    exists s'. rewrite E. simpl in *. rewrite G.
    repeat split; auto. now rewrite <- !app_assoc.
Qed.

Lemma readable_file_is_served_witness :
  exists s',
    serveFile Example.exampleEnv Example.exampleDomain "www"
      (Example.request "example.com")
      (Example.start Example.exampleConfig "") = (false, s') /\
    Body (resp s') = "<h1>hello</h1>" /\
    sys s' = [SysStat "/var/www/html/example/www/public_html";
              SysStat "/var/www/html/example/www/public_html/index.html";
              SysOpen "/var/www/html/example/www/public_html/index.html"].
Proof.
  destruct (readable_file_is_served Example.exampleEnv Example.exampleDomain
              "www" (Example.request "example.com")
              (Example.start Example.exampleConfig "")
              "/var/www/html/example/www/public_html/index.html"
              1700000000 "<h1>hello</h1>")
    as (s' & E & B & _ & _ & _ & _ & S).
  - right. split; [eexists _, _; reflexivity|]. split; reflexivity.
  - reflexivity.
  - exists s'. split; [exact E|]. split; [exact B | exact S].
Defined.

(** X3: A directory without a usable [index.html] is answered 404 at once:
    the index-fallback rewrite is not tried for it, whatever the domain's
    setting, and the request path stays as it was. *)
Theorem directory_without_index (env : Env) (d : DomainConfig) (sub : string)
    (r : Request) (s : State) (dmt dsz : Z) (err : error) :
  let cand := candidatePath d sub (urlPath s) in
  files env !! cand = Some (Directory dmt dsz) ->
  os_Stat env (cand ++ "/index.html") = Err err ->
  exists s',
    serveFile env d sub r s = (false, s') /\
    resp s' = write notFoundBody (writeHeader StatusNotFound (resp s)) /\
    urlPath s' = urlPath s /\
    sys s' = (sys s ++ [SysStat cand; SysStat (cand ++ "/index.html")])%list.
Proof.
  intros cand Hd He. rewrite serveFile_eq. cbv zeta. fold cand.
  unfold os_Stat at 1. rewrite Hd. simpl. rewrite He.
  eexists. split; [reflexivity|]. simpl. repeat split.
  now rewrite <- app_assoc.
Qed.

Lemma directory_without_index_witness :
  exists s',
    serveFile Scenario.moreEnv Example.exampleDomain "www"
      (Example.request "example.com")
      (Example.start Example.exampleConfig "/docs") = (false, s') /\
    wroteHeader (resp s') = [404] /\ urlPath s' = "/docs".
Proof.
  destruct (directory_without_index Scenario.moreEnv Example.exampleDomain
              "www" (Example.request "example.com")
              (Example.start Example.exampleConfig "/docs")
              1700000004 4096
              (fs_PathError "stat"
                 "/var/www/html/example/www/public_html/docs/index.html"
                 syscall_ENOENT) eq_refl eq_refl)
    as (s' & E & R & U & _).
  exists s'. split; [exact E|]. rewrite R, U. split; reflexivity.
Defined.

(** X4: A file that [os.Stat] finds but [os.Open] refuses is answered 404 with
    the "could not be opened" body; none of the file's headers is set. *)
Theorem unopenable_file (env : Env) (d : DomainConfig) (sub : string)
    (r : Request) (s : State) (mt : Z) (data : string) :
  let cand := candidatePath d sub (urlPath s) in
  files env !! cand = Some (RegularFile mt data false) ->
  exists s',
    serveFile env d sub r s = (false, s') /\
    resp s' = write notOpenedBody (writeHeader StatusNotFound (resp s)) /\
    Header (resp s') = Header (resp s) /\
    urlPath s' = urlPath s.
Proof.
  intros cand Hf. rewrite serveFile_eq. cbv zeta. fold cand.
  unfold os_Stat. rewrite Hf. simpl. rewrite sendFile_eq.
  unfold os_Open. rewrite Hf.
  eexists. split; [reflexivity|]. simpl. repeat split.
  unfold write, writeHeader. simpl.
  destruct (wroteHeader (resp s) ++ [StatusNotFound])%list; reflexivity.
Qed.

Lemma unopenable_file_witness :
  exists s',
    serveFile Scenario.moreEnv Example.exampleDomain "www"
      (Example.request "example.com")
      (Example.start Example.exampleConfig "/secret.txt") = (false, s') /\
    wroteHeader (resp s') = [404] /\
    Body (resp s') = "The requested file could not be opened" /\
    Header (resp s') = ∅.
Proof.
  destruct (unopenable_file Scenario.moreEnv Example.exampleDomain "www"
              (Example.request "example.com")
              (Example.start Example.exampleConfig "/secret.txt")
              1700000005 "hunter2" eq_refl)
    as (s' & E & R & H & _).
  exists s'. split; [exact E|]. rewrite H, R. repeat split; reflexivity.
Defined.

(** X5: A client that goes away after [n] bytes of a longer file: the status
    is the 200 of the first write, the length header still announces the
    whole file, the body holds the first [n] bytes, and the failure is
    logged (followed by the line of the deferred [Close], should that fail
    too); nothing is retried. *)
Theorem client_break_truncates (env : Env) (d : DomainConfig) (sub : string)
    (r : Request) (s : State) (mt : Z) (data : string) (n : nat) :
  let cand := candidatePath d sub (urlPath s) in
  files env !! cand = Some (RegularFile mt data true) ->
  clientBreak env = Some n ->
  (n < len data)%nat ->
  wroteHeader (resp s) = [] ->
  exists s' err,
    serveFile env d sub r s = (false, s') /\
    wroteHeader (resp s') = [StatusOK] /\
    Body (resp s') = Body (resp s) ++ upto n data /\
    Header (resp s') !! "Content-Length" = Some (FormatInt (Z.of_nat (len data))) /\
    logs s' = (logs s ++ [LogCopyError (RemoteAddr r) cand err]
                      ++ closeLog env cand)%list.
Proof.
  intros cand Hf Hcb Hn Hw. rewrite serveFile_eq. cbv zeta. fold cand.
  unfold os_Stat. rewrite Hf. simpl. rewrite sendFile_eq.
  unfold os_Open. rewrite Hf. cbv zeta. rewrite io_Copy_eq, Hcb.
  assert (Hd : String.eqb data "" = false).
  { destruct data; [simpl in Hn; lia | reflexivity]. }
  rewrite Hd. apply Nat.ltb_lt in Hn. rewrite Hn.
  destruct (fileHeaders_lookup (Header (resp s))
              (FormatInt (Z.of_nat (len data))) (FormatHTTPTime env mt)
              (TypeByExtension env (Filepath.Ext cand))) as (A & _ & _).
  destruct (String.eqb (TypeByExtension env (Filepath.Ext cand)) "");
    eexists _, _; (split; [reflexivity|]); unfold closed; simpl;
    unfold write; simpl;
    rewrite Hw; simpl; simpl in A; rewrite ?Hw; repeat split; auto;
    now rewrite <- app_assoc.
Qed.

Lemma client_break_truncates_witness :
  exists s' err,
    serveFile Scenario.hastyEnv Example.exampleDomain "www"
      (Example.request "example.com")
      (Example.start Example.exampleConfig "/") = (false, s') /\
    wroteHeader (resp s') = [200] /\
    Body (resp s') = "<h1>" /\
    Header (resp s') !! "Content-Length" = Some "14" /\
    logs s' = [LogCopyError "192.0.2.7:51234"
                 "/var/www/html/example/www/public_html/index.html" err].
Proof.
  destruct (client_break_truncates Scenario.hastyEnv Example.exampleDomain "www"
              (Example.request "example.com")
              (Example.start Example.exampleConfig "/")
              1700000000 "<h1>hello</h1>" 4 eq_refl eq_refl)
    as (s' & err & E & A & B & C & D); [simpl; lia | reflexivity |].
  exists s', err. repeat split; assumption.
Defined.

Lemma upto_all (a : string) : upto (len a) a = a.
Proof. rewrite <- (app_empty_r a) at 2. apply upto_len_app. Qed.

Lemma sendFile_answers (env : Env) (r : Request) (path : string)
    (fi : FileInfo) (s : State) :
  wroteHeader (resp s) = [] -> Body (resp s) = "" ->
  fileAnswer env (resp (snd (sendFile env r path fi s))).
Proof.
  intros Hw Hb. rewrite sendFile_eq. unfold os_Open.
  destruct (files env !! path) as [[mt data [|]|mt sz|errno]|] eqn:Hf.
  - cbv zeta. rewrite io_Copy_eq.
    destruct (String.eqb (TypeByExtension env (Filepath.Ext path)) "");
      (destruct (String.eqb data "");
       [ left; simpl; auto
       | right; right;
         destruct (clientBreak env) as [k|];
         [ destruct (Nat.ltb_spec k (len data)) |];
         simpl; unfold write; simpl; rewrite Hw; simpl; rewrite ?Hw, Hb;
         (split; [reflexivity|]);
         [ exists path, mt, data, k; repeat split; auto; lia
         | exists path, mt, data, (len data);
           rewrite upto_all; repeat split; auto
         | exists path, mt, data, (len data);
           rewrite upto_all; repeat split; auto ] ]).
  - right; left. simpl. unfold write, writeHeader. simpl. rewrite Hw. simpl.
    rewrite Hb. auto.
  - cbv zeta. rewrite io_Copy_eq.
    destruct (String.eqb (TypeByExtension env (Filepath.Ext path)) "");
      left; simpl; auto.
  - right; left. simpl. unfold write, writeHeader. simpl. rewrite Hw. simpl.
    rewrite Hb. auto.
  - right; left. simpl. unfold write, writeHeader. simpl. rewrite Hw. simpl.
    rewrite Hb. auto.
Qed.

(** X6: On a response not yet started the file resolver answers 404 with one
    of its two fixed bodies, or 200 with bytes of a regular, readable file
    of the file system (a leading part of them when the client breaks
    off), or nothing at all; no other status, and no path or error text
    in a body. *)
Theorem serveFile_answers (env : Env) (d : DomainConfig) (sub : string)
    (r : Request) (s : State) :
  wroteHeader (resp s) = [] -> Body (resp s) = "" ->
  fileAnswer env (resp (snd (serveFile env d sub r s))).
Proof.
  intros Hw Hb. rewrite serveFile_eq. cbv zeta.
  assert (NF : forall s0, wroteHeader (resp s0) = [] -> Body (resp s0) = "" ->
                fileAnswer env (resp (respond StatusNotFound notFoundBody s0))).
  { intros s0 A B. right; left. simpl. unfold write, writeHeader. simpl.
    rewrite A. simpl. rewrite B. auto. }
  destruct (os_Stat env (candidatePath d sub (urlPath s))) as [fi|err].
  - destruct (IsDir fi).
    + destruct (os_Stat env (candidatePath d sub (urlPath s) ++ "/index.html"))
        as [fi'|err'].
      * apply sendFile_answers; assumption.
      * apply (NF _ Hw Hb).
    + apply sendFile_answers; assumption.
  - destruct (os_IsNotExist err); [destruct (IndexFallback d);
      [destruct (HasSuffix (urlPath s) "/index.html")|]|];
      try (apply (NF _ Hw Hb)).
    left. simpl. auto.
Qed.

Lemma serveFile_answers_witness :
  Outcomes.fileAnswer Scenario.moreEnv
    (resp (snd (serveFile Scenario.moreEnv Example.exampleDomain "www"
                  (Example.request "example.com")
                  (Example.start Example.exampleConfig "/secret.txt")))).
Proof.
  apply (serveFile_answers Scenario.moreEnv Example.exampleDomain "www"
           (Example.request "example.com")
           (Example.start Example.exampleConfig "/secret.txt"));
    reflexivity.
Defined.

End FileResolverCases.

(** ** The handshake callback, beyond one domain *)

Section HandshakeMore.
Import GoStrings GoErrors Config World Http Mediator Outcomes.

Ltac run :=
  unfold bind, ret, get, modify, syscall, log_Printf in *; simpl in *.

Lemma setCert_same (d : DomainConfig) : setCert (CertTime d) (CertConfig d) d = d.
Proof. destruct d; reflexivity. Qed.

Lemma setCert_setCert (t t' : Z) (c c' : option nat) (d : DomainConfig) :
  setCert t c (setCert t' c' d) = setCert t c d.
Proof. reflexivity. Qed.

(** Every way a handshake can go, with the state it leaves. *)
Lemma getConfigForClient_cases (env : Env) (hello : ClientHelloInfo) (s : State) :
  let domain := serverNameDomain env (ServerName hello) in
  let c := fst (getConfigForClient env hello s) in
  let s' := snd (getConfigForClient env hello s) in
  (s' = s /\ exists e, c = Err e) \/
  (cfg s' = cfg s /\ heap s' = heap s /\ resp s' = resp s /\
   urlPath s' = urlPath s /\ exists e, c = Err e) \/
  (exists d info,
     Domains (cfg s) !! domain = Some d /\
     os_Stat env (CertFile d) = Ok info /\
     resp s' = resp s /\ urlPath s' = urlPath s /\
     TLSPort (cfg s') = TLSPort (cfg s) /\
     InsecurePort (cfg s') = InsecurePort (cfg s) /\
     LogFile (cfg s') = LogFile (cfg s) /\
     ((ModTime info <= CertTime d /\ cfg s' = cfg s /\ heap s' = heap s /\
       ((exists p, CertConfig d = Some p /\ c = Ok p) \/
        (CertConfig d = None /\ exists e, c = Err e))) \/
      (exists t, (t = CertTime d \/ CertTime d < t) /\ t = Z.max (CertTime d) (ModTime info) /\
         ((Domains (cfg s') = <[domain := setCert t None d]> (Domains (cfg s)) /\
           heap s' = heap s /\ exists e, c = Err e) \/
          (exists cert,
             Domains (cfg s') =
               <[domain := setCert t (Some (length (heap s))) d]> (Domains (cfg s)) /\
             heap s' = (heap s ++ [{| Certificates := [cert];
                                      NextProtos := ["h2"; "http/1.1"] |}])%list /\
             c = Ok (length (heap s))))))).
Proof.
  intros domain. cbv zeta.
  destruct (String.eqb (ServerName hello) "") eqn:Hn.
  { unfold getConfigForClient. rewrite Hn. left. split; simpl; eauto. }
  destruct (afterNameCheck_frame env hello s) as (F1 & F2 & F3).
  assert (F4 : resp (afterNameCheck env hello s) = resp s /\
               urlPath (afterNameCheck env hello s) = urlPath s).
  { unfold afterNameCheck. destruct (Publicsuffix.EffectiveTLDPlusOne _ _); auto. }
  destruct F4 as [F4 F5].
  destruct (Domains (cfg s) !! domain) as [d|] eqn:Hd.
  2:{ unfold getConfigForClient. rewrite Hn. run. fold domain.
      unfold afterNameCheck in *.
      destruct (Publicsuffix.EffectiveTLDPlusOne _ _); simpl; rewrite Hd;
        simpl; right; left; repeat split; eauto. }
  destruct (os_Stat env (CertFile d)) as [info|err] eqn:Hst.
  2:{ unfold getConfigForClient. rewrite Hn. run. fold domain.
      unfold afterNameCheck in *.
      destruct (Publicsuffix.EffectiveTLDPlusOne _ _); simpl; rewrite Hd;
        simpl; rewrite Hst; right; left; repeat split; eauto. }
  right; right.
  destruct (Z.ltb_spec (CertTime d) (ModTime info)) as [Hlt|Hge].
  - rewrite (handshake_stale env hello s d info Hn Hd Hst Hlt). cbv zeta.
    fold domain.
    destruct (LoadX509KeyPair env (CertFile d) (KeyFile d)) as [cert|err];
      unfold storeDomain; run; exists d, info; rewrite ?F1, ?F2, ?F4, ?F5;
      repeat split; auto; right; exists (ModTime info);
      (split; [right; exact Hlt|]); (split; [lia|]).
    + right. exists cert. repeat split.
      now rewrite insert_insert_eq.
    + left. repeat split; eauto.
  - destruct (CertConfig d) as [p|] eqn:Hc.
    + rewrite (handshake_reuse env hello s d info p Hn Hd Hst Hge Hc).
      exists d, info. simpl. rewrite ?F1, ?F2, ?F4, ?F5.
      repeat split; auto. left. repeat split; eauto.
    + rewrite (handshake_empty env hello s d info Hn Hd Hst Hge Hc). cbv zeta.
      fold domain.
      destruct (LoadX509KeyPair env (CertFile d) (KeyFile d)) as [cert|err];
        unfold storeDomain; run; exists d, info; rewrite ?F1, ?F2, ?F4, ?F5;
        repeat split; auto.
      * right. exists (CertTime d). split; [left; reflexivity|]. split; [lia|].
        right. exists cert. repeat split.
      * left. repeat split; eauto.
Qed.

(** X7: A handshake leaves the response and the request alone, keeps every
    domain of the configuration, and changes nothing of a domain but its
    cached timestamp and configuration pointer; domains other than the one
    the server name resolves to are not touched at all, and a stored
    timestamp never moves back. *)
Theorem handshake_frame (env : Env) (hello : ClientHelloInfo) (s : State) :
  let s' := snd (getConfigForClient env hello s) in
  resp s' = resp s /\ urlPath s' = urlPath s /\
  TLSPort (cfg s') = TLSPort (cfg s) /\
  (forall dom : string,
      match Domains (cfg s) !! dom with
      | None => Domains (cfg s') !! dom = None
      | Some d =>
          exists t c, Domains (cfg s') !! dom = Some (setCert t c d) /\
                      CertTime d <= t /\
                      (dom <> serverNameDomain env (ServerName hello) ->
                       setCert t c d = d)
      end).
Proof.
  cbv zeta.
  pose proof (getConfigForClient_cases env hello s) as H. cbv zeta in H.
  set (domain := serverNameDomain env (ServerName hello)) in *.
  assert (Same : cfg (snd (getConfigForClient env hello s)) = cfg s ->
    forall dom : string,
      match Domains (cfg s) !! dom with
      | None => Domains (cfg (snd (getConfigForClient env hello s))) !! dom = None
      | Some d =>
          exists t c,
            Domains (cfg (snd (getConfigForClient env hello s))) !! dom =
              Some (setCert t c d) /\
            CertTime d <= t /\ (dom <> domain -> setCert t c d = d)
      end).
  { intros E dom. rewrite E. destruct (Domains (cfg s) !! dom) as [d|] eqn:Hd;
      [|reflexivity].
    exists (CertTime d), (CertConfig d). rewrite setCert_same.
    repeat split; auto; lia. }
  assert (Ins : forall d t c,
    Domains (cfg s) !! domain = Some d -> CertTime d <= t ->
    Domains (cfg (snd (getConfigForClient env hello s))) =
      <[domain := setCert t c d]> (Domains (cfg s)) ->
    forall dom : string,
      match Domains (cfg s) !! dom with
      | None => Domains (cfg (snd (getConfigForClient env hello s))) !! dom = None
      | Some d =>
          exists t c,
            Domains (cfg (snd (getConfigForClient env hello s))) !! dom =
              Some (setCert t c d) /\
            CertTime d <= t /\ (dom <> domain -> setCert t c d = d)
      end).
  { intros d t c Hd Ht E dom. rewrite E.
    destruct (decide (domain = dom)) as [<-|Hne].
    - rewrite Hd, lookup_insert_eq. exists t, c. repeat split; auto.
      intros N; contradiction.
    - rewrite lookup_insert_ne by exact Hne.
      destruct (Domains (cfg s) !! dom) as [d0|]; [|reflexivity].
      exists (CertTime d0), (CertConfig d0). rewrite setCert_same.
      repeat split; auto; lia. }
  destruct H as [[E _]|[(E1 & E2 & E3 & E4 & _)|(d & info & Hd & Hst & E3 & E4 & E5 & _ & _ & H)]].
  - split; [now rewrite E|]. split; [now rewrite E|]. split; [now rewrite E|].
    apply Same. now rewrite E.
  - split; [exact E3|]. split; [exact E4|]. split; [now rewrite E1|].
    apply Same, E1.
  - split; [exact E3|]. split; [exact E4|]. split; [exact E5|].
    destruct H as [(_ & E1 & _)|(t & Ht & _ & [(E1 & _)|(cert & E1 & _)])].
    + apply Same, E1.
    + apply (Ins d t None Hd); [destruct Ht; lia | exact E1].
    + apply (Ins d t (Some (length (heap s))) Hd); [destruct Ht; lia | exact E1].
Qed.

(** X8: The cache stays sound over a handshake: pointers keep pointing into
    the heap, the heap only grows, and a configuration the handshake
    returns is an object of the heap holding one certificate and the two
    protocol identifiers [h2] and [http/1.1]. *)
Theorem handshake_keeps_cache_sound (env : Env) (hello : ClientHelloInfo)
    (s : State) :
  cacheSound s ->
  let c := fst (getConfigForClient env hello s) in
  let s' := snd (getConfigForClient env hello s) in
  cacheSound s' /\
  (exists added, heap s' = (heap s ++ added)%list) /\
  (forall p, c = Ok p ->
     exists tc, heap s' !! p = Some tc /\
                NextProtos tc = ["h2"; "http/1.1"] /\
                length (Certificates tc) = 1%nat).
Proof.
  intros [Hp Hh]. cbv zeta.
  pose proof (getConfigForClient_cases env hello s) as H. cbv zeta in H.
  set (domain := serverNameDomain env (ServerName hello)) in *.
  assert (Get : forall p, (p < length (heap s))%nat ->
    exists tc, heap s !! p = Some tc /\
               NextProtos tc = ["h2"; "http/1.1"] /\
               length (Certificates tc) = 1%nat).
  { intros p Hlt. destruct (lookup_lt_is_Some_2 (heap s) p Hlt) as [tc Htc].
    exists tc. split; [exact Htc|].
    rewrite Forall_forall in Hh. apply Hh.
    eapply list_elem_of_lookup_2, Htc. }
  destruct H as [[E [e Ec]]|[(E1 & E2 & _ & _ & [e Ec])|(d & info & Hd & Hst & _ & _ & _ & _ & _ & H)]].
  - rewrite E, Ec. split; [split; assumption|]. split; [exists []; now rewrite app_nil_r|].
    intros p N; discriminate N.
  - rewrite Ec. split.
    + split; [rewrite E1, E2; exact Hp | rewrite E2; exact Hh].
    + split; [exists []; rewrite E2; now rewrite app_nil_r|].
      intros p N; discriminate N.
  - destruct H as [(_ & E1 & E2 & H)|(t & _ & _ & [(E1 & E2 & [e Ec])|(cert & E1 & E2 & Ec)])].
    + split; [split; [rewrite E1, E2; exact Hp | rewrite E2; exact Hh]|].
      split; [exists []; rewrite E2; now rewrite app_nil_r|].
      intros p N. rewrite E2.
      destruct H as [(p' & Hc & Ec)|(_ & [e Ec])]; rewrite Ec in N;
        [|discriminate]. injection N as <-.
      apply Get. exact (Hp domain d p' Hd Hc).
    + rewrite Ec. split.
      * split; [|rewrite E2; exact Hh].
        intros dom d0 p. rewrite E1, E2.
        destruct (decide (domain = dom)) as [<-|Hne].
        -- rewrite lookup_insert_eq. intros N; injection N as <-. discriminate.
        -- rewrite lookup_insert_ne by exact Hne. apply Hp.
      * split; [exists []; rewrite E2; now rewrite app_nil_r|].
        intros p N; discriminate N.
    + rewrite Ec. split.
      * split.
        -- intros dom d0 p. rewrite E1, E2, length_app. simpl.
           destruct (decide (domain = dom)) as [<-|Hne].
           ++ rewrite lookup_insert_eq. intros N; injection N as <-. simpl.
              intros N; injection N as <-. lia.
           ++ rewrite lookup_insert_ne by exact Hne. intros A B.
              pose proof (Hp dom d0 p A B). lia.
        -- rewrite E2. apply Forall_app. split; [exact Hh|].
           constructor; [split; reflexivity | constructor].
      * split; [eexists; exact E2|].
        intros p N. injection N as <-. rewrite E2.
        eexists. split; [apply list_lookup_middle; reflexivity|].
        split; reflexivity.
Qed.

Lemma handshake_keeps_cache_sound_witness :
  let s := Example.start Example.exampleConfig "" in
  let hello := {| ServerName := "www.example.com" |} in
  cacheSound (snd (getConfigForClient Example.exampleEnv hello s)) /\
  exists tc,
    heap (snd (getConfigForClient Example.exampleEnv hello s)) !! 0%nat = Some tc /\
    NextProtos tc = ["h2"; "http/1.1"].
Proof.
  intros s hello.
  assert (Hs : cacheSound s).
  { split; [|constructor]. intros dom d p Hd Hc.
    unfold s in Hd. simpl in Hd.
    apply lookup_singleton_Some in Hd as [_ <-]. discriminate Hc. }
  destruct (handshake_keeps_cache_sound Example.exampleEnv hello s Hs)
    as (A & _ & C).
  split; [exact A|].
  destruct (C 0%nat eq_refl) as (tc & H1 & H2 & _).
  exists tc. split; assumption.
Defined.

Lemma handshake_frame_witness :
  let s := Example.start Scenario.twoDomains "" in
  let s' := snd (getConfigForClient Example.exampleEnv
                   {| ServerName := "www.example.com" |} s) in
  Domains (cfg s') !! "example.org" = Domains (cfg s) !! "example.org" /\
  Domains (cfg s') !! "example.net" = None.
Proof.
  intros s s'.
  destruct (handshake_frame Example.exampleEnv
              {| ServerName := "www.example.com" |} s) as (_ & _ & _ & H).
  split.
  - pose proof (H "example.org") as A. simpl in A.
    destruct A as (t & c & A & _ & B). fold s' in A. rewrite A.
    rewrite B; [reflexivity | discriminate].
  - exact (H "example.net").
Defined.

(** X9: A renewed certificate that does not load takes the domain down: the
    handshake that finds the file newer drops the cached configuration
    before loading, so when the load fails the handshake fails and nothing
    is cached; the old object is not handed out again; and every later
    handshake loads again, failing until the key pair loads. *)
Theorem failed_reload_is_retried (env env2 : Env) (hello : ClientHelloInfo)
    (s : State) (d : DomainConfig) (info info2 : FileInfo) (p : nat)
    (err : error) :
  String.eqb (ServerName hello) "" = false ->
  let domain := serverNameDomain env (ServerName hello) in
  Domains (cfg s) !! domain = Some d ->
  CertConfig d = Some p ->
  os_Stat env (CertFile d) = Ok info ->
  CertTime d < ModTime info ->
  LoadX509KeyPair env (CertFile d) (KeyFile d) = Err err ->
  serverNameDomain env2 (ServerName hello) = domain ->
  os_Stat env2 (CertFile d) = Ok info2 ->
  ModTime info2 <= ModTime info ->
  let s1 := snd (getConfigForClient env hello s) in
  let s2 := snd (getConfigForClient env2 hello s1) in
  fst (getConfigForClient env hello s) = Err (fmt_Errorf "loading key pair" err) /\
  Domains (cfg s1) !! domain = Some (setCert (ModTime info) None d) /\
  heap s1 = heap s /\
  loads s2 = (loads s + 2)%nat /\
  fst (getConfigForClient env2 hello s1) =
    match LoadX509KeyPair env2 (CertFile d) (KeyFile d) with
    | Err err2 => Err (fmt_Errorf "loading key pair" err2)
    | Ok _ => Ok (length (heap s))
    end.
Proof.
  intros Hn domain Hd Hc Hst Hlt Hload Hdom Hst2 Hle. cbv zeta.
  destruct (afterNameCheck_frame env hello s) as (F1 & F2 & F3).
  rewrite (handshake_stale env hello s d info Hn Hd Hst Hlt). cbv zeta.
  fold domain. rewrite Hload. unfold storeDomain. run.
  set (s1 := logged _ _).
  assert (Hd1 : Domains (cfg s1) !! serverNameDomain env2 (ServerName hello) =
                Some (setCert (ModTime info) None d)).
  { rewrite Hdom. unfold s1. simpl. apply lookup_insert_eq. }
  assert (L1 : loads s1 = (loads s + 1)%nat).
  { unfold s1, loads. simpl. rewrite F3, !List.filter_app, !length_app.
    simpl. lia. }
  assert (H1 : heap s1 = heap s) by (unfold s1; simpl; exact F2).
  split; [reflexivity|]. split; [unfold s1; simpl; apply lookup_insert_eq|].
  split; [exact H1|].
  clearbody s1.
  destruct (afterNameCheck_frame env2 hello s1) as (G1 & G2 & G3).
  rewrite (handshake_empty env2 hello s1 (setCert (ModTime info) None d) info2
             Hn Hd1 Hst2 Hle eq_refl).
  cbv zeta. simpl.
  destruct (LoadX509KeyPair env2 (CertFile d) (KeyFile d)) as [cert|err2];
    unfold storeDomain; run.
  - split; [|rewrite H1; reflexivity].
    unfold loads in *. simpl. rewrite G3, !List.filter_app, !length_app.
    simpl. lia.
  - split; [|reflexivity].
    unfold loads in *. simpl. rewrite G3, !List.filter_app, !length_app.
    simpl. lia.
Qed.

Lemma failed_reload_is_retried_witness :
  let hello := {| ServerName := "www.example.com" |} in
  let s1 := snd (getConfigForClient Scenario.mismatchEnv hello
                   Scenario.cachedState) in
  (exists e, fst (getConfigForClient Scenario.mismatchEnv hello
                    Scenario.cachedState) = Err e) /\
  loads (snd (getConfigForClient Scenario.mismatchEnv hello s1)) = 3%nat /\
  fst (getConfigForClient Example.renewedEnv hello s1) = Ok 1%nat.
Proof.
  intros hello s1.
  destruct (failed_reload_is_retried Scenario.mismatchEnv Scenario.mismatchEnv
              hello Scenario.cachedState
              (setCert 1700000003 (Some 0%nat) Example.exampleDomain)
              {| IsDir := false; Size := 27; ModTime := 1707776000 |}
              {| IsDir := false; Size := 27; ModTime := 1707776000 |}
              0%nat (errors_New "tls: private key does not match public key")
              eq_refl eq_refl eq_refl eq_refl eq_refl eq_refl eq_refl eq_refl)
    as (A & _ & _ & B & _); [simpl; lia|].
  destruct (failed_reload_is_retried Scenario.mismatchEnv Example.renewedEnv
              hello Scenario.cachedState
              (setCert 1700000003 (Some 0%nat) Example.exampleDomain)
              {| IsDir := false; Size := 27; ModTime := 1707776000 |}
              {| IsDir := false; Size := 27; ModTime := 1707776000 |}
              0%nat (errors_New "tls: private key does not match public key")
              eq_refl eq_refl eq_refl eq_refl eq_refl eq_refl eq_refl eq_refl)
    as (_ & _ & _ & _ & C); [simpl; lia|].
  split; [eexists; exact A|]. split; [exact B | exact C].
Defined.

End HandshakeMore.

(** ** The dispatcher and the configuration *)

Section DispatchMore.
Import GoStrings GoErrors Config World Http Mediator Outcomes.

Ltac run :=
  unfold bind, ret, get, modify, syscall, log_Printf, WriteHeader, Write,
    Header_Set in *; simpl in *.

Lemma frame_refl (s : State) : handlerFrame s s.
Proof.
  repeat split. exists []. split; [now rewrite app_nil_r | constructor].
Qed.

Lemma frame_trans (s s1 s2 : State) :
  handlerFrame s s1 -> handlerFrame s1 s2 -> handlerFrame s s2.
Proof.
  intros (A & B & c1 & C & D) (A' & B' & c2 & C' & D').
  split; [congruence|]. split; [congruence|].
  exists (c1 ++ c2)%list. split; [rewrite C', C; now rewrite app_assoc|].
  apply Forall_app; auto.
Qed.

Lemma frame_step (s s' : State) (calls : list SysCall) :
  cfg s' = cfg s -> heap s' = heap s -> sys s' = (sys s ++ calls)%list ->
  forallb (fun c => negb (isLoadKeyPair c)) calls = true ->
  handlerFrame s s'.
Proof.
  intros A B C D. repeat split; auto. exists calls. split; [exact C|].
  apply Forall_forall. intros c Hc.
  rewrite forallb_forall in D. apply negb_true_iff, D.
  now apply list_elem_of_In.
Qed.

(** What the deferred [Close] can add to the log: nothing, or one line. *)
Lemma closeLog_cases (env : Env) (path : string) :
  closeLog env path = [] \/
  exists err, closeError env path = Some err /\
              closeLog env path = [LogCloseError path err].
Proof. unfold closeLog. destruct (closeError env path); eauto. Qed.

Lemma sendFile_frame (env : Env) (r : Request) (path : string)
    (fi : FileInfo) (s : State) :
  handlerFrame s (snd (sendFile env r path fi s)) /\
  exists l cl,
    logs (snd (sendFile env r path fi s)) = (logs s ++ l :: cl)%list /\
    isCloseLine l = false /\
    (cl = [] \/ exists p err, closeError env p = Some err /\
                              cl = [LogCloseError p err]).
Proof.
  assert (T : forall l, isCloseLine l = false ->
    exists l0 cl, ((logs s ++ [l]) ++ closeLog env path)%list =
                  (logs s ++ l0 :: cl)%list /\
      isCloseLine l0 = false /\
      (cl = [] \/ exists p err, closeError env p = Some err /\
                                cl = [LogCloseError p err])).
  { intros l Hl. exists l, (closeLog env path).
    split; [now rewrite <- app_assoc|]. split; [exact Hl|].
    destruct (closeLog_cases env path) as [->|(err & A & ->)]; eauto. }
  rewrite sendFile_eq.
  destruct (os_Open env path) as [file|err].
  - cbv zeta. rewrite io_Copy_eq.
    destruct (String.eqb (TypeByExtension env (Filepath.Ext path)) "");
      (destruct file as [data|];
       [ destruct (String.eqb data "");
         [| destruct (clientBreak env) as [n|];
            [destruct (n <? len data)%nat|] ] |]);
      (split; [eapply (frame_step _ _ [SysOpen path]); reflexivity
              | apply T; reflexivity]).
  - split; [eapply (frame_step _ _ [SysOpen path]); reflexivity
           | eexists _, []; split; [reflexivity | auto]].
Qed.

(** One invocation of the file resolver: one log line of its own, then at
    most the line of a failing [Close]; and nothing done to the
    configuration or the TLS cache. *)
Lemma serveFile_frame (env : Env) (d : DomainConfig) (sub : string)
    (r : Request) (s : State) :
  handlerFrame s (snd (serveFile env d sub r s)) /\
  exists l cl,
    logs (snd (serveFile env d sub r s)) = (logs s ++ l :: cl)%list /\
    isCloseLine l = false /\
    (fst (serveFile env d sub r s) = true -> cl = []) /\
    (cl = [] \/ exists p err, closeError env p = Some err /\
                              cl = [LogCloseError p err]).
Proof.
  rewrite serveFile_eq. cbv zeta.
  set (cand := candidatePath d sub (urlPath s)).
  assert (F : forall p fi s0, fst (sendFile env r p fi s0) = true -> False).
  { intros p fi s0 H. rewrite (proj1 (sendFile_no_retry env r p fi s0)) in H.
    discriminate H. }
  destruct (os_Stat env cand) as [fi|err].
  - destruct (IsDir fi).
    + destruct (os_Stat env (cand ++ "/index.html")) as [fi'|err'].
      * destruct (sendFile_frame env r (cand ++ "/index.html") fi'
                    (called (SysStat (cand ++ "/index.html"))
                       (called (SysStat cand) s))) as [A (l & cl & B & C & D)].
        split.
        -- eapply frame_trans; [|exact A].
           eapply (frame_step _ _ [SysStat cand; SysStat (cand ++ "/index.html")]);
             try reflexivity. simpl. now rewrite <- app_assoc.
        -- exists l, cl. rewrite B. repeat split; auto.
           intros H. destruct (F _ _ _ H).
      * split; [eapply (frame_step _ _ [SysStat cand; SysStat (cand ++ "/index.html")]);
                  try reflexivity; simpl; now rewrite <- app_assoc
               | destruct (os_IsNotExist err'); eexists _, []; simpl; auto].
    + destruct (sendFile_frame env r cand fi (called (SysStat cand) s))
        as [A (l & cl & B & C & D)].
      split.
      * eapply frame_trans; [|exact A].
        eapply (frame_step _ _ [SysStat cand]); reflexivity.
      * exists l, cl. rewrite B. repeat split; auto.
        intros H. destruct (F _ _ _ H).
  - destruct (os_IsNotExist err); [destruct (IndexFallback d);
      [destruct (HasSuffix (urlPath s) "/index.html")|]|];
      (split; [eapply (frame_step _ _ [SysStat cand]); reflexivity
              | eexists _, []; simpl; auto]).
Qed.

Lemma setHeaders_all (kvs : list (string * string)) (s : State) :
  cfg (snd (setHeaders kvs s)) = cfg s /\
  heap (snd (setHeaders kvs s)) = heap s /\
  sys (snd (setHeaders kvs s)) = sys s /\
  logs (snd (setHeaders kvs s)) = logs s.
Proof.
  revert s. induction kvs as [|[k v] kvs IH]; intros s; simpl; [auto|].
  run. destruct (IH (withResp (headerSet k v) s)) as (A & B & C & D).
  destruct (setHeaders kvs _) as [u s']. simpl in *. auto.
Qed.

Lemma ReverseProxy_frame (env : Env) (p : httputil_ReverseProxy)
    (r : Request) (s : State) :
  handlerFrame s (snd (ReverseProxy_ServeHTTP env p r s)) /\
  exists ls, logs (snd (ReverseProxy_ServeHTTP env p r s)) = (logs s ++ ls)%list /\
             (length ls <= 1)%nat /\ existsb isCloseLine ls = false.
Proof.
  unfold ReverseProxy_ServeHTTP. run.
  destruct (roundTrip env (rpURL p) r (urlPath s)) as [code header body|err].
  - run. pose proof (setHeaders_all header
      (called (SysRoundTrip (rpURL p) (urlPath s)) s)) as (A & B & C & D).
    destruct (setHeaders header _) as [u s1]. simpl in *. run.
    destruct (String.eqb body ""); simpl;
      (split; [eapply (frame_step _ _ [SysRoundTrip (rpURL p) (urlPath s)]);
                 simpl; auto
              | exists []; simpl; rewrite D, app_nil_r; auto]).
  - rewrite ErrorHandler_eq. destruct (errors_Is err context_Canceled); simpl.
    + split; [eapply (frame_step _ _ [SysRoundTrip (rpURL p) (urlPath s)]);
                reflexivity
             | exists []; simpl; rewrite app_nil_r; auto].
    + split; [eapply (frame_step _ _ [SysRoundTrip (rpURL p) (urlPath s)]);
                reflexivity
             | eexists [_]; simpl; auto].
Qed.

Lemma backendKept_refl (b : BackendConfig) : backendKept b b.
Proof. repeat split; auto. Qed.

Lemma domainKept_refl (d : DomainConfig) : domainKept d d.
Proof.
  split; [now destruct d|].
  intros sub. destruct (Backends d !! sub); constructor. apply backendKept_refl.
Qed.

Lemma configKept_refl (c : ServerConfig) : configKept c c.
Proof.
  split; [now destruct c|].
  intros dom. destruct (Domains c !! dom); constructor. apply domainKept_refl.
Qed.

Lemma configKept_store (c : ServerConfig) (domain sub : string)
    (d : DomainConfig) (b b' : BackendConfig) :
  Domains c !! domain = Some d -> Backends d !! sub = Some b ->
  backendKept b b' ->
  configKept c
    (setDomains
       (alter (fun d => setBackends (<[sub := b']> (Backends d)) d)
          domain (Domains c)) c).
Proof.
  intros Hd Hb K. split; [reflexivity|].
  intros dom. simpl. destruct (decide (dom = domain)) as [->|N].
  - rewrite lookup_alter_eq, Hd. simpl. constructor. split; [reflexivity|].
    intros sub0. simpl. destruct (decide (sub0 = sub)) as [->|N].
    + rewrite lookup_insert_eq, Hb. constructor. exact K.
    + rewrite lookup_insert_ne by auto.
      destruct (Backends d !! sub0); constructor. apply backendKept_refl.
  - rewrite lookup_alter_ne by auto.
    destruct (Domains c !! dom); constructor. apply domainKept_refl.
Qed.

(** What a successful [createReverseProxy] returns. *)
Lemma createReverseProxy_Ok (env : Env) (b b' : BackendConfig)
    (p : httputil_ReverseProxy) :
  createReverseProxy env b = Ok (p, b') ->
  Target b' = Target b /\ URL b' = Some (rpURL p) /\
  rpTarget p = Target b /\ ReverseProxy b' = ReverseProxy b /\
  (forall u, URL b = Some u -> rpURL p = u /\ b' = b) /\
  (URL b = None -> url_Parse env (Target b) = Ok (rpURL p)).
Proof.
  unfold createReverseProxy. destruct (URL b) as [u|] eqn:U.
  - intros [= <- <-]. simpl. repeat split; auto; congruence.
  - destruct (url_Parse env (Target b)) as [u|err] eqn:P; [|discriminate].
    intros [= <- <-]. simpl. repeat split; auto; discriminate.
Qed.

(** What one request does to the state, whichever way it is dispatched. *)
Lemma ServeHTTP_summary (env : Env) (r : Request) (s : State) :
  let s' := snd (ServeHTTP env r s) in
  configKept (cfg s) (cfg s') /\ heap s' = heap s /\
  (exists calls, sys s' = (sys s ++ calls)%list /\
                 Forall (fun c => isLoadKeyPair c = false) calls) /\
  (exists ls cl,
      logs s' = (logs s ++ ls ++ cl)%list /\
      (1 <= length ls <= 2)%nat /\
      existsb isCloseLine ls = false /\
      (cl = [] \/ exists p err, closeError env p = Some err /\
                                cl = [LogCloseError p err])).
Proof.
  cbv zeta.
  assert (One : forall (l : LogLine) (ls0 : list LogLine),
    isCloseLine l = false ->
    exists ls cl,
      (ls0 ++ [l])%list = (ls0 ++ ls ++ cl)%list /\
      (1 <= length ls <= 2)%nat /\
      existsb isCloseLine ls = false /\
      (cl = [] \/ exists p err, closeError env p = Some err /\
                                cl = [LogCloseError p err])).
  { intros l ls0 Hl. exists [l], []. simpl. rewrite Hl.
    repeat split; auto; lia. }
  destruct (parseRequest env r) as [[domain subdomain]|err] eqn:Hp.
  2:{ unfold ServeHTTP. rewrite Hp. simpl.
      split; [apply configKept_refl|]. split; [reflexivity|].
      split; [exists []; split; [now rewrite app_nil_r | constructor]|].
      apply One. reflexivity. }
  destruct (Domains (cfg s) !! domain) as [d|] eqn:Hd.
  2:{ unfold ServeHTTP. rewrite Hp. run. rewrite Hd. simpl.
      split; [apply configKept_refl|]. split; [reflexivity|].
      split; [exists []; split; [now rewrite app_nil_r | constructor]|].
      apply One. reflexivity. }
  set (sub := if String.eqb subdomain "" then Default d else subdomain).
  destruct (Backends d !! sub) as [backend|] eqn:Hb.
  - rewrite (ServeHTTP_backend env r s domain subdomain d backend Hp Hd Hb).
    cbv zeta. fold sub.
    set (line := LogHandoff (RemoteAddr r) sub domain (urlPath s) (Target backend)).
    destruct (ReverseProxy backend) as [proxy|] eqn:Hrp.
    + destruct (ReverseProxy_frame env proxy r (logged line s))
        as [(A & B & C) (ls & D & E & N)].
      simpl in *. rewrite A, B. split; [apply configKept_refl|].
      split; [reflexivity|]. split; [exact C|].
      exists (line :: ls), []. rewrite D, app_nil_r.
      split; [now rewrite <- app_assoc|].
      simpl. rewrite N. repeat split; auto; lia.
    + destruct (createReverseProxy env backend) as [[proxy backend']|err] eqn:Hc.
      * destruct (ReverseProxy_frame env proxy r
                    (logged line
                       (snd (storeBackend domain sub
                               (setReverseProxy (Some proxy) backend') s))))
          as [(A & B & C) (ls & D & E & N)].
        simpl in *. rewrite A, B.
        split.
        { eapply configKept_store; eauto.
          apply createReverseProxy_Ok in Hc as (T & U & _ & _ & V & _).
          repeat split; simpl; auto.
          - intros u Hu. destruct (V u Hu) as [_ ->]. exact Hu.
          - intros p Hp'. congruence. }
        split; [reflexivity|]. split; [exact C|].
        exists (line :: ls), []. rewrite D, app_nil_r.
        split; [now rewrite <- app_assoc|].
        simpl. rewrite N. repeat split; auto; lia.
      * simpl. split; [apply configKept_refl|]. split; [reflexivity|].
        split; [exists []; split; [now rewrite app_nil_r | constructor]|].
        apply One. reflexivity.
  - rewrite (ServeHTTP_file_dispatch env r s domain subdomain d Hp Hd Hb).
    cbv zeta. fold sub.
    destruct (serveFile_frame env d sub r s)
      as [(A & B & c1 & C & F) (l & cl & D & N & R & T)].
    destruct (serveFile env d sub r s) as [[|] s1]; simpl in *.
    + destruct (serveFile_frame env d sub r s1)
        as [(A' & B' & c2 & C' & F') (l' & cl' & D' & N' & _ & T')].
      rewrite A', A, B', B. split; [apply configKept_refl|].
      split; [reflexivity|].
      split; [exists (c1 ++ c2)%list; rewrite C', C, app_assoc; split;
              [reflexivity | now apply Forall_app]|].
      rewrite (R eq_refl) in D.
      exists [l; l'], cl'. rewrite D', D, <- app_assoc.
      split; [reflexivity|]. simpl. rewrite N, N'.
      repeat split; auto; lia.
    + rewrite A, B. split; [apply configKept_refl|]. split; [reflexivity|].
      split; [exists c1; auto|].
      exists [l], cl. split; [exact D|]. simpl. rewrite N.
      repeat split; auto; lia.
Qed.

(** X10: The request handler and the TLS side share the configuration but not
    its fields: a request loads no key pair, leaves the heap of TLS
    configurations as it is, and changes nothing of the configuration
    but backend entries, of which it may fill in the parsed URL and the
    proxy, never replacing either and never touching a target.  So the
    certificate cache stays sound across requests. *)
Theorem ServeHTTP_keeps_config (env : Env) (r : Request) (s : State) :
  let s' := snd (ServeHTTP env r s) in
  configKept (cfg s) (cfg s') /\
  heap s' = heap s /\
  loads s' = loads s /\
  (forall dom d', Domains (cfg s') !! dom = Some d' ->
     exists d, Domains (cfg s) !! dom = Some d /\
               CertTime d' = CertTime d /\ CertConfig d' = CertConfig d) /\
  (cacheSound s -> cacheSound s').
Proof.
  destruct (ServeHTTP_summary env r s) as (K & H & (calls & C & F) & _).
  cbv zeta. set (s' := snd (ServeHTTP env r s)) in *.
  assert (D : forall dom d', Domains (cfg s') !! dom = Some d' ->
     exists d, Domains (cfg s) !! dom = Some d /\
               CertTime d' = CertTime d /\ CertConfig d' = CertConfig d).
  { intros dom d' Hd'. destruct K as [_ K]. specialize (K dom).
    rewrite Hd' in K. inversion K as [d ? [E _] | ]; subst.
    exists d. split; [reflexivity|]. rewrite E. simpl. auto. }
  split; [exact K|]. split; [exact H|]. split; [|split; [exact D|]].
  - unfold loads. rewrite C, List.filter_app.
    replace (List.filter isLoadKeyPair calls) with (@nil SysCall);
      [now rewrite app_nil_r|].
    clear C. induction F as [|c cs Hc _ IH]; [reflexivity|].
    simpl. now rewrite Hc.
  - intros [P Q]. split; [|now rewrite H].
    intros dom d' p Hd' Hp. destruct (D dom d' Hd') as (d & Hd & _ & E).
    rewrite H. apply (P dom d p Hd). congruence.
Qed.

(** X11: No request goes unlogged.  A request leaves one or two lines of
    its own (two when the index fallback is taken, or when a backend's
    upstream fails), and after them at most one more: the line of the
    deferred [Close] of the served file, when that fails.  So between one
    and three lines in all. *)
Theorem ServeHTTP_logs (env : Env) (r : Request) (s : State) :
  exists ls cl,
    logs (snd (ServeHTTP env r s)) = (logs s ++ ls ++ cl)%list /\
    (1 <= length ls <= 2)%nat /\
    existsb isCloseLine ls = false /\
    (cl = [] \/ exists p err, closeError env p = Some err /\
                              cl = [LogCloseError p err]) /\
    (1 <= length (ls ++ cl) <= 3)%nat.
Proof.
  destruct (ServeHTTP_summary env r s) as (_ & _ & _ & ls & cl & A & B & C & D).
  exists ls, cl. split; [exact A|]. split; [exact B|]. split; [exact C|].
  split; [exact D|]. rewrite length_app.
  destruct D as [->|(p & err & _ & ->)]; simpl; lia.
Qed.

(** Three lines are reached: the index fallback, the file served, and its
    [Close] failing. *)
Example three_log_lines :
  logs (snd (ServeHTTP Scenario.leakyEnv (Example.request "example.com")
               (Example.start Example.exampleConfig "/docs/guide/page"))) =
    [LogIndexFallback "192.0.2.7:51234"
       "/var/www/html/example/www/public_html/docs/guide/page"
       "/docs/guide/index.html";
     LogServed "192.0.2.7:51234" 14
       "/var/www/html/example/www/public_html/docs/guide/index.html";
     LogCloseError
       "/var/www/html/example/www/public_html/docs/guide/index.html"
       (fs_PathError "close"
          "/var/www/html/example/www/public_html/docs/guide/index.html"
          (syscall_Errno 5))].
Proof. vm_compute. reflexivity. Qed.

(** X12: The proxy of a backend is built on the first request and kept: after
    a request that found no proxy and could build one, the backend entry
    holds that proxy and the parsed URL, and every later request for the
    subdomain goes through this very proxy, in one round trip, without
    parsing the target again (so also where it would no longer parse) and
    without changing the configuration. *)
Theorem proxy_is_cached (env env2 : Env) (r r2 : Request) (s : State)
    (domain subdomain : string) (d : DomainConfig) (backend backend' : BackendConfig)
    (proxy : httputil_ReverseProxy) :
  parseRequest env r = Ok (domain, subdomain) ->
  Domains (cfg s) !! domain = Some d ->
  Backends d !! (if String.eqb subdomain "" then Default d else subdomain) =
    Some backend ->
  ReverseProxy backend = None ->
  createReverseProxy env backend = Ok (proxy, backend') ->
  let sub := if String.eqb subdomain "" then Default d else subdomain in
  let s1 := snd (ServeHTTP env r s) in
  (exists d1 b1,
      Domains (cfg s1) !! domain = Some d1 /\ Backends d1 !! sub = Some b1 /\
      ReverseProxy b1 = Some proxy /\ URL b1 = Some (rpURL proxy) /\
      Target b1 = Target backend /\ rpTarget proxy = Target backend) /\
  (forall s2 : State,
      cfg s2 = cfg s1 ->
      parseRequest env2 r2 = Ok (domain, subdomain) ->
      let s3 := snd (ServeHTTP env2 r2 s2) in
      cfg s3 = cfg s2 /\
      sys s3 = (sys s2 ++ [SysRoundTrip (rpURL proxy) (urlPath s2)])%list).
Proof.
  intros Hp Hd Hb Hrp Hc sub s1.
  set (d1 := setBackends
               (<[sub := setReverseProxy (Some proxy) backend']> (Backends d)) d).
  assert (E1 : cfg s1 =
    setDomains
      (alter (fun d => setBackends
                (<[sub := setReverseProxy (Some proxy) backend']> (Backends d)) d)
         domain (Domains (cfg s))) (cfg s)).
  { unfold s1.
    rewrite (ServeHTTP_backend env r s domain subdomain d backend Hp Hd Hb).
    cbv zeta. rewrite Hrp, Hc. fold sub.
    destruct (ReverseProxy_frame env proxy r
                (logged (LogHandoff (RemoteAddr r) sub domain (urlPath s)
                           (Target backend))
                   (snd (storeBackend domain sub
                           (setReverseProxy (Some proxy) backend') s))))
      as [(A & _) _].
    simpl in *. exact A. }
  assert (D1 : Domains (cfg s1) !! domain = Some d1).
  { rewrite E1. simpl. now rewrite lookup_alter_eq, Hd. }
  assert (B1 : Backends d1 !! sub = Some (setReverseProxy (Some proxy) backend')).
  { unfold d1. simpl. apply lookup_insert_eq. }
  apply createReverseProxy_Ok in Hc as (T & U & V & _).
  split.
  - exists d1, (setReverseProxy (Some proxy) backend'). simpl. auto 7.
  - intros s2 E2 Hp2. cbv zeta.
    assert (D2 : Domains (cfg s2) !! domain = Some d1) by now rewrite E2.
    assert (B2 : Backends d1 !!
                   (if String.eqb subdomain "" then Default d1 else subdomain) =
                 Some (setReverseProxy (Some proxy) backend')) by exact B1.
    rewrite (ServeHTTP_backend env2 r2 s2 domain subdomain d1 _ Hp2 D2 B2).
    cbv zeta. simpl ReverseProxy. cbv iota beta.
    split.
    + destruct (ReverseProxy_frame env2 proxy r2
        (logged (LogHandoff (RemoteAddr r2)
                   (if String.eqb subdomain "" then Default d1 else subdomain)
                   domain (urlPath s2)
                   (Target (setReverseProxy (Some proxy) backend'))) s2))
        as [(A & _) _].
      simpl in *. exact A.
    + simpl. rewrite ReverseProxy_sys. reflexivity.
Qed.

Lemma proxy_is_cached_witness :
  let s1 := snd (ServeHTTP Example.exampleEnv (Example.request "api.example.com")
                   (Example.start Example.exampleConfig "/v1/ping")) in
  let s2 := snd (ServeHTTP Scenario.noParseEnv
                   (Example.request "api.example.com:8443")
                   (withURLPath "/v1/pong" s1)) in
  cfg s2 = cfg s1 /\
  sys s2 = [SysRoundTrip {| urlText := "http://127.0.0.1:9000" |} "/v1/ping";
            SysRoundTrip {| urlText := "http://127.0.0.1:9000" |} "/v1/pong"].
Proof.
  cbv zeta.
  destruct (proxy_is_cached Example.exampleEnv Scenario.noParseEnv
              (Example.request "api.example.com")
              (Example.request "api.example.com:8443")
              (Example.start Example.exampleConfig "/v1/ping")
              "example.com" "api" Example.exampleDomain Example.apiBackend
              (setURL (Some {| urlText := "http://127.0.0.1:9000" |})
                 Example.apiBackend)
              {| rpURL := {| urlText := "http://127.0.0.1:9000" |};
                 rpTarget := "http://127.0.0.1:9000" |}
              eq_refl eq_refl eq_refl eq_refl eq_refl) as [_ H].
  destruct (H (withURLPath "/v1/pong"
                 (snd (ServeHTTP Example.exampleEnv
                         (Example.request "api.example.com")
                         (Example.start Example.exampleConfig "/v1/ping"))))
              eq_refl eq_refl) as [A B].
  split; [exact A|]. rewrite B. reflexivity.
Defined.

(** The file resolver reads the request through its remote address (and
    the path, which is in the state) and nothing else. *)
Lemma serveFile_reads (env : Env) (d : DomainConfig) (sub : string)
    (r r' : Request) (s : State) :
  RemoteAddr r = RemoteAddr r' ->
  serveFile env d sub r s = serveFile env d sub r' s.
Proof.
  intros Ha. rewrite !serveFile_eq. cbv zeta.
  assert (S : forall p fi s0, sendFile env r p fi s0 = sendFile env r' p fi s0).
  { intros p fi s0. rewrite !sendFile_eq, Ha. reflexivity. }
  rewrite Ha.
  destruct (os_Stat env (candidatePath d sub (urlPath s))) as [fi|err];
    [|reflexivity].
  destruct (IsDir fi); [|apply S].
  destruct (os_Stat env (candidatePath d sub (urlPath s) ++ "/index.html"));
    [apply S | reflexivity].
Qed.

(** X13: A request that no backend takes is read through three things
    only: the registrable domain of its host, the subdomain after the
    default is substituted, and the remote address (the path apart).  Two
    such requests that agree on these are served alike, state for state,
    whatever the port in the host, the method, the header and the body;
    and a request to the bare domain is the request to the default
    subdomain.  (A request handed to a backend is forwarded whole, host
    included: there the upstream can tell them apart.) *)
Theorem file_requests_served_alike (env : Env) (r r' : Request) (s : State)
    (domain sub sub' : string) (d : DomainConfig) :
  parseRequest env r = Ok (domain, sub) ->
  parseRequest env r' = Ok (domain, sub') ->
  Domains (cfg s) !! domain = Some d ->
  (if String.eqb sub "" then Default d else sub) =
    (if String.eqb sub' "" then Default d else sub') ->
  Backends d !! (if String.eqb sub "" then Default d else sub) = None ->
  RemoteAddr r = RemoteAddr r' ->
  ServeHTTP env r s = ServeHTTP env r' s.
Proof.
  intros Hp Hp' Hd Hs Hb Ha.
  rewrite (ServeHTTP_file_dispatch env r s domain sub d Hp Hd Hb).
  rewrite Hs in Hb.
  rewrite (ServeHTTP_file_dispatch env r' s domain sub' d Hp' Hd Hb).
  cbv zeta. rewrite <- Hs.
  set (e := if String.eqb sub "" then Default d else sub).
  rewrite (serveFile_reads env d e r r' s Ha).
  destruct (serveFile env d e r' s) as [[|] s1]; [|reflexivity].
  now rewrite (serveFile_reads env d e r r' s1 Ha).
Qed.

Lemma file_requests_served_alike_witness :
  ServeHTTP Example.exampleEnv
    {| Host := "example.com:8443"; RemoteAddr := "192.0.2.7:51234";
       Method := "POST"; ReqHeader := [("If-Modified-Since", "now")];
       ReqBody := "x=1" |}
    (Example.start Example.exampleConfig "/") =
  ServeHTTP Example.exampleEnv (Example.request "www.example.com")
    (Example.start Example.exampleConfig "/").
Proof.
  apply (file_requests_served_alike Example.exampleEnv
           {| Host := "example.com:8443"; RemoteAddr := "192.0.2.7:51234";
              Method := "POST"; ReqHeader := [("If-Modified-Since", "now")];
              ReqBody := "x=1" |}
           (Example.request "www.example.com")
           (Example.start Example.exampleConfig "/")
           "example.com" "" "www" Example.exampleDomain);
    reflexivity.
Defined.

(** Not so for a backend: the upstream sees the host as the client sent
    it. *)
Example proxied_requests_differ :
  let s := Example.start Example.exampleConfig "/" in
  Body (resp (snd (ServeHTTP Scenario.echoEnv
                     (Example.request "api.example.com") s))) =
    "api.example.com" /\
  Body (resp (snd (ServeHTTP Scenario.echoEnv
                     (Example.request "api.example.com:8443") s))) =
    "api.example.com:8443".
Proof. split; vm_compute; reflexivity. Qed.

End DispatchMore.

(** ** Where the candidate path can lie *)

Section Containment.
Import GoStrings GoErrors Config World Http Mediator Filepath.

Lemma SplitByte_nonempty (sep : ascii) (s : string) : SplitByte sep s <> [].
Proof.
  destruct s as [|c s]; simpl; [discriminate|].
  destruct (Ascii.eqb c sep); [discriminate|].
  destruct (SplitByte sep s); discriminate.
Qed.

(** Splitting distributes over a separator. *)
Lemma SplitByte_app (sep : ascii) (a b : string) :
  SplitByte sep (a ++ String sep b) = (SplitByte sep a ++ SplitByte sep b)%list.
Proof.
  induction a as [|c a IH]; simpl.
  - now rewrite Ascii.eqb_refl.
  - destruct (Ascii.eqb c sep); rewrite IH; [reflexivity|].
    pose proof (SplitByte_nonempty sep a).
    destruct (SplitByte sep a); [contradiction | reflexivity].
Qed.

(** Without [..] elements [Clean] only drops and copies. *)
Lemma fold_no_dotdot (rooted : bool) (ys out : list string) :
  Forall (fun c => c <> "..") ys ->
  fold_left (cleanElem rooted) ys out =
    (rev (List.filter isReal ys) ++ out)%list.
Proof.
  intros H. revert out. induction H as [|c ys Hc _ IH]; intros out; simpl.
  - reflexivity.
  - rewrite IH. unfold cleanElem, isReal.
    apply String.eqb_neq in Hc. rewrite Hc.
    destruct (isSkipped c); simpl; [reflexivity|].
    now rewrite <- app_assoc.
Qed.

Lemma cleanElems_no_dotdot (rooted : bool) (xs ys : list string) :
  Forall (fun c => c <> "..") ys ->
  cleanElems rooted (xs ++ ys) =
    (cleanElems rooted xs ++ List.filter isReal ys)%list.
Proof.
  intros H. unfold cleanElems.
  rewrite fold_left_app, (fold_no_dotdot rooted ys _ H).
  now rewrite rev_app_distr, rev_involutive.
Qed.

Lemma HasSuffix_slash (P : string) :
  HasSuffix P "/" = true -> exists Q, P = Q ++ "/".
Proof.
  unfold HasSuffix. intros H. apply andb_true_iff in H as [_ H].
  apply String.eqb_eq in H.
  exists (upto (len P - len "/") P).
  rewrite <- (upto_from (len P - len "/") P) at 1. now f_equal.
Qed.

(** Appending [index.html] to a path that ends in a separator brings in
    no [..] element. *)
Lemma index_no_dotdot (P : string) :
  Forall (fun c => c <> "..") (SplitByte Separator P) ->
  Forall (fun c => c <> "..")
    (SplitByte Separator (if HasSuffix P "/" then P ++ "index.html" else P)).
Proof.
  intros H. destruct (HasSuffix P "/") eqn:E; [|exact H].
  destruct (HasSuffix_slash P E) as [Q ->].
  change (Q ++ "/") with (Q ++ String Separator "") in H.
  rewrite SplitByte_app in H. apply Forall_app in H as [H _].
  replace ((Q ++ "/") ++ "index.html")
    with (Q ++ String Separator "index.html").
  - rewrite SplitByte_app. apply Forall_app. split; [exact H|].
    repeat constructor. discriminate.
  - clear. induction Q as [|c Q IH]; simpl; [reflexivity | now rewrite IH].
Qed.

(** X14: A request path without [..] elements cannot leave the document root.
    With an absolute base path, the document root [Join(B, sub, S)] is a
    rooted list of elements, and the candidate is this list followed by
    the elements of the request path (with [index.html] appended where it
    ends in a separator) that are neither empty nor [.]: nothing of the
    root is backed over. *)
Theorem candidate_below_root (d : DomainConfig) (sub P : string) :
  isRooted (BasePath d) = true ->
  Forall (fun c => c <> "..") (SplitByte Separator P) ->
  let file := if HasSuffix P "/" then P ++ "index.html" else P in
  exists root : list string,
    Filepath.Join [BasePath d; sub; Subdir d] =
      "/" ++ GoStrings.Join root "/" /\
    candidatePath d sub P =
      "/" ++ GoStrings.Join
               (root ++ List.filter isReal (SplitByte Separator file)) "/".
Proof.
  intros HB HP file.
  pose proof (index_no_dotdot P HP) as HF. fold file in HF.
  unfold candidatePath. fold file.
  unfold Filepath.Join.
  destruct (BasePath d) as [|c B] eqn:EB; [discriminate|].
  simpl in HB. apply Ascii.eqb_eq in HB. subst c.
  simpl dropEmpty. cbv beta iota.
  change (GoStrings.Join [String Separator B; sub; Subdir d] "/")
    with (String Separator (B ++ String Separator (sub ++ String Separator (Subdir d)))).
  change (GoStrings.Join [String Separator B; sub; Subdir d; file] "/")
    with (String Separator (B ++ String Separator (sub ++ String Separator
            (Subdir d ++ String Separator file)))).
  rewrite Clean_idempotent, !Clean_rooted, !SplitByte_app.
  exists (cleanElems true
            (SplitByte Separator B ++ SplitByte Separator sub ++
             SplitByte Separator (Subdir d))%list).
  split; [reflexivity|].
  rewrite <- cleanElems_no_dotdot by exact HF.
  now rewrite <- !app_assoc.
Qed.

Lemma candidate_below_root_witness :
  exists root : list string,
    Filepath.Join ["/var/www/html/example"; "www"; "public_html"] =
      "/" ++ GoStrings.Join root "/" /\
    candidatePath Example.exampleDomain "www" "/a/./b//" =
      "/" ++ GoStrings.Join (root ++ ["a"; "b"; "index.html"]) "/".
Proof.
  apply (candidate_below_root Example.exampleDomain "www" "/a/./b//").
  - reflexivity.
  - repeat constructor; discriminate.
Defined.

End Containment.

(** ** The redirect to the TLS port *)

Section RedirectFacts.
Import GoStrings GoErrors Config World Http Mediator.

(** X15: The redirect and the mediator agree on the site: the host that
    [Redirect.ServeHTTP] puts into the redirect target is resolved by the
    mediator to the domain and subdomain of the redirected request
    itself, whatever the target port; with port 443 the target host is
    the request's host without its port. *)
Theorem redirect_keeps_site (env : Env) (red : Redirect.Redirect)
    (r : Request) (addr method : string) (header : list (string * string))
    (body : string) :
  hostOnly (Redirect.targetHost red r) = hostOnly (Host r) /\
  parseRequest env {| Host := Redirect.targetHost red r; RemoteAddr := addr;
                      Method := method; ReqHeader := header;
                      ReqBody := body |} =
    parseRequest env r /\
  (Redirect.TargetPort red = 443 ->
   Redirect.targetHost red r = hostOnly (Host r)).
Proof.
  assert (Hn : LastIndexByte (hostOnly (Host r)) ":"%char = -1).
  { unfold hostOnly. pose proof (SplitByte_elements ":"%char (Host r)) as F.
    destruct (SplitByte ":"%char (Host r)) as [|h tl]; [reflexivity|].
    now inversion F. }
  assert (E : hostOnly (Redirect.targetHost red r) = hostOnly (Host r)).
  { unfold Redirect.targetHost. fold (hostOnly (Host r)).
    destruct (Redirect.TargetPort red =? 443).
    - unfold hostOnly at 1.
      now rewrite (proj2 (SplitByte_first ":"%char _ "" Hn)).
    - unfold hostOnly at 1.
      destruct (SplitByte_first ":"%char (hostOnly (Host r))
                  (FormatInt (Redirect.TargetPort red)) Hn) as [[tl T] _].
      change (hostOnly (Host r) ++ ":" ++ FormatInt (Redirect.TargetPort red))
        with (hostOnly (Host r) ++
              String ":"%char (FormatInt (Redirect.TargetPort red))).
      now rewrite T. }
  split; [exact E|]. split.
  - unfold parseRequest. cbn [Host]. now rewrite E.
  - intros H. unfold Redirect.targetHost. fold (hostOnly (Host r)).
    now rewrite H.
Qed.

End RedirectFacts.

(** ** Requests and handshakes that fail early *)

Section ErrorPaths.
Import GoStrings GoErrors Config World Http Mediator.

(** X16: A request whose host (the port apart) has an empty label, or is no
    longer than its public suffix, the empty host among them, is not
    resolved: it is answered 500 with the generic body and logged with
    the error, and nothing else happens, no look-up in the configuration,
    no call to the file system or to an upstream. *)
Theorem bad_host_fails_closed (env : Env) (r : Request) (s : State) :
  let host := hostOnly (Host r) in
  HasPrefix host "." = true \/ HasSuffix host "." = true \/
  Contains host ".." = true \/ (len host <= len (PublicSuffix env host))%nat ->
  exists err,
    parseRequest env r =
      Err (fmt_Errorf "could not parse request into pieces" err) /\
    ServeHTTP env r s =
      (tt,
       {| cfg := cfg s; heap := heap s;
          logs := (logs s ++
                   [LogHostError (Host r)
                      (fmt_Errorf "could not parse request into pieces" err)])%list;
          sys := sys s;
          resp := write errorBody
                    (writeHeader StatusInternalServerError (resp s));
          urlPath := urlPath s |}).
Proof.
  intros host H.
  assert (E : exists err,
             Publicsuffix.EffectiveTLDPlusOne (PublicSuffix env) host = Err err).
  { unfold Publicsuffix.EffectiveTLDPlusOne.
    destruct (HasPrefix host "." || HasSuffix host "." || Contains host "..")
      eqn:L; [eauto|].
    apply orb_false_iff in L as [L L3]. apply orb_false_iff in L as [L1 L2].
    destruct H as [H|[H|[H|H]]]; try congruence.
    apply Nat.leb_le in H. rewrite H. eauto. }
  destruct E as [err E]. exists err.
  assert (P : parseRequest env r =
              Err (fmt_Errorf "could not parse request into pieces" err)).
  { unfold parseRequest. fold host. cbv zeta. now rewrite E. }
  split; [exact P|]. unfold ServeHTTP. rewrite P. reflexivity.
Qed.

Lemma bad_host_fails_closed_witness :
  exists err,
    parseRequest Example.exampleEnv (Example.request ":8443") =
      Err (fmt_Errorf "could not parse request into pieces" err) /\
    ServeHTTP Example.exampleEnv (Example.request ":8443")
      (Example.start Example.exampleConfig "/") =
      (tt,
       {| cfg := Example.exampleConfig; heap := [];
          logs := [LogHostError ":8443"
                     (fmt_Errorf "could not parse request into pieces" err)];
          sys := [];
          resp := write errorBody
                    (writeHeader StatusInternalServerError freshWriter);
          urlPath := "/" |}).
Proof.
  apply (bad_host_fails_closed Example.exampleEnv (Example.request ":8443")
           (Example.start Example.exampleConfig "/")).
  right. right. right. apply Nat.le_0_l.
Defined.

Lemma error_eqb_refl (e : error) : error_eqb e e = true.
Proof.
  induction e; simpl; rewrite ?Z.eqb_refl, ?String.eqb_refl, ?IHe; reflexivity.
Qed.

Lemma errors_Is_self (msg : string) (e : error) :
  errors_Is (fmt_Errorf msg e) e = true.
Proof.
  simpl. replace (errors_Is e e) with true; [apply orb_true_r|].
  symmetry. destruct e; simpl; rewrite ?error_eqb_refl, ?Z.eqb_refl,
    ?String.eqb_refl; reflexivity.
Qed.

(** X17: A handshake fails when the certificate file cannot be examined, also
    when a configuration is cached for the domain: the cached object is
    not handed out, no key pair is loaded, and cache and heap stay as
    they are, so that a later handshake that can examine the file finds
    them again.  The error returned wraps the one of [os.Stat]. *)
Theorem cert_stat_failure (env : Env) (hello : ClientHelloInfo) (s : State)
    (d : DomainConfig) (err : error) :
  String.eqb (ServerName hello) "" = false ->
  Domains (cfg s) !! serverNameDomain env (ServerName hello) = Some d ->
  os_Stat env (CertFile d) = Err err ->
  let c := fst (getConfigForClient env hello s) in
  let s' := snd (getConfigForClient env hello s) in
  c = Err (fmt_Errorf "stat certfile" err) /\
  errors_Is (fmt_Errorf "stat certfile" err) err = true /\
  cfg s' = cfg s /\ heap s' = heap s /\ resp s' = resp s /\
  loads s' = loads s /\
  exists pre, sys s' = (sys s ++ [SysStat (CertFile d)])%list /\
              logs s' = (logs s ++ pre)%list /\ (length pre <= 1)%nat.
Proof.
  intros Hn Hd Hs. cbv zeta.
  assert (G : getConfigForClient env hello s =
    (Err (fmt_Errorf "stat certfile" err),
     called (SysStat (CertFile d))
       match Publicsuffix.EffectiveTLDPlusOne (PublicSuffix env)
               (ServerName hello) with
       | Ok _ => s
       | Err e => logged (LogServerNameError (ServerName hello) e) s
       end)).
  { unfold getConfigForClient. rewrite Hn. cbv zeta.
    destruct (Publicsuffix.EffectiveTLDPlusOne (PublicSuffix env)
                (ServerName hello)) as [dom|e] eqn:E;
      cbv beta iota delta [bind ret get log_Printf syscall modify];
      cbn [cfg logged withLogs]; rewrite Hd;
      cbv beta iota delta [bind ret get log_Printf syscall modify];
      rewrite Hs; reflexivity. }
  rewrite G. cbn [fst snd].
  split; [reflexivity|]. split; [apply errors_Is_self|].
  rewrite loads_called. cbn [isLoadKeyPair].
  destruct (Publicsuffix.EffectiveTLDPlusOne (PublicSuffix env)
              (ServerName hello)) as [dom|e];
    repeat (split; [reflexivity|]);
    (split; [unfold loads; cbn [logged withLogs sys]; lia|]).
  - exists []. rewrite app_nil_r. auto.
  - eexists [_]. auto.
Qed.

Lemma cert_stat_failure_witness :
  let env := Scenario.withFiles ∅ None Example.exampleEnv in
  let s := Scenario.cachedState in
  (exists d p, Domains (cfg s) !! "example.com" = Some d /\
               CertConfig d = Some p) /\
  fst (getConfigForClient env {| ServerName := "www.example.com" |} s) =
    Err (fmt_Errorf "stat certfile"
           (fs_PathError "stat"
              "/etc/letsencrypt/live/example.com/fullchain.pem"
              syscall_ENOENT)) /\
  cfg (snd (getConfigForClient env {| ServerName := "www.example.com" |} s)) =
    cfg s.
Proof.
  cbv zeta.
  destruct (cert_stat_failure (Scenario.withFiles ∅ None Example.exampleEnv)
              {| ServerName := "www.example.com" |} Scenario.cachedState
              (setCert 1700000003 (Some 0%nat) Example.exampleDomain)
              (fs_PathError "stat"
                 "/etc/letsencrypt/live/example.com/fullchain.pem"
                 syscall_ENOENT)
              ltac:(reflexivity) ltac:(vm_compute; reflexivity)
              ltac:(vm_compute; reflexivity)) as (A & _ & B & _).
  split; [|split; [exact A | exact B]].
  exists (setCert 1700000003 (Some 0%nat) Example.exampleDomain), 0%nat.
  split; reflexivity.
Defined.

End ErrorPaths.
